(** * try_py_struct: fixed-length (120-byte) record codec and frame reader

    A shallow embedding of [generate_records.py] and [record_parser.py]
    (with the exit-code skeleton of [struct_size.py]) together with the
    parts of their two dependencies that the programs exercise:

    - the [construct] field codecs used by the three [Struct] declarations
      ([Const], [Int8ul], [Int32ul], [Int64ul], [Bytes], [PaddedString],
      [Padding], [Adapter]);
    - CPython's [shift_jis] codec (encoder, decoder, the [strict] and
      [ignore] error handlers, and the JIS X 0208 table).

    Conventions.  A Python [bytes] object is a [list byte]; a Python [str]
    is the list of its Unicode code points ([list N]); a Python [int] is a
    [Z].  An exception is a value of [exn] carried by [Raise]; a function
    that may raise returns a [result].  A byte stream is the list of the
    bytes not yet read. *)

From Stdlib Require Import ZArith NArith String Ascii Bool Lia List.
From Stdlib.Strings Require Import Byte.
From Equations Require Import Equations.
Import ListNotations.

(** ** Python values, exceptions and the helpers of [bytes] and [str] *)

Module Py.

Definition bytes := list byte.
Definition str := list N.

(** The texts of the program's own [raise ValueError(f"...")] statements,
    kept as structured data: the interpolated values are the arguments. *)
Inductive message :=
| TooLong (encoded_len length : nat)      (* 文字列が長すぎます: {len(encoded)} > {self.length} *)
| BadRecordSize (actual : nat)            (* レコードサイズが不正です。… *)
| UnknownRecordType (record_type : N)     (* 不明なレコード区分: {record_type} *)
| InvalidFormat.                          (* 無効なフォーマット文字列: … *)

(** The exception classes that can reach the programs.  [ValueError] is
    raised by the programs themselves; the [Unicode*Error]s (subclasses of
    [ValueError]) by [str.encode] and [bytes.decode]; the others are
    [construct]'s (subclasses of [ConstructError]). *)
Inductive exn :=
| ValueError (m : message)
| UnicodeEncodeError
| UnicodeDecodeError
| ConstError
| FormatFieldError
| PaddingError
| StreamError.

(** [isinstance(e, ValueError)]. *)
Definition is_ValueError (e : exn) : bool :=
  match e with
  | ValueError _ | UnicodeEncodeError | UnicodeDecodeError => true
  | _ => false
  end.

Inductive result (A : Type) :=
| Ok (a : A)
| Raise (e : exn).
Arguments Ok {A} a.
Arguments Raise {A} e.

Definition bind {A B} (r : result A) (k : A -> result B) : result B :=
  match r with
  | Ok a => k a
  | Raise e => Raise e
  end.

Definition fmap {A B} (f : A -> B) (r : result A) : result B :=
  bind r (fun a => Ok (f a)).

(** The cast [(unsigned char) n]. *)
Definition byte_of_N (n : N) : byte :=
  match Byte.of_N (n mod 256) with
  | Some b => b
  | None => x00
  end.

Definition is_nul (b : byte) : bool := Byte.eqb b x00.

(** [b.rstrip(b'\x00')], on the reversed list and as the method. *)
Fixpoint lstrip (b : bytes) : bytes :=
  match b with
  | [] => []
  | x :: rest => if is_nul x then lstrip rest else b
  end.

Definition rstrip (b : bytes) : bytes := rev (lstrip (rev b)).

(** [b.ljust(width, b'\x00')]. *)
Definition ljust (width : nat) (b : bytes) : bytes :=
  b ++ repeat x00 (width - length b).

(** [bytes(n)]: [n] zero bytes. *)
Definition zeros (n : nat) : bytes := repeat x00 n.

(** [s.encode("ascii")] and [b.decode("ascii")], both strict. *)
Fixpoint ascii_encode (s : str) : result bytes :=
  match s with
  | [] => Ok []
  | c :: rest =>
      if (c <? 0x80)%N
      then fmap (cons (byte_of_N c)) (ascii_encode rest)
      else Raise UnicodeEncodeError
  end.

Fixpoint ascii_decode (b : bytes) : result str :=
  match b with
  | [] => Ok []
  | x :: rest =>
      if (Byte.to_N x <? 0x80)%N
      then fmap (cons (Byte.to_N x)) (ascii_decode rest)
      else Raise UnicodeDecodeError
  end.

(** A string literal of the (UTF-8) source text, as the interpreter reads
    it: the code points of the characters between the quotes. *)
Fixpoint utf8 (l : list N) : str :=
  match l with
  | [] => []
  | a :: r1 =>
      if (a <? 0x80)%N then a :: utf8 r1
      else match r1 with
      | [] => []
      | b :: r2 =>
          if (a <? 0xE0)%N
          then ((a - 0xC0) * 64 + (b - 0x80))%N :: utf8 r2
          else match r2 with
          | [] => []
          | c :: r3 =>
              if (a <? 0xF0)%N
              then ((a - 0xE0) * 4096 + (b - 0x80) * 64 + (c - 0x80))%N :: utf8 r3
              else match r3 with
              | [] => []
              | d :: r4 =>
                  ((a - 0xF0) * 262144 + (b - 0x80) * 4096
                   + (c - 0x80) * 64 + (d - 0x80))%N :: utf8 r4
              end
          end
      end
  end.

Definition lit (s : string) : str :=
  utf8 (map N_of_ascii (list_ascii_of_string s)).

End Py.

Import Py.

Notation "x <- r ;; k" := (Py.bind r (fun x => k))
  (at level 61, r at next level, right associativity).

(** ** CPython's shift_jis codec *)

Module ShiftJIS.

Local Open Scope N_scope.

(** The marker of an unassigned cell in a decoding table. *)
Definition UNIINV : N := 0xFFFE.

(** The decoding table [jisx0208] of the codec (mappings_jp.h), one row per
    first JIS byte 0x21..0x7E and one cell per second byte 0x21..0x7E; a row
    without any assigned cell is empty. *)
Definition jisx0208_row_21 : list N :=
  [ 0x3000; 0x3001; 0x3002; 0xFF0C; 0xFF0E; 0x30FB; 0xFF1A; 0xFF1B; 0xFF1F; 0xFF01; 0x309B; 0x309C;
    0x00B4; 0xFF40; 0x00A8; 0xFF3E; 0xFFE3; 0xFF3F; 0x30FD; 0x30FE; 0x309D; 0x309E; 0x3003; 0x4EDD;
    0x3005; 0x3006; 0x3007; 0x30FC; 0x2015; 0x2010; 0xFF0F; 0x005C; 0x301C; 0x2016; 0xFF5C; 0x2026;
    0x2025; 0x2018; 0x2019; 0x201C; 0x201D; 0xFF08; 0xFF09; 0x3014; 0x3015; 0xFF3B; 0xFF3D; 0xFF5B;
    0xFF5D; 0x3008; 0x3009; 0x300A; 0x300B; 0x300C; 0x300D; 0x300E; 0x300F; 0x3010; 0x3011; 0xFF0B;
    0x2212; 0x00B1; 0x00D7; 0x00F7; 0xFF1D; 0x2260; 0xFF1C; 0xFF1E; 0x2266; 0x2267; 0x221E; 0x2234;
    0x2642; 0x2640; 0x00B0; 0x2032; 0x2033; 0x2103; 0xFFE5; 0xFF04; 0x00A2; 0x00A3; 0xFF05; 0xFF03;
    0xFF06; 0xFF0A; 0xFF20; 0x00A7; 0x2606; 0x2605; 0x25CB; 0x25CF; 0x25CE; 0x25C7 ].
Definition jisx0208_row_22 : list N :=
  [ 0x25C6; 0x25A1; 0x25A0; 0x25B3; 0x25B2; 0x25BD; 0x25BC; 0x203B; 0x3012; 0x2192; 0x2190; 0x2191;
    0x2193; 0x3013; 0xFFFE; 0xFFFE; 0xFFFE; 0xFFFE; 0xFFFE; 0xFFFE; 0xFFFE; 0xFFFE; 0xFFFE; 0xFFFE;
    0xFFFE; 0x2208; 0x220B; 0x2286; 0x2287; 0x2282; 0x2283; 0x222A; 0x2229; 0xFFFE; 0xFFFE; 0xFFFE;
    0xFFFE; 0xFFFE; 0xFFFE; 0xFFFE; 0xFFFE; 0x2227; 0x2228; 0x00AC; 0x21D2; 0x21D4; 0x2200; 0x2203;
    0xFFFE; 0xFFFE; 0xFFFE; 0xFFFE; 0xFFFE; 0xFFFE; 0xFFFE; 0xFFFE; 0xFFFE; 0xFFFE; 0xFFFE; 0x2220;
    0x22A5; 0x2312; 0x2202; 0x2207; 0x2261; 0x2252; 0x226A; 0x226B; 0x221A; 0x223D; 0x221D; 0x2235;
    0x222B; 0x222C; 0xFFFE; 0xFFFE; 0xFFFE; 0xFFFE; 0xFFFE; 0xFFFE; 0xFFFE; 0x212B; 0x2030; 0x266F;
    0x266D; 0x266A; 0x2020; 0x2021; 0x00B6; 0xFFFE; 0xFFFE; 0xFFFE; 0xFFFE; 0x25EF ].
Definition jisx0208_row_23 : list N :=
  [ 0xFFFE; 0xFFFE; 0xFFFE; 0xFFFE; 0xFFFE; 0xFFFE; 0xFFFE; 0xFFFE; 0xFFFE; 0xFFFE; 0xFFFE; 0xFFFE;
    0xFFFE; 0xFFFE; 0xFFFE; 0xFF10; 0xFF11; 0xFF12; 0xFF13; 0xFF14; 0xFF15; 0xFF16; 0xFF17; 0xFF18;
    0xFF19; 0xFFFE; 0xFFFE; 0xFFFE; 0xFFFE; 0xFFFE; 0xFFFE; 0xFFFE; 0xFF21; 0xFF22; 0xFF23; 0xFF24;
    0xFF25; 0xFF26; 0xFF27; 0xFF28; 0xFF29; 0xFF2A; 0xFF2B; 0xFF2C; 0xFF2D; 0xFF2E; 0xFF2F; 0xFF30;
    0xFF31; 0xFF32; 0xFF33; 0xFF34; 0xFF35; 0xFF36; 0xFF37; 0xFF38; 0xFF39; 0xFF3A; 0xFFFE; 0xFFFE;
    0xFFFE; 0xFFFE; 0xFFFE; 0xFFFE; 0xFF41; 0xFF42; 0xFF43; 0xFF44; 0xFF45; 0xFF46; 0xFF47; 0xFF48;
    0xFF49; 0xFF4A; 0xFF4B; 0xFF4C; 0xFF4D; 0xFF4E; 0xFF4F; 0xFF50; 0xFF51; 0xFF52; 0xFF53; 0xFF54;
    0xFF55; 0xFF56; 0xFF57; 0xFF58; 0xFF59; 0xFF5A; 0xFFFE; 0xFFFE; 0xFFFE; 0xFFFE ].
Definition jisx0208_row_24 : list N :=
  [ 0x3041; 0x3042; 0x3043; 0x3044; 0x3045; 0x3046; 0x3047; 0x3048; 0x3049; 0x304A; 0x304B; 0x304C;
    0x304D; 0x304E; 0x304F; 0x3050; 0x3051; 0x3052; 0x3053; 0x3054; 0x3055; 0x3056; 0x3057; 0x3058;
    0x3059; 0x305A; 0x305B; 0x305C; 0x305D; 0x305E; 0x305F; 0x3060; 0x3061; 0x3062; 0x3063; 0x3064;
    0x3065; 0x3066; 0x3067; 0x3068; 0x3069; 0x306A; 0x306B; 0x306C; 0x306D; 0x306E; 0x306F; 0x3070;
    0x3071; 0x3072; 0x3073; 0x3074; 0x3075; 0x3076; 0x3077; 0x3078; 0x3079; 0x307A; 0x307B; 0x307C;
    0x307D; 0x307E; 0x307F; 0x3080; 0x3081; 0x3082; 0x3083; 0x3084; 0x3085; 0x3086; 0x3087; 0x3088;
    0x3089; 0x308A; 0x308B; 0x308C; 0x308D; 0x308E; 0x308F; 0x3090; 0x3091; 0x3092; 0x3093; 0xFFFE;
    0xFFFE; 0xFFFE; 0xFFFE; 0xFFFE; 0xFFFE; 0xFFFE; 0xFFFE; 0xFFFE; 0xFFFE; 0xFFFE ].
Definition jisx0208_row_25 : list N :=
  [ 0x30A1; 0x30A2; 0x30A3; 0x30A4; 0x30A5; 0x30A6; 0x30A7; 0x30A8; 0x30A9; 0x30AA; 0x30AB; 0x30AC;
    0x30AD; 0x30AE; 0x30AF; 0x30B0; 0x30B1; 0x30B2; 0x30B3; 0x30B4; 0x30B5; 0x30B6; 0x30B7; 0x30B8;
    0x30B9; 0x30BA; 0x30BB; 0x30BC; 0x30BD; 0x30BE; 0x30BF; 0x30C0; 0x30C1; 0x30C2; 0x30C3; 0x30C4;
    0x30C5; 0x30C6; 0x30C7; 0x30C8; 0x30C9; 0x30CA; 0x30CB; 0x30CC; 0x30CD; 0x30CE; 0x30CF; 0x30D0;
    0x30D1; 0x30D2; 0x30D3; 0x30D4; 0x30D5; 0x30D6; 0x30D7; 0x30D8; 0x30D9; 0x30DA; 0x30DB; 0x30DC;
    0x30DD; 0x30DE; 0x30DF; 0x30E0; 0x30E1; 0x30E2; 0x30E3; 0x30E4; 0x30E5; 0x30E6; 0x30E7; 0x30E8;
    0x30E9; 0x30EA; 0x30EB; 0x30EC; 0x30ED; 0x30EE; 0x30EF; 0x30F0; 0x30F1; 0x30F2; 0x30F3; 0x30F4;
    0x30F5; 0x30F6; 0xFFFE; 0xFFFE; 0xFFFE; 0xFFFE; 0xFFFE; 0xFFFE; 0xFFFE; 0xFFFE ].
Definition jisx0208_row_26 : list N :=
  [ 0x0391; 0x0392; 0x0393; 0x0394; 0x0395; 0x0396; 0x0397; 0x0398; 0x0399; 0x039A; 0x039B; 0x039C;
    0x039D; 0x039E; 0x039F; 0x03A0; 0x03A1; 0x03A3; 0x03A4; 0x03A5; 0x03A6; 0x03A7; 0x03A8; 0x03A9;
    0xFFFE; 0xFFFE; 0xFFFE; 0xFFFE; 0xFFFE; 0xFFFE; 0xFFFE; 0xFFFE; 0x03B1; 0x03B2; 0x03B3; 0x03B4;
    0x03B5; 0x03B6; 0x03B7; 0x03B8; 0x03B9; 0x03BA; 0x03BB; 0x03BC; 0x03BD; 0x03BE; 0x03BF; 0x03C0;
    0x03C1; 0x03C3; 0x03C4; 0x03C5; 0x03C6; 0x03C7; 0x03C8; 0x03C9; 0xFFFE; 0xFFFE; 0xFFFE; 0xFFFE;
    0xFFFE; 0xFFFE; 0xFFFE; 0xFFFE; 0xFFFE; 0xFFFE; 0xFFFE; 0xFFFE; 0xFFFE; 0xFFFE; 0xFFFE; 0xFFFE;
    0xFFFE; 0xFFFE; 0xFFFE; 0xFFFE; 0xFFFE; 0xFFFE; 0xFFFE; 0xFFFE; 0xFFFE; 0xFFFE; 0xFFFE; 0xFFFE;
    0xFFFE; 0xFFFE; 0xFFFE; 0xFFFE; 0xFFFE; 0xFFFE; 0xFFFE; 0xFFFE; 0xFFFE; 0xFFFE ].
Definition jisx0208_row_27 : list N :=
  [ 0x0410; 0x0411; 0x0412; 0x0413; 0x0414; 0x0415; 0x0401; 0x0416; 0x0417; 0x0418; 0x0419; 0x041A;
    0x041B; 0x041C; 0x041D; 0x041E; 0x041F; 0x0420; 0x0421; 0x0422; 0x0423; 0x0424; 0x0425; 0x0426;
    0x0427; 0x0428; 0x0429; 0x042A; 0x042B; 0x042C; 0x042D; 0x042E; 0x042F; 0xFFFE; 0xFFFE; 0xFFFE;
    0xFFFE; 0xFFFE; 0xFFFE; 0xFFFE; 0xFFFE; 0xFFFE; 0xFFFE; 0xFFFE; 0xFFFE; 0xFFFE; 0xFFFE; 0xFFFE;
    0x0430; 0x0431; 0x0432; 0x0433; 0x0434; 0x0435; 0x0451; 0x0436; 0x0437; 0x0438; 0x0439; 0x043A;
    0x043B; 0x043C; 0x043D; 0x043E; 0x043F; 0x0440; 0x0441; 0x0442; 0x0443; 0x0444; 0x0445; 0x0446;
    0x0447; 0x0448; 0x0449; 0x044A; 0x044B; 0x044C; 0x044D; 0x044E; 0x044F; 0xFFFE; 0xFFFE; 0xFFFE;
    0xFFFE; 0xFFFE; 0xFFFE; 0xFFFE; 0xFFFE; 0xFFFE; 0xFFFE; 0xFFFE; 0xFFFE; 0xFFFE ].
Definition jisx0208_row_28 : list N :=
  [ 0x2500; 0x2502; 0x250C; 0x2510; 0x2518; 0x2514; 0x251C; 0x252C; 0x2524; 0x2534; 0x253C; 0x2501;
    0x2503; 0x250F; 0x2513; 0x251B; 0x2517; 0x2523; 0x2533; 0x252B; 0x253B; 0x254B; 0x2520; 0x252F;
    0x2528; 0x2537; 0x253F; 0x251D; 0x2530; 0x2525; 0x2538; 0x2542; 0xFFFE; 0xFFFE; 0xFFFE; 0xFFFE;
    0xFFFE; 0xFFFE; 0xFFFE; 0xFFFE; 0xFFFE; 0xFFFE; 0xFFFE; 0xFFFE; 0xFFFE; 0xFFFE; 0xFFFE; 0xFFFE;
    0xFFFE; 0xFFFE; 0xFFFE; 0xFFFE; 0xFFFE; 0xFFFE; 0xFFFE; 0xFFFE; 0xFFFE; 0xFFFE; 0xFFFE; 0xFFFE;
    0xFFFE; 0xFFFE; 0xFFFE; 0xFFFE; 0xFFFE; 0xFFFE; 0xFFFE; 0xFFFE; 0xFFFE; 0xFFFE; 0xFFFE; 0xFFFE;
    0xFFFE; 0xFFFE; 0xFFFE; 0xFFFE; 0xFFFE; 0xFFFE; 0xFFFE; 0xFFFE; 0xFFFE; 0xFFFE; 0xFFFE; 0xFFFE;
    0xFFFE; 0xFFFE; 0xFFFE; 0xFFFE; 0xFFFE; 0xFFFE; 0xFFFE; 0xFFFE; 0xFFFE; 0xFFFE ].
Definition jisx0208_row_30 : list N :=
  [ 0x4E9C; 0x5516; 0x5A03; 0x963F; 0x54C0; 0x611B; 0x6328; 0x59F6; 0x9022; 0x8475; 0x831C; 0x7A50;
    0x60AA; 0x63E1; 0x6E25; 0x65ED; 0x8466; 0x82A6; 0x9BF5; 0x6893; 0x5727; 0x65A1; 0x6271; 0x5B9B;
    0x59D0; 0x867B; 0x98F4; 0x7D62; 0x7DBE; 0x9B8E; 0x6216; 0x7C9F; 0x88B7; 0x5B89; 0x5EB5; 0x6309;
    0x6697; 0x6848; 0x95C7; 0x978D; 0x674F; 0x4EE5; 0x4F0A; 0x4F4D; 0x4F9D; 0x5049; 0x56F2; 0x5937;
    0x59D4; 0x5A01; 0x5C09; 0x60DF; 0x610F; 0x6170; 0x6613; 0x6905; 0x70BA; 0x754F; 0x7570; 0x79FB;
    0x7DAD; 0x7DEF; 0x80C3; 0x840E; 0x8863; 0x8B02; 0x9055; 0x907A; 0x533B; 0x4E95; 0x4EA5; 0x57DF;
    0x80B2; 0x90C1; 0x78EF; 0x4E00; 0x58F1; 0x6EA2; 0x9038; 0x7A32; 0x8328; 0x828B; 0x9C2F; 0x5141;
    0x5370; 0x54BD; 0x54E1; 0x56E0; 0x59FB; 0x5F15; 0x98F2; 0x6DEB; 0x80E4; 0x852D ].
Definition jisx0208_row_31 : list N :=
  [ 0x9662; 0x9670; 0x96A0; 0x97FB; 0x540B; 0x53F3; 0x5B87; 0x70CF; 0x7FBD; 0x8FC2; 0x96E8; 0x536F;
    0x9D5C; 0x7ABA; 0x4E11; 0x7893; 0x81FC; 0x6E26; 0x5618; 0x5504; 0x6B1D; 0x851A; 0x9C3B; 0x59E5;
    0x53A9; 0x6D66; 0x74DC; 0x958F; 0x5642; 0x4E91; 0x904B; 0x96F2; 0x834F; 0x990C; 0x53E1; 0x55B6;
    0x5B30; 0x5F71; 0x6620; 0x66F3; 0x6804; 0x6C38; 0x6CF3; 0x6D29; 0x745B; 0x76C8; 0x7A4E; 0x9834;
    0x82F1; 0x885B; 0x8A60; 0x92ED; 0x6DB2; 0x75AB; 0x76CA; 0x99C5; 0x60A6; 0x8B01; 0x8D8A; 0x95B2;
    0x698E; 0x53AD; 0x5186; 0x5712; 0x5830; 0x5944; 0x5BB4; 0x5EF6; 0x6028; 0x63A9; 0x63F4; 0x6CBF;
    0x6F14; 0x708E; 0x7114; 0x7159; 0x71D5; 0x733F; 0x7E01; 0x8276; 0x82D1; 0x8597; 0x9060; 0x925B;
    0x9D1B; 0x5869; 0x65BC; 0x6C5A; 0x7525; 0x51F9; 0x592E; 0x5965; 0x5F80; 0x5FDC ].
Definition jisx0208_row_32 : list N :=
  [ 0x62BC; 0x65FA; 0x6A2A; 0x6B27; 0x6BB4; 0x738B; 0x7FC1; 0x8956; 0x9D2C; 0x9D0E; 0x9EC4; 0x5CA1;
    0x6C96; 0x837B; 0x5104; 0x5C4B; 0x61B6; 0x81C6; 0x6876; 0x7261; 0x4E59; 0x4FFA; 0x5378; 0x6069;
    0x6E29; 0x7A4F; 0x97F3; 0x4E0B; 0x5316; 0x4EEE; 0x4F55; 0x4F3D; 0x4FA1; 0x4F73; 0x52A0; 0x53EF;
    0x5609; 0x590F; 0x5AC1; 0x5BB6; 0x5BE1; 0x79D1; 0x6687; 0x679C; 0x67B6; 0x6B4C; 0x6CB3; 0x706B;
    0x73C2; 0x798D; 0x79BE; 0x7A3C; 0x7B87; 0x82B1; 0x82DB; 0x8304; 0x8377; 0x83EF; 0x83D3; 0x8766;
    0x8AB2; 0x5629; 0x8CA8; 0x8FE6; 0x904E; 0x971E; 0x868A; 0x4FC4; 0x5CE8; 0x6211; 0x7259; 0x753B;
    0x81E5; 0x82BD; 0x86FE; 0x8CC0; 0x96C5; 0x9913; 0x99D5; 0x4ECB; 0x4F1A; 0x89E3; 0x56DE; 0x584A;
    0x58CA; 0x5EFB; 0x5FEB; 0x602A; 0x6094; 0x6062; 0x61D0; 0x6212; 0x62D0; 0x6539 ].
Definition jisx0208_row_33 : list N :=
  [ 0x9B41; 0x6666; 0x68B0; 0x6D77; 0x7070; 0x754C; 0x7686; 0x7D75; 0x82A5; 0x87F9; 0x958B; 0x968E;
    0x8C9D; 0x51F1; 0x52BE; 0x5916; 0x54B3; 0x5BB3; 0x5D16; 0x6168; 0x6982; 0x6DAF; 0x788D; 0x84CB;
    0x8857; 0x8A72; 0x93A7; 0x9AB8; 0x6D6C; 0x99A8; 0x86D9; 0x57A3; 0x67FF; 0x86CE; 0x920E; 0x5283;
    0x5687; 0x5404; 0x5ED3; 0x62E1; 0x64B9; 0x683C; 0x6838; 0x6BBB; 0x7372; 0x78BA; 0x7A6B; 0x899A;
    0x89D2; 0x8D6B; 0x8F03; 0x90ED; 0x95A3; 0x9694; 0x9769; 0x5B66; 0x5CB3; 0x697D; 0x984D; 0x984E;
    0x639B; 0x7B20; 0x6A2B; 0x6A7F; 0x68B6; 0x9C0D; 0x6F5F; 0x5272; 0x559D; 0x6070; 0x62EC; 0x6D3B;
    0x6E07; 0x6ED1; 0x845B; 0x8910; 0x8F44; 0x4E14; 0x9C39; 0x53F6; 0x691B; 0x6A3A; 0x9784; 0x682A;
    0x515C; 0x7AC3; 0x84B2; 0x91DC; 0x938C; 0x565B; 0x9D28; 0x6822; 0x8305; 0x8431 ].
Definition jisx0208_row_34 : list N :=
  [ 0x7CA5; 0x5208; 0x82C5; 0x74E6; 0x4E7E; 0x4F83; 0x51A0; 0x5BD2; 0x520A; 0x52D8; 0x52E7; 0x5DFB;
    0x559A; 0x582A; 0x59E6; 0x5B8C; 0x5B98; 0x5BDB; 0x5E72; 0x5E79; 0x60A3; 0x611F; 0x6163; 0x61BE;
    0x63DB; 0x6562; 0x67D1; 0x6853; 0x68FA; 0x6B3E; 0x6B53; 0x6C57; 0x6F22; 0x6F97; 0x6F45; 0x74B0;
    0x7518; 0x76E3; 0x770B; 0x7AFF; 0x7BA1; 0x7C21; 0x7DE9; 0x7F36; 0x7FF0; 0x809D; 0x8266; 0x839E;
    0x89B3; 0x8ACC; 0x8CAB; 0x9084; 0x9451; 0x9593; 0x9591; 0x95A2; 0x9665; 0x97D3; 0x9928; 0x8218;
    0x4E38; 0x542B; 0x5CB8; 0x5DCC; 0x73A9; 0x764C; 0x773C; 0x5CA9; 0x7FEB; 0x8D0B; 0x96C1; 0x9811;
    0x9854; 0x9858; 0x4F01; 0x4F0E; 0x5371; 0x559C; 0x5668; 0x57FA; 0x5947; 0x5B09; 0x5BC4; 0x5C90;
    0x5E0C; 0x5E7E; 0x5FCC; 0x63EE; 0x673A; 0x65D7; 0x65E2; 0x671F; 0x68CB; 0x68C4 ].
Definition jisx0208_row_35 : list N :=
  [ 0x6A5F; 0x5E30; 0x6BC5; 0x6C17; 0x6C7D; 0x757F; 0x7948; 0x5B63; 0x7A00; 0x7D00; 0x5FBD; 0x898F;
    0x8A18; 0x8CB4; 0x8D77; 0x8ECC; 0x8F1D; 0x98E2; 0x9A0E; 0x9B3C; 0x4E80; 0x507D; 0x5100; 0x5993;
    0x5B9C; 0x622F; 0x6280; 0x64EC; 0x6B3A; 0x72A0; 0x7591; 0x7947; 0x7FA9; 0x87FB; 0x8ABC; 0x8B70;
    0x63AC; 0x83CA; 0x97A0; 0x5409; 0x5403; 0x55AB; 0x6854; 0x6A58; 0x8A70; 0x7827; 0x6775; 0x9ECD;
    0x5374; 0x5BA2; 0x811A; 0x8650; 0x9006; 0x4E18; 0x4E45; 0x4EC7; 0x4F11; 0x53CA; 0x5438; 0x5BAE;
    0x5F13; 0x6025; 0x6551; 0x673D; 0x6C42; 0x6C72; 0x6CE3; 0x7078; 0x7403; 0x7A76; 0x7AAE; 0x7B08;
    0x7D1A; 0x7CFE; 0x7D66; 0x65E7; 0x725B; 0x53BB; 0x5C45; 0x5DE8; 0x62D2; 0x62E0; 0x6319; 0x6E20;
    0x865A; 0x8A31; 0x8DDD; 0x92F8; 0x6F01; 0x79A6; 0x9B5A; 0x4EA8; 0x4EAB; 0x4EAC ].
Definition jisx0208_row_36 : list N :=
  [ 0x4F9B; 0x4FA0; 0x50D1; 0x5147; 0x7AF6; 0x5171; 0x51F6; 0x5354; 0x5321; 0x537F; 0x53EB; 0x55AC;
    0x5883; 0x5CE1; 0x5F37; 0x5F4A; 0x602F; 0x6050; 0x606D; 0x631F; 0x6559; 0x6A4B; 0x6CC1; 0x72C2;
    0x72ED; 0x77EF; 0x80F8; 0x8105; 0x8208; 0x854E; 0x90F7; 0x93E1; 0x97FF; 0x9957; 0x9A5A; 0x4EF0;
    0x51DD; 0x5C2D; 0x6681; 0x696D; 0x5C40; 0x66F2; 0x6975; 0x7389; 0x6850; 0x7C81; 0x50C5; 0x52E4;
    0x5747; 0x5DFE; 0x9326; 0x65A4; 0x6B23; 0x6B3D; 0x7434; 0x7981; 0x79BD; 0x7B4B; 0x7DCA; 0x82B9;
    0x83CC; 0x887F; 0x895F; 0x8B39; 0x8FD1; 0x91D1; 0x541F; 0x9280; 0x4E5D; 0x5036; 0x53E5; 0x533A;
    0x72D7; 0x7396; 0x77E9; 0x82E6; 0x8EAF; 0x99C6; 0x99C8; 0x99D2; 0x5177; 0x611A; 0x865E; 0x55B0;
    0x7A7A; 0x5076; 0x5BD3; 0x9047; 0x9685; 0x4E32; 0x6ADB; 0x91E7; 0x5C51; 0x5C48 ].
Definition jisx0208_row_37 : list N :=
  [ 0x6398; 0x7A9F; 0x6C93; 0x9774; 0x8F61; 0x7AAA; 0x718A; 0x9688; 0x7C82; 0x6817; 0x7E70; 0x6851;
    0x936C; 0x52F2; 0x541B; 0x85AB; 0x8A13; 0x7FA4; 0x8ECD; 0x90E1; 0x5366; 0x8888; 0x7941; 0x4FC2;
    0x50BE; 0x5211; 0x5144; 0x5553; 0x572D; 0x73EA; 0x578B; 0x5951; 0x5F62; 0x5F84; 0x6075; 0x6176;
    0x6167; 0x61A9; 0x63B2; 0x643A; 0x656C; 0x666F; 0x6842; 0x6E13; 0x7566; 0x7A3D; 0x7CFB; 0x7D4C;
    0x7D99; 0x7E4B; 0x7F6B; 0x830E; 0x834A; 0x86CD; 0x8A08; 0x8A63; 0x8B66; 0x8EFD; 0x981A; 0x9D8F;
    0x82B8; 0x8FCE; 0x9BE8; 0x5287; 0x621F; 0x6483; 0x6FC0; 0x9699; 0x6841; 0x5091; 0x6B20; 0x6C7A;
    0x6F54; 0x7A74; 0x7D50; 0x8840; 0x8A23; 0x6708; 0x4EF6; 0x5039; 0x5026; 0x5065; 0x517C; 0x5238;
    0x5263; 0x55A7; 0x570F; 0x5805; 0x5ACC; 0x5EFA; 0x61B2; 0x61F8; 0x62F3; 0x6372 ].
Definition jisx0208_row_38 : list N :=
  [ 0x691C; 0x6A29; 0x727D; 0x72AC; 0x732E; 0x7814; 0x786F; 0x7D79; 0x770C; 0x80A9; 0x898B; 0x8B19;
    0x8CE2; 0x8ED2; 0x9063; 0x9375; 0x967A; 0x9855; 0x9A13; 0x9E78; 0x5143; 0x539F; 0x53B3; 0x5E7B;
    0x5F26; 0x6E1B; 0x6E90; 0x7384; 0x73FE; 0x7D43; 0x8237; 0x8A00; 0x8AFA; 0x9650; 0x4E4E; 0x500B;
    0x53E4; 0x547C; 0x56FA; 0x59D1; 0x5B64; 0x5DF1; 0x5EAB; 0x5F27; 0x6238; 0x6545; 0x67AF; 0x6E56;
    0x72D0; 0x7CCA; 0x88B4; 0x80A1; 0x80E1; 0x83F0; 0x864E; 0x8A87; 0x8DE8; 0x9237; 0x96C7; 0x9867;
    0x9F13; 0x4E94; 0x4E92; 0x4F0D; 0x5348; 0x5449; 0x543E; 0x5A2F; 0x5F8C; 0x5FA1; 0x609F; 0x68A7;
    0x6A8E; 0x745A; 0x7881; 0x8A9E; 0x8AA4; 0x8B77; 0x9190; 0x4E5E; 0x9BC9; 0x4EA4; 0x4F7C; 0x4FAF;
    0x5019; 0x5016; 0x5149; 0x516C; 0x529F; 0x52B9; 0x52FE; 0x539A; 0x53E3; 0x5411 ].
Definition jisx0208_row_39 : list N :=
  [ 0x540E; 0x5589; 0x5751; 0x57A2; 0x597D; 0x5B54; 0x5B5D; 0x5B8F; 0x5DE5; 0x5DE7; 0x5DF7; 0x5E78;
    0x5E83; 0x5E9A; 0x5EB7; 0x5F18; 0x6052; 0x614C; 0x6297; 0x62D8; 0x63A7; 0x653B; 0x6602; 0x6643;
    0x66F4; 0x676D; 0x6821; 0x6897; 0x69CB; 0x6C5F; 0x6D2A; 0x6D69; 0x6E2F; 0x6E9D; 0x7532; 0x7687;
    0x786C; 0x7A3F; 0x7CE0; 0x7D05; 0x7D18; 0x7D5E; 0x7DB1; 0x8015; 0x8003; 0x80AF; 0x80B1; 0x8154;
    0x818F; 0x822A; 0x8352; 0x884C; 0x8861; 0x8B1B; 0x8CA2; 0x8CFC; 0x90CA; 0x9175; 0x9271; 0x783F;
    0x92FC; 0x95A4; 0x964D; 0x9805; 0x9999; 0x9AD8; 0x9D3B; 0x525B; 0x52AB; 0x53F7; 0x5408; 0x58D5;
    0x62F7; 0x6FE0; 0x8C6A; 0x8F5F; 0x9EB9; 0x514B; 0x523B; 0x544A; 0x56FD; 0x7A40; 0x9177; 0x9D60;
    0x9ED2; 0x7344; 0x6F09; 0x8170; 0x7511; 0x5FFD; 0x60DA; 0x9AA8; 0x72DB; 0x8FBC ].
Definition jisx0208_row_3A : list N :=
  [ 0x6B64; 0x9803; 0x4ECA; 0x56F0; 0x5764; 0x58BE; 0x5A5A; 0x6068; 0x61C7; 0x660F; 0x6606; 0x6839;
    0x68B1; 0x6DF7; 0x75D5; 0x7D3A; 0x826E; 0x9B42; 0x4E9B; 0x4F50; 0x53C9; 0x5506; 0x5D6F; 0x5DE6;
    0x5DEE; 0x67FB; 0x6C99; 0x7473; 0x7802; 0x8A50; 0x9396; 0x88DF; 0x5750; 0x5EA7; 0x632B; 0x50B5;
    0x50AC; 0x518D; 0x6700; 0x54C9; 0x585E; 0x59BB; 0x5BB0; 0x5F69; 0x624D; 0x63A1; 0x683D; 0x6B73;
    0x6E08; 0x707D; 0x91C7; 0x7280; 0x7815; 0x7826; 0x796D; 0x658E; 0x7D30; 0x83DC; 0x88C1; 0x8F09;
    0x969B; 0x5264; 0x5728; 0x6750; 0x7F6A; 0x8CA1; 0x51B4; 0x5742; 0x962A; 0x583A; 0x698A; 0x80B4;
    0x54B2; 0x5D0E; 0x57FC; 0x7895; 0x9DFA; 0x4F5C; 0x524A; 0x548B; 0x643E; 0x6628; 0x6714; 0x67F5;
    0x7A84; 0x7B56; 0x7D22; 0x932F; 0x685C; 0x9BAD; 0x7B39; 0x5319; 0x518A; 0x5237 ].
Definition jisx0208_row_3B : list N :=
  [ 0x5BDF; 0x62F6; 0x64AE; 0x64E6; 0x672D; 0x6BBA; 0x85A9; 0x96D1; 0x7690; 0x9BD6; 0x634C; 0x9306;
    0x9BAB; 0x76BF; 0x6652; 0x4E09; 0x5098; 0x53C2; 0x5C71; 0x60E8; 0x6492; 0x6563; 0x685F; 0x71E6;
    0x73CA; 0x7523; 0x7B97; 0x7E82; 0x8695; 0x8B83; 0x8CDB; 0x9178; 0x9910; 0x65AC; 0x66AB; 0x6B8B;
    0x4ED5; 0x4ED4; 0x4F3A; 0x4F7F; 0x523A; 0x53F8; 0x53F2; 0x55E3; 0x56DB; 0x58EB; 0x59CB; 0x59C9;
    0x59FF; 0x5B50; 0x5C4D; 0x5E02; 0x5E2B; 0x5FD7; 0x601D; 0x6307; 0x652F; 0x5B5C; 0x65AF; 0x65BD;
    0x65E8; 0x679D; 0x6B62; 0x6B7B; 0x6C0F; 0x7345; 0x7949; 0x79C1; 0x7CF8; 0x7D19; 0x7D2B; 0x80A2;
    0x8102; 0x81F3; 0x8996; 0x8A5E; 0x8A69; 0x8A66; 0x8A8C; 0x8AEE; 0x8CC7; 0x8CDC; 0x96CC; 0x98FC;
    0x6B6F; 0x4E8B; 0x4F3C; 0x4F8D; 0x5150; 0x5B57; 0x5BFA; 0x6148; 0x6301; 0x6642 ].
Definition jisx0208_row_3C : list N :=
  [ 0x6B21; 0x6ECB; 0x6CBB; 0x723E; 0x74BD; 0x75D4; 0x78C1; 0x793A; 0x800C; 0x8033; 0x81EA; 0x8494;
    0x8F9E; 0x6C50; 0x9E7F; 0x5F0F; 0x8B58; 0x9D2B; 0x7AFA; 0x8EF8; 0x5B8D; 0x96EB; 0x4E03; 0x53F1;
    0x57F7; 0x5931; 0x5AC9; 0x5BA4; 0x6089; 0x6E7F; 0x6F06; 0x75BE; 0x8CEA; 0x5B9F; 0x8500; 0x7BE0;
    0x5072; 0x67F4; 0x829D; 0x5C61; 0x854A; 0x7E1E; 0x820E; 0x5199; 0x5C04; 0x6368; 0x8D66; 0x659C;
    0x716E; 0x793E; 0x7D17; 0x8005; 0x8B1D; 0x8ECA; 0x906E; 0x86C7; 0x90AA; 0x501F; 0x52FA; 0x5C3A;
    0x6753; 0x707C; 0x7235; 0x914C; 0x91C8; 0x932B; 0x82E5; 0x5BC2; 0x5F31; 0x60F9; 0x4E3B; 0x53D6;
    0x5B88; 0x624B; 0x6731; 0x6B8A; 0x72E9; 0x73E0; 0x7A2E; 0x816B; 0x8DA3; 0x9152; 0x9996; 0x5112;
    0x53D7; 0x546A; 0x5BFF; 0x6388; 0x6A39; 0x7DAC; 0x9700; 0x56DA; 0x53CE; 0x5468 ].
Definition jisx0208_row_3D : list N :=
  [ 0x5B97; 0x5C31; 0x5DDE; 0x4FEE; 0x6101; 0x62FE; 0x6D32; 0x79C0; 0x79CB; 0x7D42; 0x7E4D; 0x7FD2;
    0x81ED; 0x821F; 0x8490; 0x8846; 0x8972; 0x8B90; 0x8E74; 0x8F2F; 0x9031; 0x914B; 0x916C; 0x96C6;
    0x919C; 0x4EC0; 0x4F4F; 0x5145; 0x5341; 0x5F93; 0x620E; 0x67D4; 0x6C41; 0x6E0B; 0x7363; 0x7E26;
    0x91CD; 0x9283; 0x53D4; 0x5919; 0x5BBF; 0x6DD1; 0x795D; 0x7E2E; 0x7C9B; 0x587E; 0x719F; 0x51FA;
    0x8853; 0x8FF0; 0x4FCA; 0x5CFB; 0x6625; 0x77AC; 0x7AE3; 0x821C; 0x99FF; 0x51C6; 0x5FAA; 0x65EC;
    0x696F; 0x6B89; 0x6DF3; 0x6E96; 0x6F64; 0x76FE; 0x7D14; 0x5DE1; 0x9075; 0x9187; 0x9806; 0x51E6;
    0x521D; 0x6240; 0x6691; 0x66D9; 0x6E1A; 0x5EB6; 0x7DD2; 0x7F72; 0x66F8; 0x85AF; 0x85F7; 0x8AF8;
    0x52A9; 0x53D9; 0x5973; 0x5E8F; 0x5F90; 0x6055; 0x92E4; 0x9664; 0x50B7; 0x511F ].
Definition jisx0208_row_3E : list N :=
  [ 0x52DD; 0x5320; 0x5347; 0x53EC; 0x54E8; 0x5546; 0x5531; 0x5617; 0x5968; 0x59BE; 0x5A3C; 0x5BB5;
    0x5C06; 0x5C0F; 0x5C11; 0x5C1A; 0x5E84; 0x5E8A; 0x5EE0; 0x5F70; 0x627F; 0x6284; 0x62DB; 0x638C;
    0x6377; 0x6607; 0x660C; 0x662D; 0x6676; 0x677E; 0x68A2; 0x6A1F; 0x6A35; 0x6CBC; 0x6D88; 0x6E09;
    0x6E58; 0x713C; 0x7126; 0x7167; 0x75C7; 0x7701; 0x785D; 0x7901; 0x7965; 0x79F0; 0x7AE0; 0x7B11;
    0x7CA7; 0x7D39; 0x8096; 0x83D6; 0x848B; 0x8549; 0x885D; 0x88F3; 0x8A1F; 0x8A3C; 0x8A54; 0x8A73;
    0x8C61; 0x8CDE; 0x91A4; 0x9266; 0x937E; 0x9418; 0x969C; 0x9798; 0x4E0A; 0x4E08; 0x4E1E; 0x4E57;
    0x5197; 0x5270; 0x57CE; 0x5834; 0x58CC; 0x5B22; 0x5E38; 0x60C5; 0x64FE; 0x6761; 0x6756; 0x6D44;
    0x72B6; 0x7573; 0x7A63; 0x84B8; 0x8B72; 0x91B8; 0x9320; 0x5631; 0x57F4; 0x98FE ].
Definition jisx0208_row_3F : list N :=
  [ 0x62ED; 0x690D; 0x6B96; 0x71ED; 0x7E54; 0x8077; 0x8272; 0x89E6; 0x98DF; 0x8755; 0x8FB1; 0x5C3B;
    0x4F38; 0x4FE1; 0x4FB5; 0x5507; 0x5A20; 0x5BDD; 0x5BE9; 0x5FC3; 0x614E; 0x632F; 0x65B0; 0x664B;
    0x68EE; 0x699B; 0x6D78; 0x6DF1; 0x7533; 0x75B9; 0x771F; 0x795E; 0x79E6; 0x7D33; 0x81E3; 0x82AF;
    0x85AA; 0x89AA; 0x8A3A; 0x8EAB; 0x8F9B; 0x9032; 0x91DD; 0x9707; 0x4EBA; 0x4EC1; 0x5203; 0x5875;
    0x58EC; 0x5C0B; 0x751A; 0x5C3D; 0x814E; 0x8A0A; 0x8FC5; 0x9663; 0x976D; 0x7B25; 0x8ACF; 0x9808;
    0x9162; 0x56F3; 0x53A8; 0x9017; 0x5439; 0x5782; 0x5E25; 0x63A8; 0x6C34; 0x708A; 0x7761; 0x7C8B;
    0x7FE0; 0x8870; 0x9042; 0x9154; 0x9310; 0x9318; 0x968F; 0x745E; 0x9AC4; 0x5D07; 0x5D69; 0x6570;
    0x67A2; 0x8DA8; 0x96DB; 0x636E; 0x6749; 0x6919; 0x83C5; 0x9817; 0x96C0; 0x88FE ].
Definition jisx0208_row_40 : list N :=
  [ 0x6F84; 0x647A; 0x5BF8; 0x4E16; 0x702C; 0x755D; 0x662F; 0x51C4; 0x5236; 0x52E2; 0x59D3; 0x5F81;
    0x6027; 0x6210; 0x653F; 0x6574; 0x661F; 0x6674; 0x68F2; 0x6816; 0x6B63; 0x6E05; 0x7272; 0x751F;
    0x76DB; 0x7CBE; 0x8056; 0x58F0; 0x88FD; 0x897F; 0x8AA0; 0x8A93; 0x8ACB; 0x901D; 0x9192; 0x9752;
    0x9759; 0x6589; 0x7A0E; 0x8106; 0x96BB; 0x5E2D; 0x60DC; 0x621A; 0x65A5; 0x6614; 0x6790; 0x77F3;
    0x7A4D; 0x7C4D; 0x7E3E; 0x810A; 0x8CAC; 0x8D64; 0x8DE1; 0x8E5F; 0x78A9; 0x5207; 0x62D9; 0x63A5;
    0x6442; 0x6298; 0x8A2D; 0x7A83; 0x7BC0; 0x8AAC; 0x96EA; 0x7D76; 0x820C; 0x8749; 0x4ED9; 0x5148;
    0x5343; 0x5360; 0x5BA3; 0x5C02; 0x5C16; 0x5DDD; 0x6226; 0x6247; 0x64B0; 0x6813; 0x6834; 0x6CC9;
    0x6D45; 0x6D17; 0x67D3; 0x6F5C; 0x714E; 0x717D; 0x65CB; 0x7A7F; 0x7BAD; 0x7DDA ].
Definition jisx0208_row_41 : list N :=
  [ 0x7E4A; 0x7FA8; 0x817A; 0x821B; 0x8239; 0x85A6; 0x8A6E; 0x8CCE; 0x8DF5; 0x9078; 0x9077; 0x92AD;
    0x9291; 0x9583; 0x9BAE; 0x524D; 0x5584; 0x6F38; 0x7136; 0x5168; 0x7985; 0x7E55; 0x81B3; 0x7CCE;
    0x564C; 0x5851; 0x5CA8; 0x63AA; 0x66FE; 0x66FD; 0x695A; 0x72D9; 0x758F; 0x758E; 0x790E; 0x7956;
    0x79DF; 0x7C97; 0x7D20; 0x7D44; 0x8607; 0x8A34; 0x963B; 0x9061; 0x9F20; 0x50E7; 0x5275; 0x53CC;
    0x53E2; 0x5009; 0x55AA; 0x58EE; 0x594F; 0x723D; 0x5B8B; 0x5C64; 0x531D; 0x60E3; 0x60F3; 0x635C;
    0x6383; 0x633F; 0x63BB; 0x64CD; 0x65E9; 0x66F9; 0x5DE3; 0x69CD; 0x69FD; 0x6F15; 0x71E5; 0x4E89;
    0x75E9; 0x76F8; 0x7A93; 0x7CDF; 0x7DCF; 0x7D9C; 0x8061; 0x8349; 0x8358; 0x846C; 0x84BC; 0x85FB;
    0x88C5; 0x8D70; 0x9001; 0x906D; 0x9397; 0x971C; 0x9A12; 0x50CF; 0x5897; 0x618E ].
Definition jisx0208_row_42 : list N :=
  [ 0x81D3; 0x8535; 0x8D08; 0x9020; 0x4FC3; 0x5074; 0x5247; 0x5373; 0x606F; 0x6349; 0x675F; 0x6E2C;
    0x8DB3; 0x901F; 0x4FD7; 0x5C5E; 0x8CCA; 0x65CF; 0x7D9A; 0x5352; 0x8896; 0x5176; 0x63C3; 0x5B58;
    0x5B6B; 0x5C0A; 0x640D; 0x6751; 0x905C; 0x4ED6; 0x591A; 0x592A; 0x6C70; 0x8A51; 0x553E; 0x5815;
    0x59A5; 0x60F0; 0x6253; 0x67C1; 0x8235; 0x6955; 0x9640; 0x99C4; 0x9A28; 0x4F53; 0x5806; 0x5BFE;
    0x8010; 0x5CB1; 0x5E2F; 0x5F85; 0x6020; 0x614B; 0x6234; 0x66FF; 0x6CF0; 0x6EDE; 0x80CE; 0x817F;
    0x82D4; 0x888B; 0x8CB8; 0x9000; 0x902E; 0x968A; 0x9EDB; 0x9BDB; 0x4EE3; 0x53F0; 0x5927; 0x7B2C;
    0x918D; 0x984C; 0x9DF9; 0x6EDD; 0x7027; 0x5353; 0x5544; 0x5B85; 0x6258; 0x629E; 0x62D3; 0x6CA2;
    0x6FEF; 0x7422; 0x8A17; 0x9438; 0x6FC1; 0x8AFE; 0x8338; 0x51E7; 0x86F8; 0x53EA ].
Definition jisx0208_row_43 : list N :=
  [ 0x53E9; 0x4F46; 0x9054; 0x8FB0; 0x596A; 0x8131; 0x5DFD; 0x7AEA; 0x8FBF; 0x68DA; 0x8C37; 0x72F8;
    0x9C48; 0x6A3D; 0x8AB0; 0x4E39; 0x5358; 0x5606; 0x5766; 0x62C5; 0x63A2; 0x65E6; 0x6B4E; 0x6DE1;
    0x6E5B; 0x70AD; 0x77ED; 0x7AEF; 0x7BAA; 0x7DBB; 0x803D; 0x80C6; 0x86CB; 0x8A95; 0x935B; 0x56E3;
    0x58C7; 0x5F3E; 0x65AD; 0x6696; 0x6A80; 0x6BB5; 0x7537; 0x8AC7; 0x5024; 0x77E5; 0x5730; 0x5F1B;
    0x6065; 0x667A; 0x6C60; 0x75F4; 0x7A1A; 0x7F6E; 0x81F4; 0x8718; 0x9045; 0x99B3; 0x7BC9; 0x755C;
    0x7AF9; 0x7B51; 0x84C4; 0x9010; 0x79E9; 0x7A92; 0x8336; 0x5AE1; 0x7740; 0x4E2D; 0x4EF2; 0x5B99;
    0x5FE0; 0x62BD; 0x663C; 0x67F1; 0x6CE8; 0x866B; 0x8877; 0x8A3B; 0x914E; 0x92F3; 0x99D0; 0x6A17;
    0x7026; 0x732A; 0x82E7; 0x8457; 0x8CAF; 0x4E01; 0x5146; 0x51CB; 0x558B; 0x5BF5 ].
Definition jisx0208_row_44 : list N :=
  [ 0x5E16; 0x5E33; 0x5E81; 0x5F14; 0x5F35; 0x5F6B; 0x5FB4; 0x61F2; 0x6311; 0x66A2; 0x671D; 0x6F6E;
    0x7252; 0x753A; 0x773A; 0x8074; 0x8139; 0x8178; 0x8776; 0x8ABF; 0x8ADC; 0x8D85; 0x8DF3; 0x929A;
    0x9577; 0x9802; 0x9CE5; 0x52C5; 0x6357; 0x76F4; 0x6715; 0x6C88; 0x73CD; 0x8CC3; 0x93AE; 0x9673;
    0x6D25; 0x589C; 0x690E; 0x69CC; 0x8FFD; 0x939A; 0x75DB; 0x901A; 0x585A; 0x6802; 0x63B4; 0x69FB;
    0x4F43; 0x6F2C; 0x67D8; 0x8FBB; 0x8526; 0x7DB4; 0x9354; 0x693F; 0x6F70; 0x576A; 0x58F7; 0x5B2C;
    0x7D2C; 0x722A; 0x540A; 0x91E3; 0x9DB4; 0x4EAD; 0x4F4E; 0x505C; 0x5075; 0x5243; 0x8C9E; 0x5448;
    0x5824; 0x5B9A; 0x5E1D; 0x5E95; 0x5EAD; 0x5EF7; 0x5F1F; 0x608C; 0x62B5; 0x633A; 0x63D0; 0x68AF;
    0x6C40; 0x7887; 0x798E; 0x7A0B; 0x7DE0; 0x8247; 0x8A02; 0x8AE6; 0x8E44; 0x9013 ].
Definition jisx0208_row_45 : list N :=
  [ 0x90B8; 0x912D; 0x91D8; 0x9F0E; 0x6CE5; 0x6458; 0x64E2; 0x6575; 0x6EF4; 0x7684; 0x7B1B; 0x9069;
    0x93D1; 0x6EBA; 0x54F2; 0x5FB9; 0x64A4; 0x8F4D; 0x8FED; 0x9244; 0x5178; 0x586B; 0x5929; 0x5C55;
    0x5E97; 0x6DFB; 0x7E8F; 0x751C; 0x8CBC; 0x8EE2; 0x985B; 0x70B9; 0x4F1D; 0x6BBF; 0x6FB1; 0x7530;
    0x96FB; 0x514E; 0x5410; 0x5835; 0x5857; 0x59AC; 0x5C60; 0x5F92; 0x6597; 0x675C; 0x6E21; 0x767B;
    0x83DF; 0x8CED; 0x9014; 0x90FD; 0x934D; 0x7825; 0x783A; 0x52AA; 0x5EA6; 0x571F; 0x5974; 0x6012;
    0x5012; 0x515A; 0x51AC; 0x51CD; 0x5200; 0x5510; 0x5854; 0x5858; 0x5957; 0x5B95; 0x5CF6; 0x5D8B;
    0x60BC; 0x6295; 0x642D; 0x6771; 0x6843; 0x68BC; 0x68DF; 0x76D7; 0x6DD8; 0x6E6F; 0x6D9B; 0x706F;
    0x71C8; 0x5F53; 0x75D8; 0x7977; 0x7B49; 0x7B54; 0x7B52; 0x7CD6; 0x7D71; 0x5230 ].
Definition jisx0208_row_46 : list N :=
  [ 0x8463; 0x8569; 0x85E4; 0x8A0E; 0x8B04; 0x8C46; 0x8E0F; 0x9003; 0x900F; 0x9419; 0x9676; 0x982D;
    0x9A30; 0x95D8; 0x50CD; 0x52D5; 0x540C; 0x5802; 0x5C0E; 0x61A7; 0x649E; 0x6D1E; 0x77B3; 0x7AE5;
    0x80F4; 0x8404; 0x9053; 0x9285; 0x5CE0; 0x9D07; 0x533F; 0x5F97; 0x5FB3; 0x6D9C; 0x7279; 0x7763;
    0x79BF; 0x7BE4; 0x6BD2; 0x72EC; 0x8AAD; 0x6803; 0x6A61; 0x51F8; 0x7A81; 0x6934; 0x5C4A; 0x9CF6;
    0x82EB; 0x5BC5; 0x9149; 0x701E; 0x5678; 0x5C6F; 0x60C7; 0x6566; 0x6C8C; 0x8C5A; 0x9041; 0x9813;
    0x5451; 0x66C7; 0x920D; 0x5948; 0x90A3; 0x5185; 0x4E4D; 0x51EA; 0x8599; 0x8B0E; 0x7058; 0x637A;
    0x934B; 0x6962; 0x99B4; 0x7E04; 0x7577; 0x5357; 0x6960; 0x8EDF; 0x96E3; 0x6C5D; 0x4E8C; 0x5C3C;
    0x5F10; 0x8FE9; 0x5302; 0x8CD1; 0x8089; 0x8679; 0x5EFF; 0x65E5; 0x4E73; 0x5165 ].
Definition jisx0208_row_47 : list N :=
  [ 0x5982; 0x5C3F; 0x97EE; 0x4EFB; 0x598A; 0x5FCD; 0x8A8D; 0x6FE1; 0x79B0; 0x7962; 0x5BE7; 0x8471;
    0x732B; 0x71B1; 0x5E74; 0x5FF5; 0x637B; 0x649A; 0x71C3; 0x7C98; 0x4E43; 0x5EFC; 0x4E4B; 0x57DC;
    0x56A2; 0x60A9; 0x6FC3; 0x7D0D; 0x80FD; 0x8133; 0x81BF; 0x8FB2; 0x8997; 0x86A4; 0x5DF4; 0x628A;
    0x64AD; 0x8987; 0x6777; 0x6CE2; 0x6D3E; 0x7436; 0x7834; 0x5A46; 0x7F75; 0x82AD; 0x99AC; 0x4FF3;
    0x5EC3; 0x62DD; 0x6392; 0x6557; 0x676F; 0x76C3; 0x724C; 0x80CC; 0x80BA; 0x8F29; 0x914D; 0x500D;
    0x57F9; 0x5A92; 0x6885; 0x6973; 0x7164; 0x72FD; 0x8CB7; 0x58F2; 0x8CE0; 0x966A; 0x9019; 0x877F;
    0x79E4; 0x77E7; 0x8429; 0x4F2F; 0x5265; 0x535A; 0x62CD; 0x67CF; 0x6CCA; 0x767D; 0x7B94; 0x7C95;
    0x8236; 0x8584; 0x8FEB; 0x66DD; 0x6F20; 0x7206; 0x7E1B; 0x83AB; 0x99C1; 0x9EA6 ].
Definition jisx0208_row_48 : list N :=
  [ 0x51FD; 0x7BB1; 0x7872; 0x7BB8; 0x8087; 0x7B48; 0x6AE8; 0x5E61; 0x808C; 0x7551; 0x7560; 0x516B;
    0x9262; 0x6E8C; 0x767A; 0x9197; 0x9AEA; 0x4F10; 0x7F70; 0x629C; 0x7B4F; 0x95A5; 0x9CE9; 0x567A;
    0x5859; 0x86E4; 0x96BC; 0x4F34; 0x5224; 0x534A; 0x53CD; 0x53DB; 0x5E06; 0x642C; 0x6591; 0x677F;
    0x6C3E; 0x6C4E; 0x7248; 0x72AF; 0x73ED; 0x7554; 0x7E41; 0x822C; 0x85E9; 0x8CA9; 0x7BC4; 0x91C6;
    0x7169; 0x9812; 0x98EF; 0x633D; 0x6669; 0x756A; 0x76E4; 0x78D0; 0x8543; 0x86EE; 0x532A; 0x5351;
    0x5426; 0x5983; 0x5E87; 0x5F7C; 0x60B2; 0x6249; 0x6279; 0x62AB; 0x6590; 0x6BD4; 0x6CCC; 0x75B2;
    0x76AE; 0x7891; 0x79D8; 0x7DCB; 0x7F77; 0x80A5; 0x88AB; 0x8AB9; 0x8CBB; 0x907F; 0x975E; 0x98DB;
    0x6A0B; 0x7C38; 0x5099; 0x5C3E; 0x5FAE; 0x6787; 0x6BD8; 0x7435; 0x7709; 0x7F8E ].
Definition jisx0208_row_49 : list N :=
  [ 0x9F3B; 0x67CA; 0x7A17; 0x5339; 0x758B; 0x9AED; 0x5F66; 0x819D; 0x83F1; 0x8098; 0x5F3C; 0x5FC5;
    0x7562; 0x7B46; 0x903C; 0x6867; 0x59EB; 0x5A9B; 0x7D10; 0x767E; 0x8B2C; 0x4FF5; 0x5F6A; 0x6A19;
    0x6C37; 0x6F02; 0x74E2; 0x7968; 0x8868; 0x8A55; 0x8C79; 0x5EDF; 0x63CF; 0x75C5; 0x79D2; 0x82D7;
    0x9328; 0x92F2; 0x849C; 0x86ED; 0x9C2D; 0x54C1; 0x5F6C; 0x658C; 0x6D5C; 0x7015; 0x8CA7; 0x8CD3;
    0x983B; 0x654F; 0x74F6; 0x4E0D; 0x4ED8; 0x57E0; 0x592B; 0x5A66; 0x5BCC; 0x51A8; 0x5E03; 0x5E9C;
    0x6016; 0x6276; 0x6577; 0x65A7; 0x666E; 0x6D6E; 0x7236; 0x7B26; 0x8150; 0x819A; 0x8299; 0x8B5C;
    0x8CA0; 0x8CE6; 0x8D74; 0x961C; 0x9644; 0x4FAE; 0x64AB; 0x6B66; 0x821E; 0x8461; 0x856A; 0x90E8;
    0x5C01; 0x6953; 0x98A8; 0x847A; 0x8557; 0x4F0F; 0x526F; 0x5FA9; 0x5E45; 0x670D ].
Definition jisx0208_row_4A : list N :=
  [ 0x798F; 0x8179; 0x8907; 0x8986; 0x6DF5; 0x5F17; 0x6255; 0x6CB8; 0x4ECF; 0x7269; 0x9B92; 0x5206;
    0x543B; 0x5674; 0x58B3; 0x61A4; 0x626E; 0x711A; 0x596E; 0x7C89; 0x7CDE; 0x7D1B; 0x96F0; 0x6587;
    0x805E; 0x4E19; 0x4F75; 0x5175; 0x5840; 0x5E63; 0x5E73; 0x5F0A; 0x67C4; 0x4E26; 0x853D; 0x9589;
    0x965B; 0x7C73; 0x9801; 0x50FB; 0x58C1; 0x7656; 0x78A7; 0x5225; 0x77A5; 0x8511; 0x7B86; 0x504F;
    0x5909; 0x7247; 0x7BC7; 0x7DE8; 0x8FBA; 0x8FD4; 0x904D; 0x4FBF; 0x52C9; 0x5A29; 0x5F01; 0x97AD;
    0x4FDD; 0x8217; 0x92EA; 0x5703; 0x6355; 0x6B69; 0x752B; 0x88DC; 0x8F14; 0x7A42; 0x52DF; 0x5893;
    0x6155; 0x620A; 0x66AE; 0x6BCD; 0x7C3F; 0x83E9; 0x5023; 0x4FF8; 0x5305; 0x5446; 0x5831; 0x5949;
    0x5B9D; 0x5CF0; 0x5CEF; 0x5D29; 0x5E96; 0x62B1; 0x6367; 0x653E; 0x65B9; 0x670B ].
Definition jisx0208_row_4B : list N :=
  [ 0x6CD5; 0x6CE1; 0x70F9; 0x7832; 0x7E2B; 0x80DE; 0x82B3; 0x840C; 0x84EC; 0x8702; 0x8912; 0x8A2A;
    0x8C4A; 0x90A6; 0x92D2; 0x98FD; 0x9CF3; 0x9D6C; 0x4E4F; 0x4EA1; 0x508D; 0x5256; 0x574A; 0x59A8;
    0x5E3D; 0x5FD8; 0x5FD9; 0x623F; 0x66B4; 0x671B; 0x67D0; 0x68D2; 0x5192; 0x7D21; 0x80AA; 0x81A8;
    0x8B00; 0x8C8C; 0x8CBF; 0x927E; 0x9632; 0x5420; 0x982C; 0x5317; 0x50D5; 0x535C; 0x58A8; 0x64B2;
    0x6734; 0x7267; 0x7766; 0x7A46; 0x91E6; 0x52C3; 0x6CA1; 0x6B86; 0x5800; 0x5E4C; 0x5954; 0x672C;
    0x7FFB; 0x51E1; 0x76C6; 0x6469; 0x78E8; 0x9B54; 0x9EBB; 0x57CB; 0x59B9; 0x6627; 0x679A; 0x6BCE;
    0x54E9; 0x69D9; 0x5E55; 0x819C; 0x6795; 0x9BAA; 0x67FE; 0x9C52; 0x685D; 0x4EA6; 0x4FE3; 0x53C8;
    0x62B9; 0x672B; 0x6CAB; 0x8FC4; 0x4FAD; 0x7E6D; 0x9EBF; 0x4E07; 0x6162; 0x6E80 ].
Definition jisx0208_row_4C : list N :=
  [ 0x6F2B; 0x8513; 0x5473; 0x672A; 0x9B45; 0x5DF3; 0x7B95; 0x5CAC; 0x5BC6; 0x871C; 0x6E4A; 0x84D1;
    0x7A14; 0x8108; 0x5999; 0x7C8D; 0x6C11; 0x7720; 0x52D9; 0x5922; 0x7121; 0x725F; 0x77DB; 0x9727;
    0x9D61; 0x690B; 0x5A7F; 0x5A18; 0x51A5; 0x540D; 0x547D; 0x660E; 0x76DF; 0x8FF7; 0x9298; 0x9CF4;
    0x59EA; 0x725D; 0x6EC5; 0x514D; 0x68C9; 0x7DBF; 0x7DEC; 0x9762; 0x9EBA; 0x6478; 0x6A21; 0x8302;
    0x5984; 0x5B5F; 0x6BDB; 0x731B; 0x76F2; 0x7DB2; 0x8017; 0x8499; 0x5132; 0x6728; 0x9ED9; 0x76EE;
    0x6762; 0x52FF; 0x9905; 0x5C24; 0x623B; 0x7C7E; 0x8CB0; 0x554F; 0x60B6; 0x7D0B; 0x9580; 0x5301;
    0x4E5F; 0x51B6; 0x591C; 0x723A; 0x8036; 0x91CE; 0x5F25; 0x77E2; 0x5384; 0x5F79; 0x7D04; 0x85AC;
    0x8A33; 0x8E8D; 0x9756; 0x67F3; 0x85AE; 0x9453; 0x6109; 0x6108; 0x6CB9; 0x7652 ].
Definition jisx0208_row_4D : list N :=
  [ 0x8AED; 0x8F38; 0x552F; 0x4F51; 0x512A; 0x52C7; 0x53CB; 0x5BA5; 0x5E7D; 0x60A0; 0x6182; 0x63D6;
    0x6709; 0x67DA; 0x6E67; 0x6D8C; 0x7336; 0x7337; 0x7531; 0x7950; 0x88D5; 0x8A98; 0x904A; 0x9091;
    0x90F5; 0x96C4; 0x878D; 0x5915; 0x4E88; 0x4F59; 0x4E0E; 0x8A89; 0x8F3F; 0x9810; 0x50AD; 0x5E7C;
    0x5996; 0x5BB9; 0x5EB8; 0x63DA; 0x63FA; 0x64C1; 0x66DC; 0x694A; 0x69D8; 0x6D0B; 0x6EB6; 0x7194;
    0x7528; 0x7AAF; 0x7F8A; 0x8000; 0x8449; 0x84C9; 0x8981; 0x8B21; 0x8E0A; 0x9065; 0x967D; 0x990A;
    0x617E; 0x6291; 0x6B32; 0x6C83; 0x6D74; 0x7FCC; 0x7FFC; 0x6DC0; 0x7F85; 0x87BA; 0x88F8; 0x6765;
    0x83B1; 0x983C; 0x96F7; 0x6D1B; 0x7D61; 0x843D; 0x916A; 0x4E71; 0x5375; 0x5D50; 0x6B04; 0x6FEB;
    0x85CD; 0x862D; 0x89A7; 0x5229; 0x540F; 0x5C65; 0x674E; 0x68A8; 0x7406; 0x7483 ].
Definition jisx0208_row_4E : list N :=
  [ 0x75E2; 0x88CF; 0x88E1; 0x91CC; 0x96E2; 0x9678; 0x5F8B; 0x7387; 0x7ACB; 0x844E; 0x63A0; 0x7565;
    0x5289; 0x6D41; 0x6E9C; 0x7409; 0x7559; 0x786B; 0x7C92; 0x9686; 0x7ADC; 0x9F8D; 0x4FB6; 0x616E;
    0x65C5; 0x865C; 0x4E86; 0x4EAE; 0x50DA; 0x4E21; 0x51CC; 0x5BEE; 0x6599; 0x6881; 0x6DBC; 0x731F;
    0x7642; 0x77AD; 0x7A1C; 0x7CE7; 0x826F; 0x8AD2; 0x907C; 0x91CF; 0x9675; 0x9818; 0x529B; 0x7DD1;
    0x502B; 0x5398; 0x6797; 0x6DCB; 0x71D0; 0x7433; 0x81E8; 0x8F2A; 0x96A3; 0x9C57; 0x9E9F; 0x7460;
    0x5841; 0x6D99; 0x7D2F; 0x985E; 0x4EE4; 0x4F36; 0x4F8B; 0x51B7; 0x52B1; 0x5DBA; 0x601C; 0x73B2;
    0x793C; 0x82D3; 0x9234; 0x96B7; 0x96F6; 0x970A; 0x9E97; 0x9F62; 0x66A6; 0x6B74; 0x5217; 0x52A3;
    0x70C8; 0x88C2; 0x5EC9; 0x604B; 0x6190; 0x6F23; 0x7149; 0x7C3E; 0x7DF4; 0x806F ].
Definition jisx0208_row_4F : list N :=
  [ 0x84EE; 0x9023; 0x932C; 0x5442; 0x9B6F; 0x6AD3; 0x7089; 0x8CC2; 0x8DEF; 0x9732; 0x52B4; 0x5A41;
    0x5ECA; 0x5F04; 0x6717; 0x697C; 0x6994; 0x6D6A; 0x6F0F; 0x7262; 0x72FC; 0x7BED; 0x8001; 0x807E;
    0x874B; 0x90CE; 0x516D; 0x9E93; 0x7984; 0x808B; 0x9332; 0x8AD6; 0x502D; 0x548C; 0x8A71; 0x6B6A;
    0x8CC4; 0x8107; 0x60D1; 0x67A0; 0x9DF2; 0x4E99; 0x4E98; 0x9C10; 0x8A6B; 0x85C1; 0x8568; 0x6900;
    0x6E7E; 0x7897; 0x8155; 0xFFFE; 0xFFFE; 0xFFFE; 0xFFFE; 0xFFFE; 0xFFFE; 0xFFFE; 0xFFFE; 0xFFFE;
    0xFFFE; 0xFFFE; 0xFFFE; 0xFFFE; 0xFFFE; 0xFFFE; 0xFFFE; 0xFFFE; 0xFFFE; 0xFFFE; 0xFFFE; 0xFFFE;
    0xFFFE; 0xFFFE; 0xFFFE; 0xFFFE; 0xFFFE; 0xFFFE; 0xFFFE; 0xFFFE; 0xFFFE; 0xFFFE; 0xFFFE; 0xFFFE;
    0xFFFE; 0xFFFE; 0xFFFE; 0xFFFE; 0xFFFE; 0xFFFE; 0xFFFE; 0xFFFE; 0xFFFE; 0xFFFE ].
Definition jisx0208_row_50 : list N :=
  [ 0x5F0C; 0x4E10; 0x4E15; 0x4E2A; 0x4E31; 0x4E36; 0x4E3C; 0x4E3F; 0x4E42; 0x4E56; 0x4E58; 0x4E82;
    0x4E85; 0x8C6B; 0x4E8A; 0x8212; 0x5F0D; 0x4E8E; 0x4E9E; 0x4E9F; 0x4EA0; 0x4EA2; 0x4EB0; 0x4EB3;
    0x4EB6; 0x4ECE; 0x4ECD; 0x4EC4; 0x4EC6; 0x4EC2; 0x4ED7; 0x4EDE; 0x4EED; 0x4EDF; 0x4EF7; 0x4F09;
    0x4F5A; 0x4F30; 0x4F5B; 0x4F5D; 0x4F57; 0x4F47; 0x4F76; 0x4F88; 0x4F8F; 0x4F98; 0x4F7B; 0x4F69;
    0x4F70; 0x4F91; 0x4F6F; 0x4F86; 0x4F96; 0x5118; 0x4FD4; 0x4FDF; 0x4FCE; 0x4FD8; 0x4FDB; 0x4FD1;
    0x4FDA; 0x4FD0; 0x4FE4; 0x4FE5; 0x501A; 0x5028; 0x5014; 0x502A; 0x5025; 0x5005; 0x4F1C; 0x4FF6;
    0x5021; 0x5029; 0x502C; 0x4FFE; 0x4FEF; 0x5011; 0x5006; 0x5043; 0x5047; 0x6703; 0x5055; 0x5050;
    0x5048; 0x505A; 0x5056; 0x506C; 0x5078; 0x5080; 0x509A; 0x5085; 0x50B4; 0x50B2 ].
Definition jisx0208_row_51 : list N :=
  [ 0x50C9; 0x50CA; 0x50B3; 0x50C2; 0x50D6; 0x50DE; 0x50E5; 0x50ED; 0x50E3; 0x50EE; 0x50F9; 0x50F5;
    0x5109; 0x5101; 0x5102; 0x5116; 0x5115; 0x5114; 0x511A; 0x5121; 0x513A; 0x5137; 0x513C; 0x513B;
    0x513F; 0x5140; 0x5152; 0x514C; 0x5154; 0x5162; 0x7AF8; 0x5169; 0x516A; 0x516E; 0x5180; 0x5182;
    0x56D8; 0x518C; 0x5189; 0x518F; 0x5191; 0x5193; 0x5195; 0x5196; 0x51A4; 0x51A6; 0x51A2; 0x51A9;
    0x51AA; 0x51AB; 0x51B3; 0x51B1; 0x51B2; 0x51B0; 0x51B5; 0x51BD; 0x51C5; 0x51C9; 0x51DB; 0x51E0;
    0x8655; 0x51E9; 0x51ED; 0x51F0; 0x51F5; 0x51FE; 0x5204; 0x520B; 0x5214; 0x520E; 0x5227; 0x522A;
    0x522E; 0x5233; 0x5239; 0x524F; 0x5244; 0x524B; 0x524C; 0x525E; 0x5254; 0x526A; 0x5274; 0x5269;
    0x5273; 0x527F; 0x527D; 0x528D; 0x5294; 0x5292; 0x5271; 0x5288; 0x5291; 0x8FA8 ].
Definition jisx0208_row_52 : list N :=
  [ 0x8FA7; 0x52AC; 0x52AD; 0x52BC; 0x52B5; 0x52C1; 0x52CD; 0x52D7; 0x52DE; 0x52E3; 0x52E6; 0x98ED;
    0x52E0; 0x52F3; 0x52F5; 0x52F8; 0x52F9; 0x5306; 0x5308; 0x7538; 0x530D; 0x5310; 0x530F; 0x5315;
    0x531A; 0x5323; 0x532F; 0x5331; 0x5333; 0x5338; 0x5340; 0x5346; 0x5345; 0x4E17; 0x5349; 0x534D;
    0x51D6; 0x535E; 0x5369; 0x536E; 0x5918; 0x537B; 0x5377; 0x5382; 0x5396; 0x53A0; 0x53A6; 0x53A5;
    0x53AE; 0x53B0; 0x53B6; 0x53C3; 0x7C12; 0x96D9; 0x53DF; 0x66FC; 0x71EE; 0x53EE; 0x53E8; 0x53ED;
    0x53FA; 0x5401; 0x543D; 0x5440; 0x542C; 0x542D; 0x543C; 0x542E; 0x5436; 0x5429; 0x541D; 0x544E;
    0x548F; 0x5475; 0x548E; 0x545F; 0x5471; 0x5477; 0x5470; 0x5492; 0x547B; 0x5480; 0x5476; 0x5484;
    0x5490; 0x5486; 0x54C7; 0x54A2; 0x54B8; 0x54A5; 0x54AC; 0x54C4; 0x54C8; 0x54A8 ].
Definition jisx0208_row_53 : list N :=
  [ 0x54AB; 0x54C2; 0x54A4; 0x54BE; 0x54BC; 0x54D8; 0x54E5; 0x54E6; 0x550F; 0x5514; 0x54FD; 0x54EE;
    0x54ED; 0x54FA; 0x54E2; 0x5539; 0x5540; 0x5563; 0x554C; 0x552E; 0x555C; 0x5545; 0x5556; 0x5557;
    0x5538; 0x5533; 0x555D; 0x5599; 0x5580; 0x54AF; 0x558A; 0x559F; 0x557B; 0x557E; 0x5598; 0x559E;
    0x55AE; 0x557C; 0x5583; 0x55A9; 0x5587; 0x55A8; 0x55DA; 0x55C5; 0x55DF; 0x55C4; 0x55DC; 0x55E4;
    0x55D4; 0x5614; 0x55F7; 0x5616; 0x55FE; 0x55FD; 0x561B; 0x55F9; 0x564E; 0x5650; 0x71DF; 0x5634;
    0x5636; 0x5632; 0x5638; 0x566B; 0x5664; 0x562F; 0x566C; 0x566A; 0x5686; 0x5680; 0x568A; 0x56A0;
    0x5694; 0x568F; 0x56A5; 0x56AE; 0x56B6; 0x56B4; 0x56C2; 0x56BC; 0x56C1; 0x56C3; 0x56C0; 0x56C8;
    0x56CE; 0x56D1; 0x56D3; 0x56D7; 0x56EE; 0x56F9; 0x5700; 0x56FF; 0x5704; 0x5709 ].
Definition jisx0208_row_54 : list N :=
  [ 0x5708; 0x570B; 0x570D; 0x5713; 0x5718; 0x5716; 0x55C7; 0x571C; 0x5726; 0x5737; 0x5738; 0x574E;
    0x573B; 0x5740; 0x574F; 0x5769; 0x57C0; 0x5788; 0x5761; 0x577F; 0x5789; 0x5793; 0x57A0; 0x57B3;
    0x57A4; 0x57AA; 0x57B0; 0x57C3; 0x57C6; 0x57D4; 0x57D2; 0x57D3; 0x580A; 0x57D6; 0x57E3; 0x580B;
    0x5819; 0x581D; 0x5872; 0x5821; 0x5862; 0x584B; 0x5870; 0x6BC0; 0x5852; 0x583D; 0x5879; 0x5885;
    0x58B9; 0x589F; 0x58AB; 0x58BA; 0x58DE; 0x58BB; 0x58B8; 0x58AE; 0x58C5; 0x58D3; 0x58D1; 0x58D7;
    0x58D9; 0x58D8; 0x58E5; 0x58DC; 0x58E4; 0x58DF; 0x58EF; 0x58FA; 0x58F9; 0x58FB; 0x58FC; 0x58FD;
    0x5902; 0x590A; 0x5910; 0x591B; 0x68A6; 0x5925; 0x592C; 0x592D; 0x5932; 0x5938; 0x593E; 0x7AD2;
    0x5955; 0x5950; 0x594E; 0x595A; 0x5958; 0x5962; 0x5960; 0x5967; 0x596C; 0x5969 ].
Definition jisx0208_row_55 : list N :=
  [ 0x5978; 0x5981; 0x599D; 0x4F5E; 0x4FAB; 0x59A3; 0x59B2; 0x59C6; 0x59E8; 0x59DC; 0x598D; 0x59D9;
    0x59DA; 0x5A25; 0x5A1F; 0x5A11; 0x5A1C; 0x5A09; 0x5A1A; 0x5A40; 0x5A6C; 0x5A49; 0x5A35; 0x5A36;
    0x5A62; 0x5A6A; 0x5A9A; 0x5ABC; 0x5ABE; 0x5ACB; 0x5AC2; 0x5ABD; 0x5AE3; 0x5AD7; 0x5AE6; 0x5AE9;
    0x5AD6; 0x5AFA; 0x5AFB; 0x5B0C; 0x5B0B; 0x5B16; 0x5B32; 0x5AD0; 0x5B2A; 0x5B36; 0x5B3E; 0x5B43;
    0x5B45; 0x5B40; 0x5B51; 0x5B55; 0x5B5A; 0x5B5B; 0x5B65; 0x5B69; 0x5B70; 0x5B73; 0x5B75; 0x5B78;
    0x6588; 0x5B7A; 0x5B80; 0x5B83; 0x5BA6; 0x5BB8; 0x5BC3; 0x5BC7; 0x5BC9; 0x5BD4; 0x5BD0; 0x5BE4;
    0x5BE6; 0x5BE2; 0x5BDE; 0x5BE5; 0x5BEB; 0x5BF0; 0x5BF6; 0x5BF3; 0x5C05; 0x5C07; 0x5C08; 0x5C0D;
    0x5C13; 0x5C20; 0x5C22; 0x5C28; 0x5C38; 0x5C39; 0x5C41; 0x5C46; 0x5C4E; 0x5C53 ].
Definition jisx0208_row_56 : list N :=
  [ 0x5C50; 0x5C4F; 0x5B71; 0x5C6C; 0x5C6E; 0x4E62; 0x5C76; 0x5C79; 0x5C8C; 0x5C91; 0x5C94; 0x599B;
    0x5CAB; 0x5CBB; 0x5CB6; 0x5CBC; 0x5CB7; 0x5CC5; 0x5CBE; 0x5CC7; 0x5CD9; 0x5CE9; 0x5CFD; 0x5CFA;
    0x5CED; 0x5D8C; 0x5CEA; 0x5D0B; 0x5D15; 0x5D17; 0x5D5C; 0x5D1F; 0x5D1B; 0x5D11; 0x5D14; 0x5D22;
    0x5D1A; 0x5D19; 0x5D18; 0x5D4C; 0x5D52; 0x5D4E; 0x5D4B; 0x5D6C; 0x5D73; 0x5D76; 0x5D87; 0x5D84;
    0x5D82; 0x5DA2; 0x5D9D; 0x5DAC; 0x5DAE; 0x5DBD; 0x5D90; 0x5DB7; 0x5DBC; 0x5DC9; 0x5DCD; 0x5DD3;
    0x5DD2; 0x5DD6; 0x5DDB; 0x5DEB; 0x5DF2; 0x5DF5; 0x5E0B; 0x5E1A; 0x5E19; 0x5E11; 0x5E1B; 0x5E36;
    0x5E37; 0x5E44; 0x5E43; 0x5E40; 0x5E4E; 0x5E57; 0x5E54; 0x5E5F; 0x5E62; 0x5E64; 0x5E47; 0x5E75;
    0x5E76; 0x5E7A; 0x9EBC; 0x5E7F; 0x5EA0; 0x5EC1; 0x5EC2; 0x5EC8; 0x5ED0; 0x5ECF ].
Definition jisx0208_row_57 : list N :=
  [ 0x5ED6; 0x5EE3; 0x5EDD; 0x5EDA; 0x5EDB; 0x5EE2; 0x5EE1; 0x5EE8; 0x5EE9; 0x5EEC; 0x5EF1; 0x5EF3;
    0x5EF0; 0x5EF4; 0x5EF8; 0x5EFE; 0x5F03; 0x5F09; 0x5F5D; 0x5F5C; 0x5F0B; 0x5F11; 0x5F16; 0x5F29;
    0x5F2D; 0x5F38; 0x5F41; 0x5F48; 0x5F4C; 0x5F4E; 0x5F2F; 0x5F51; 0x5F56; 0x5F57; 0x5F59; 0x5F61;
    0x5F6D; 0x5F73; 0x5F77; 0x5F83; 0x5F82; 0x5F7F; 0x5F8A; 0x5F88; 0x5F91; 0x5F87; 0x5F9E; 0x5F99;
    0x5F98; 0x5FA0; 0x5FA8; 0x5FAD; 0x5FBC; 0x5FD6; 0x5FFB; 0x5FE4; 0x5FF8; 0x5FF1; 0x5FDD; 0x60B3;
    0x5FFF; 0x6021; 0x6060; 0x6019; 0x6010; 0x6029; 0x600E; 0x6031; 0x601B; 0x6015; 0x602B; 0x6026;
    0x600F; 0x603A; 0x605A; 0x6041; 0x606A; 0x6077; 0x605F; 0x604A; 0x6046; 0x604D; 0x6063; 0x6043;
    0x6064; 0x6042; 0x606C; 0x606B; 0x6059; 0x6081; 0x608D; 0x60E7; 0x6083; 0x609A ].
Definition jisx0208_row_58 : list N :=
  [ 0x6084; 0x609B; 0x6096; 0x6097; 0x6092; 0x60A7; 0x608B; 0x60E1; 0x60B8; 0x60E0; 0x60D3; 0x60B4;
    0x5FF0; 0x60BD; 0x60C6; 0x60B5; 0x60D8; 0x614D; 0x6115; 0x6106; 0x60F6; 0x60F7; 0x6100; 0x60F4;
    0x60FA; 0x6103; 0x6121; 0x60FB; 0x60F1; 0x610D; 0x610E; 0x6147; 0x613E; 0x6128; 0x6127; 0x614A;
    0x613F; 0x613C; 0x612C; 0x6134; 0x613D; 0x6142; 0x6144; 0x6173; 0x6177; 0x6158; 0x6159; 0x615A;
    0x616B; 0x6174; 0x616F; 0x6165; 0x6171; 0x615F; 0x615D; 0x6153; 0x6175; 0x6199; 0x6196; 0x6187;
    0x61AC; 0x6194; 0x619A; 0x618A; 0x6191; 0x61AB; 0x61AE; 0x61CC; 0x61CA; 0x61C9; 0x61F7; 0x61C8;
    0x61C3; 0x61C6; 0x61BA; 0x61CB; 0x7F79; 0x61CD; 0x61E6; 0x61E3; 0x61F6; 0x61FA; 0x61F4; 0x61FF;
    0x61FD; 0x61FC; 0x61FE; 0x6200; 0x6208; 0x6209; 0x620D; 0x620C; 0x6214; 0x621B ].
Definition jisx0208_row_59 : list N :=
  [ 0x621E; 0x6221; 0x622A; 0x622E; 0x6230; 0x6232; 0x6233; 0x6241; 0x624E; 0x625E; 0x6263; 0x625B;
    0x6260; 0x6268; 0x627C; 0x6282; 0x6289; 0x627E; 0x6292; 0x6293; 0x6296; 0x62D4; 0x6283; 0x6294;
    0x62D7; 0x62D1; 0x62BB; 0x62CF; 0x62FF; 0x62C6; 0x64D4; 0x62C8; 0x62DC; 0x62CC; 0x62CA; 0x62C2;
    0x62C7; 0x629B; 0x62C9; 0x630C; 0x62EE; 0x62F1; 0x6327; 0x6302; 0x6308; 0x62EF; 0x62F5; 0x6350;
    0x633E; 0x634D; 0x641C; 0x634F; 0x6396; 0x638E; 0x6380; 0x63AB; 0x6376; 0x63A3; 0x638F; 0x6389;
    0x639F; 0x63B5; 0x636B; 0x6369; 0x63BE; 0x63E9; 0x63C0; 0x63C6; 0x63E3; 0x63C9; 0x63D2; 0x63F6;
    0x63C4; 0x6416; 0x6434; 0x6406; 0x6413; 0x6426; 0x6436; 0x651D; 0x6417; 0x6428; 0x640F; 0x6467;
    0x646F; 0x6476; 0x644E; 0x652A; 0x6495; 0x6493; 0x64A5; 0x64A9; 0x6488; 0x64BC ].
Definition jisx0208_row_5A : list N :=
  [ 0x64DA; 0x64D2; 0x64C5; 0x64C7; 0x64BB; 0x64D8; 0x64C2; 0x64F1; 0x64E7; 0x8209; 0x64E0; 0x64E1;
    0x62AC; 0x64E3; 0x64EF; 0x652C; 0x64F6; 0x64F4; 0x64F2; 0x64FA; 0x6500; 0x64FD; 0x6518; 0x651C;
    0x6505; 0x6524; 0x6523; 0x652B; 0x6534; 0x6535; 0x6537; 0x6536; 0x6538; 0x754B; 0x6548; 0x6556;
    0x6555; 0x654D; 0x6558; 0x655E; 0x655D; 0x6572; 0x6578; 0x6582; 0x6583; 0x8B8A; 0x659B; 0x659F;
    0x65AB; 0x65B7; 0x65C3; 0x65C6; 0x65C1; 0x65C4; 0x65CC; 0x65D2; 0x65DB; 0x65D9; 0x65E0; 0x65E1;
    0x65F1; 0x6772; 0x660A; 0x6603; 0x65FB; 0x6773; 0x6635; 0x6636; 0x6634; 0x661C; 0x664F; 0x6644;
    0x6649; 0x6641; 0x665E; 0x665D; 0x6664; 0x6667; 0x6668; 0x665F; 0x6662; 0x6670; 0x6683; 0x6688;
    0x668E; 0x6689; 0x6684; 0x6698; 0x669D; 0x66C1; 0x66B9; 0x66C9; 0x66BE; 0x66BC ].
Definition jisx0208_row_5B : list N :=
  [ 0x66C4; 0x66B8; 0x66D6; 0x66DA; 0x66E0; 0x663F; 0x66E6; 0x66E9; 0x66F0; 0x66F5; 0x66F7; 0x670F;
    0x6716; 0x671E; 0x6726; 0x6727; 0x9738; 0x672E; 0x673F; 0x6736; 0x6741; 0x6738; 0x6737; 0x6746;
    0x675E; 0x6760; 0x6759; 0x6763; 0x6764; 0x6789; 0x6770; 0x67A9; 0x677C; 0x676A; 0x678C; 0x678B;
    0x67A6; 0x67A1; 0x6785; 0x67B7; 0x67EF; 0x67B4; 0x67EC; 0x67B3; 0x67E9; 0x67B8; 0x67E4; 0x67DE;
    0x67DD; 0x67E2; 0x67EE; 0x67B9; 0x67CE; 0x67C6; 0x67E7; 0x6A9C; 0x681E; 0x6846; 0x6829; 0x6840;
    0x684D; 0x6832; 0x684E; 0x68B3; 0x682B; 0x6859; 0x6863; 0x6877; 0x687F; 0x689F; 0x688F; 0x68AD;
    0x6894; 0x689D; 0x689B; 0x6883; 0x6AAE; 0x68B9; 0x6874; 0x68B5; 0x68A0; 0x68BA; 0x690F; 0x688D;
    0x687E; 0x6901; 0x68CA; 0x6908; 0x68D8; 0x6922; 0x6926; 0x68E1; 0x690C; 0x68CD ].
Definition jisx0208_row_5C : list N :=
  [ 0x68D4; 0x68E7; 0x68D5; 0x6936; 0x6912; 0x6904; 0x68D7; 0x68E3; 0x6925; 0x68F9; 0x68E0; 0x68EF;
    0x6928; 0x692A; 0x691A; 0x6923; 0x6921; 0x68C6; 0x6979; 0x6977; 0x695C; 0x6978; 0x696B; 0x6954;
    0x697E; 0x696E; 0x6939; 0x6974; 0x693D; 0x6959; 0x6930; 0x6961; 0x695E; 0x695D; 0x6981; 0x696A;
    0x69B2; 0x69AE; 0x69D0; 0x69BF; 0x69C1; 0x69D3; 0x69BE; 0x69CE; 0x5BE8; 0x69CA; 0x69DD; 0x69BB;
    0x69C3; 0x69A7; 0x6A2E; 0x6991; 0x69A0; 0x699C; 0x6995; 0x69B4; 0x69DE; 0x69E8; 0x6A02; 0x6A1B;
    0x69FF; 0x6B0A; 0x69F9; 0x69F2; 0x69E7; 0x6A05; 0x69B1; 0x6A1E; 0x69ED; 0x6A14; 0x69EB; 0x6A0A;
    0x6A12; 0x6AC1; 0x6A23; 0x6A13; 0x6A44; 0x6A0C; 0x6A72; 0x6A36; 0x6A78; 0x6A47; 0x6A62; 0x6A59;
    0x6A66; 0x6A48; 0x6A38; 0x6A22; 0x6A90; 0x6A8D; 0x6AA0; 0x6A84; 0x6AA2; 0x6AA3 ].
Definition jisx0208_row_5D : list N :=
  [ 0x6A97; 0x8617; 0x6ABB; 0x6AC3; 0x6AC2; 0x6AB8; 0x6AB3; 0x6AAC; 0x6ADE; 0x6AD1; 0x6ADF; 0x6AAA;
    0x6ADA; 0x6AEA; 0x6AFB; 0x6B05; 0x8616; 0x6AFA; 0x6B12; 0x6B16; 0x9B31; 0x6B1F; 0x6B38; 0x6B37;
    0x76DC; 0x6B39; 0x98EE; 0x6B47; 0x6B43; 0x6B49; 0x6B50; 0x6B59; 0x6B54; 0x6B5B; 0x6B5F; 0x6B61;
    0x6B78; 0x6B79; 0x6B7F; 0x6B80; 0x6B84; 0x6B83; 0x6B8D; 0x6B98; 0x6B95; 0x6B9E; 0x6BA4; 0x6BAA;
    0x6BAB; 0x6BAF; 0x6BB2; 0x6BB1; 0x6BB3; 0x6BB7; 0x6BBC; 0x6BC6; 0x6BCB; 0x6BD3; 0x6BDF; 0x6BEC;
    0x6BEB; 0x6BF3; 0x6BEF; 0x9EBE; 0x6C08; 0x6C13; 0x6C14; 0x6C1B; 0x6C24; 0x6C23; 0x6C5E; 0x6C55;
    0x6C62; 0x6C6A; 0x6C82; 0x6C8D; 0x6C9A; 0x6C81; 0x6C9B; 0x6C7E; 0x6C68; 0x6C73; 0x6C92; 0x6C90;
    0x6CC4; 0x6CF1; 0x6CD3; 0x6CBD; 0x6CD7; 0x6CC5; 0x6CDD; 0x6CAE; 0x6CB1; 0x6CBE ].
Definition jisx0208_row_5E : list N :=
  [ 0x6CBA; 0x6CDB; 0x6CEF; 0x6CD9; 0x6CEA; 0x6D1F; 0x884D; 0x6D36; 0x6D2B; 0x6D3D; 0x6D38; 0x6D19;
    0x6D35; 0x6D33; 0x6D12; 0x6D0C; 0x6D63; 0x6D93; 0x6D64; 0x6D5A; 0x6D79; 0x6D59; 0x6D8E; 0x6D95;
    0x6FE4; 0x6D85; 0x6DF9; 0x6E15; 0x6E0A; 0x6DB5; 0x6DC7; 0x6DE6; 0x6DB8; 0x6DC6; 0x6DEC; 0x6DDE;
    0x6DCC; 0x6DE8; 0x6DD2; 0x6DC5; 0x6DFA; 0x6DD9; 0x6DE4; 0x6DD5; 0x6DEA; 0x6DEE; 0x6E2D; 0x6E6E;
    0x6E2E; 0x6E19; 0x6E72; 0x6E5F; 0x6E3E; 0x6E23; 0x6E6B; 0x6E2B; 0x6E76; 0x6E4D; 0x6E1F; 0x6E43;
    0x6E3A; 0x6E4E; 0x6E24; 0x6EFF; 0x6E1D; 0x6E38; 0x6E82; 0x6EAA; 0x6E98; 0x6EC9; 0x6EB7; 0x6ED3;
    0x6EBD; 0x6EAF; 0x6EC4; 0x6EB2; 0x6ED4; 0x6ED5; 0x6E8F; 0x6EA5; 0x6EC2; 0x6E9F; 0x6F41; 0x6F11;
    0x704C; 0x6EEC; 0x6EF8; 0x6EFE; 0x6F3F; 0x6EF2; 0x6F31; 0x6EEF; 0x6F32; 0x6ECC ].
Definition jisx0208_row_5F : list N :=
  [ 0x6F3E; 0x6F13; 0x6EF7; 0x6F86; 0x6F7A; 0x6F78; 0x6F81; 0x6F80; 0x6F6F; 0x6F5B; 0x6FF3; 0x6F6D;
    0x6F82; 0x6F7C; 0x6F58; 0x6F8E; 0x6F91; 0x6FC2; 0x6F66; 0x6FB3; 0x6FA3; 0x6FA1; 0x6FA4; 0x6FB9;
    0x6FC6; 0x6FAA; 0x6FDF; 0x6FD5; 0x6FEC; 0x6FD4; 0x6FD8; 0x6FF1; 0x6FEE; 0x6FDB; 0x7009; 0x700B;
    0x6FFA; 0x7011; 0x7001; 0x700F; 0x6FFE; 0x701B; 0x701A; 0x6F74; 0x701D; 0x7018; 0x701F; 0x7030;
    0x703E; 0x7032; 0x7051; 0x7063; 0x7099; 0x7092; 0x70AF; 0x70F1; 0x70AC; 0x70B8; 0x70B3; 0x70AE;
    0x70DF; 0x70CB; 0x70DD; 0x70D9; 0x7109; 0x70FD; 0x711C; 0x7119; 0x7165; 0x7155; 0x7188; 0x7166;
    0x7162; 0x714C; 0x7156; 0x716C; 0x718F; 0x71FB; 0x7184; 0x7195; 0x71A8; 0x71AC; 0x71D7; 0x71B9;
    0x71BE; 0x71D2; 0x71C9; 0x71D4; 0x71CE; 0x71E0; 0x71EC; 0x71E7; 0x71F5; 0x71FC ].
Definition jisx0208_row_60 : list N :=
  [ 0x71F9; 0x71FF; 0x720D; 0x7210; 0x721B; 0x7228; 0x722D; 0x722C; 0x7230; 0x7232; 0x723B; 0x723C;
    0x723F; 0x7240; 0x7246; 0x724B; 0x7258; 0x7274; 0x727E; 0x7282; 0x7281; 0x7287; 0x7292; 0x7296;
    0x72A2; 0x72A7; 0x72B9; 0x72B2; 0x72C3; 0x72C6; 0x72C4; 0x72CE; 0x72D2; 0x72E2; 0x72E0; 0x72E1;
    0x72F9; 0x72F7; 0x500F; 0x7317; 0x730A; 0x731C; 0x7316; 0x731D; 0x7334; 0x732F; 0x7329; 0x7325;
    0x733E; 0x734E; 0x734F; 0x9ED8; 0x7357; 0x736A; 0x7368; 0x7370; 0x7378; 0x7375; 0x737B; 0x737A;
    0x73C8; 0x73B3; 0x73CE; 0x73BB; 0x73C0; 0x73E5; 0x73EE; 0x73DE; 0x74A2; 0x7405; 0x746F; 0x7425;
    0x73F8; 0x7432; 0x743A; 0x7455; 0x743F; 0x745F; 0x7459; 0x7441; 0x745C; 0x7469; 0x7470; 0x7463;
    0x746A; 0x7476; 0x747E; 0x748B; 0x749E; 0x74A7; 0x74CA; 0x74CF; 0x74D4; 0x73F1 ].
Definition jisx0208_row_61 : list N :=
  [ 0x74E0; 0x74E3; 0x74E7; 0x74E9; 0x74EE; 0x74F2; 0x74F0; 0x74F1; 0x74F8; 0x74F7; 0x7504; 0x7503;
    0x7505; 0x750C; 0x750E; 0x750D; 0x7515; 0x7513; 0x751E; 0x7526; 0x752C; 0x753C; 0x7544; 0x754D;
    0x754A; 0x7549; 0x755B; 0x7546; 0x755A; 0x7569; 0x7564; 0x7567; 0x756B; 0x756D; 0x7578; 0x7576;
    0x7586; 0x7587; 0x7574; 0x758A; 0x7589; 0x7582; 0x7594; 0x759A; 0x759D; 0x75A5; 0x75A3; 0x75C2;
    0x75B3; 0x75C3; 0x75B5; 0x75BD; 0x75B8; 0x75BC; 0x75B1; 0x75CD; 0x75CA; 0x75D2; 0x75D9; 0x75E3;
    0x75DE; 0x75FE; 0x75FF; 0x75FC; 0x7601; 0x75F0; 0x75FA; 0x75F2; 0x75F3; 0x760B; 0x760D; 0x7609;
    0x761F; 0x7627; 0x7620; 0x7621; 0x7622; 0x7624; 0x7634; 0x7630; 0x763B; 0x7647; 0x7648; 0x7646;
    0x765C; 0x7658; 0x7661; 0x7662; 0x7668; 0x7669; 0x766A; 0x7667; 0x766C; 0x7670 ].
Definition jisx0208_row_62 : list N :=
  [ 0x7672; 0x7676; 0x7678; 0x767C; 0x7680; 0x7683; 0x7688; 0x768B; 0x768E; 0x7696; 0x7693; 0x7699;
    0x769A; 0x76B0; 0x76B4; 0x76B8; 0x76B9; 0x76BA; 0x76C2; 0x76CD; 0x76D6; 0x76D2; 0x76DE; 0x76E1;
    0x76E5; 0x76E7; 0x76EA; 0x862F; 0x76FB; 0x7708; 0x7707; 0x7704; 0x7729; 0x7724; 0x771E; 0x7725;
    0x7726; 0x771B; 0x7737; 0x7738; 0x7747; 0x775A; 0x7768; 0x776B; 0x775B; 0x7765; 0x777F; 0x777E;
    0x7779; 0x778E; 0x778B; 0x7791; 0x77A0; 0x779E; 0x77B0; 0x77B6; 0x77B9; 0x77BF; 0x77BC; 0x77BD;
    0x77BB; 0x77C7; 0x77CD; 0x77D7; 0x77DA; 0x77DC; 0x77E3; 0x77EE; 0x77FC; 0x780C; 0x7812; 0x7926;
    0x7820; 0x792A; 0x7845; 0x788E; 0x7874; 0x7886; 0x787C; 0x789A; 0x788C; 0x78A3; 0x78B5; 0x78AA;
    0x78AF; 0x78D1; 0x78C6; 0x78CB; 0x78D4; 0x78BE; 0x78BC; 0x78C5; 0x78CA; 0x78EC ].
Definition jisx0208_row_63 : list N :=
  [ 0x78E7; 0x78DA; 0x78FD; 0x78F4; 0x7907; 0x7912; 0x7911; 0x7919; 0x792C; 0x792B; 0x7940; 0x7960;
    0x7957; 0x795F; 0x795A; 0x7955; 0x7953; 0x797A; 0x797F; 0x798A; 0x799D; 0x79A7; 0x9F4B; 0x79AA;
    0x79AE; 0x79B3; 0x79B9; 0x79BA; 0x79C9; 0x79D5; 0x79E7; 0x79EC; 0x79E1; 0x79E3; 0x7A08; 0x7A0D;
    0x7A18; 0x7A19; 0x7A20; 0x7A1F; 0x7980; 0x7A31; 0x7A3B; 0x7A3E; 0x7A37; 0x7A43; 0x7A57; 0x7A49;
    0x7A61; 0x7A62; 0x7A69; 0x9F9D; 0x7A70; 0x7A79; 0x7A7D; 0x7A88; 0x7A97; 0x7A95; 0x7A98; 0x7A96;
    0x7AA9; 0x7AC8; 0x7AB0; 0x7AB6; 0x7AC5; 0x7AC4; 0x7ABF; 0x9083; 0x7AC7; 0x7ACA; 0x7ACD; 0x7ACF;
    0x7AD5; 0x7AD3; 0x7AD9; 0x7ADA; 0x7ADD; 0x7AE1; 0x7AE2; 0x7AE6; 0x7AED; 0x7AF0; 0x7B02; 0x7B0F;
    0x7B0A; 0x7B06; 0x7B33; 0x7B18; 0x7B19; 0x7B1E; 0x7B35; 0x7B28; 0x7B36; 0x7B50 ].
Definition jisx0208_row_64 : list N :=
  [ 0x7B7A; 0x7B04; 0x7B4D; 0x7B0B; 0x7B4C; 0x7B45; 0x7B75; 0x7B65; 0x7B74; 0x7B67; 0x7B70; 0x7B71;
    0x7B6C; 0x7B6E; 0x7B9D; 0x7B98; 0x7B9F; 0x7B8D; 0x7B9C; 0x7B9A; 0x7B8B; 0x7B92; 0x7B8F; 0x7B5D;
    0x7B99; 0x7BCB; 0x7BC1; 0x7BCC; 0x7BCF; 0x7BB4; 0x7BC6; 0x7BDD; 0x7BE9; 0x7C11; 0x7C14; 0x7BE6;
    0x7BE5; 0x7C60; 0x7C00; 0x7C07; 0x7C13; 0x7BF3; 0x7BF7; 0x7C17; 0x7C0D; 0x7BF6; 0x7C23; 0x7C27;
    0x7C2A; 0x7C1F; 0x7C37; 0x7C2B; 0x7C3D; 0x7C4C; 0x7C43; 0x7C54; 0x7C4F; 0x7C40; 0x7C50; 0x7C58;
    0x7C5F; 0x7C64; 0x7C56; 0x7C65; 0x7C6C; 0x7C75; 0x7C83; 0x7C90; 0x7CA4; 0x7CAD; 0x7CA2; 0x7CAB;
    0x7CA1; 0x7CA8; 0x7CB3; 0x7CB2; 0x7CB1; 0x7CAE; 0x7CB9; 0x7CBD; 0x7CC0; 0x7CC5; 0x7CC2; 0x7CD8;
    0x7CD2; 0x7CDC; 0x7CE2; 0x9B3B; 0x7CEF; 0x7CF2; 0x7CF4; 0x7CF6; 0x7CFA; 0x7D06 ].
Definition jisx0208_row_65 : list N :=
  [ 0x7D02; 0x7D1C; 0x7D15; 0x7D0A; 0x7D45; 0x7D4B; 0x7D2E; 0x7D32; 0x7D3F; 0x7D35; 0x7D46; 0x7D73;
    0x7D56; 0x7D4E; 0x7D72; 0x7D68; 0x7D6E; 0x7D4F; 0x7D63; 0x7D93; 0x7D89; 0x7D5B; 0x7D8F; 0x7D7D;
    0x7D9B; 0x7DBA; 0x7DAE; 0x7DA3; 0x7DB5; 0x7DC7; 0x7DBD; 0x7DAB; 0x7E3D; 0x7DA2; 0x7DAF; 0x7DDC;
    0x7DB8; 0x7D9F; 0x7DB0; 0x7DD8; 0x7DDD; 0x7DE4; 0x7DDE; 0x7DFB; 0x7DF2; 0x7DE1; 0x7E05; 0x7E0A;
    0x7E23; 0x7E21; 0x7E12; 0x7E31; 0x7E1F; 0x7E09; 0x7E0B; 0x7E22; 0x7E46; 0x7E66; 0x7E3B; 0x7E35;
    0x7E39; 0x7E43; 0x7E37; 0x7E32; 0x7E3A; 0x7E67; 0x7E5D; 0x7E56; 0x7E5E; 0x7E59; 0x7E5A; 0x7E79;
    0x7E6A; 0x7E69; 0x7E7C; 0x7E7B; 0x7E83; 0x7DD5; 0x7E7D; 0x8FAE; 0x7E7F; 0x7E88; 0x7E89; 0x7E8C;
    0x7E92; 0x7E90; 0x7E93; 0x7E94; 0x7E96; 0x7E8E; 0x7E9B; 0x7E9C; 0x7F38; 0x7F3A ].
Definition jisx0208_row_66 : list N :=
  [ 0x7F45; 0x7F4C; 0x7F4D; 0x7F4E; 0x7F50; 0x7F51; 0x7F55; 0x7F54; 0x7F58; 0x7F5F; 0x7F60; 0x7F68;
    0x7F69; 0x7F67; 0x7F78; 0x7F82; 0x7F86; 0x7F83; 0x7F88; 0x7F87; 0x7F8C; 0x7F94; 0x7F9E; 0x7F9D;
    0x7F9A; 0x7FA3; 0x7FAF; 0x7FB2; 0x7FB9; 0x7FAE; 0x7FB6; 0x7FB8; 0x8B71; 0x7FC5; 0x7FC6; 0x7FCA;
    0x7FD5; 0x7FD4; 0x7FE1; 0x7FE6; 0x7FE9; 0x7FF3; 0x7FF9; 0x98DC; 0x8006; 0x8004; 0x800B; 0x8012;
    0x8018; 0x8019; 0x801C; 0x8021; 0x8028; 0x803F; 0x803B; 0x804A; 0x8046; 0x8052; 0x8058; 0x805A;
    0x805F; 0x8062; 0x8068; 0x8073; 0x8072; 0x8070; 0x8076; 0x8079; 0x807D; 0x807F; 0x8084; 0x8086;
    0x8085; 0x809B; 0x8093; 0x809A; 0x80AD; 0x5190; 0x80AC; 0x80DB; 0x80E5; 0x80D9; 0x80DD; 0x80C4;
    0x80DA; 0x80D6; 0x8109; 0x80EF; 0x80F1; 0x811B; 0x8129; 0x8123; 0x812F; 0x814B ].
Definition jisx0208_row_67 : list N :=
  [ 0x968B; 0x8146; 0x813E; 0x8153; 0x8151; 0x80FC; 0x8171; 0x816E; 0x8165; 0x8166; 0x8174; 0x8183;
    0x8188; 0x818A; 0x8180; 0x8182; 0x81A0; 0x8195; 0x81A4; 0x81A3; 0x815F; 0x8193; 0x81A9; 0x81B0;
    0x81B5; 0x81BE; 0x81B8; 0x81BD; 0x81C0; 0x81C2; 0x81BA; 0x81C9; 0x81CD; 0x81D1; 0x81D9; 0x81D8;
    0x81C8; 0x81DA; 0x81DF; 0x81E0; 0x81E7; 0x81FA; 0x81FB; 0x81FE; 0x8201; 0x8202; 0x8205; 0x8207;
    0x820A; 0x820D; 0x8210; 0x8216; 0x8229; 0x822B; 0x8238; 0x8233; 0x8240; 0x8259; 0x8258; 0x825D;
    0x825A; 0x825F; 0x8264; 0x8262; 0x8268; 0x826A; 0x826B; 0x822E; 0x8271; 0x8277; 0x8278; 0x827E;
    0x828D; 0x8292; 0x82AB; 0x829F; 0x82BB; 0x82AC; 0x82E1; 0x82E3; 0x82DF; 0x82D2; 0x82F4; 0x82F3;
    0x82FA; 0x8393; 0x8303; 0x82FB; 0x82F9; 0x82DE; 0x8306; 0x82DC; 0x8309; 0x82D9 ].
Definition jisx0208_row_68 : list N :=
  [ 0x8335; 0x8334; 0x8316; 0x8332; 0x8331; 0x8340; 0x8339; 0x8350; 0x8345; 0x832F; 0x832B; 0x8317;
    0x8318; 0x8385; 0x839A; 0x83AA; 0x839F; 0x83A2; 0x8396; 0x8323; 0x838E; 0x8387; 0x838A; 0x837C;
    0x83B5; 0x8373; 0x8375; 0x83A0; 0x8389; 0x83A8; 0x83F4; 0x8413; 0x83EB; 0x83CE; 0x83FD; 0x8403;
    0x83D8; 0x840B; 0x83C1; 0x83F7; 0x8407; 0x83E0; 0x83F2; 0x840D; 0x8422; 0x8420; 0x83BD; 0x8438;
    0x8506; 0x83FB; 0x846D; 0x842A; 0x843C; 0x855A; 0x8484; 0x8477; 0x846B; 0x84AD; 0x846E; 0x8482;
    0x8469; 0x8446; 0x842C; 0x846F; 0x8479; 0x8435; 0x84CA; 0x8462; 0x84B9; 0x84BF; 0x849F; 0x84D9;
    0x84CD; 0x84BB; 0x84DA; 0x84D0; 0x84C1; 0x84C6; 0x84D6; 0x84A1; 0x8521; 0x84FF; 0x84F4; 0x8517;
    0x8518; 0x852C; 0x851F; 0x8515; 0x8514; 0x84FC; 0x8540; 0x8563; 0x8558; 0x8548 ].
Definition jisx0208_row_69 : list N :=
  [ 0x8541; 0x8602; 0x854B; 0x8555; 0x8580; 0x85A4; 0x8588; 0x8591; 0x858A; 0x85A8; 0x856D; 0x8594;
    0x859B; 0x85EA; 0x8587; 0x859C; 0x8577; 0x857E; 0x8590; 0x85C9; 0x85BA; 0x85CF; 0x85B9; 0x85D0;
    0x85D5; 0x85DD; 0x85E5; 0x85DC; 0x85F9; 0x860A; 0x8613; 0x860B; 0x85FE; 0x85FA; 0x8606; 0x8622;
    0x861A; 0x8630; 0x863F; 0x864D; 0x4E55; 0x8654; 0x865F; 0x8667; 0x8671; 0x8693; 0x86A3; 0x86A9;
    0x86AA; 0x868B; 0x868C; 0x86B6; 0x86AF; 0x86C4; 0x86C6; 0x86B0; 0x86C9; 0x8823; 0x86AB; 0x86D4;
    0x86DE; 0x86E9; 0x86EC; 0x86DF; 0x86DB; 0x86EF; 0x8712; 0x8706; 0x8708; 0x8700; 0x8703; 0x86FB;
    0x8711; 0x8709; 0x870D; 0x86F9; 0x870A; 0x8734; 0x873F; 0x8737; 0x873B; 0x8725; 0x8729; 0x871A;
    0x8760; 0x875F; 0x8778; 0x874C; 0x874E; 0x8774; 0x8757; 0x8768; 0x876E; 0x8759 ].
Definition jisx0208_row_6A : list N :=
  [ 0x8753; 0x8763; 0x876A; 0x8805; 0x87A2; 0x879F; 0x8782; 0x87AF; 0x87CB; 0x87BD; 0x87C0; 0x87D0;
    0x96D6; 0x87AB; 0x87C4; 0x87B3; 0x87C7; 0x87C6; 0x87BB; 0x87EF; 0x87F2; 0x87E0; 0x880F; 0x880D;
    0x87FE; 0x87F6; 0x87F7; 0x880E; 0x87D2; 0x8811; 0x8816; 0x8815; 0x8822; 0x8821; 0x8831; 0x8836;
    0x8839; 0x8827; 0x883B; 0x8844; 0x8842; 0x8852; 0x8859; 0x885E; 0x8862; 0x886B; 0x8881; 0x887E;
    0x889E; 0x8875; 0x887D; 0x88B5; 0x8872; 0x8882; 0x8897; 0x8892; 0x88AE; 0x8899; 0x88A2; 0x888D;
    0x88A4; 0x88B0; 0x88BF; 0x88B1; 0x88C3; 0x88C4; 0x88D4; 0x88D8; 0x88D9; 0x88DD; 0x88F9; 0x8902;
    0x88FC; 0x88F4; 0x88E8; 0x88F2; 0x8904; 0x890C; 0x890A; 0x8913; 0x8943; 0x891E; 0x8925; 0x892A;
    0x892B; 0x8941; 0x8944; 0x893B; 0x8936; 0x8938; 0x894C; 0x891D; 0x8960; 0x895E ].
Definition jisx0208_row_6B : list N :=
  [ 0x8966; 0x8964; 0x896D; 0x896A; 0x896F; 0x8974; 0x8977; 0x897E; 0x8983; 0x8988; 0x898A; 0x8993;
    0x8998; 0x89A1; 0x89A9; 0x89A6; 0x89AC; 0x89AF; 0x89B2; 0x89BA; 0x89BD; 0x89BF; 0x89C0; 0x89DA;
    0x89DC; 0x89DD; 0x89E7; 0x89F4; 0x89F8; 0x8A03; 0x8A16; 0x8A10; 0x8A0C; 0x8A1B; 0x8A1D; 0x8A25;
    0x8A36; 0x8A41; 0x8A5B; 0x8A52; 0x8A46; 0x8A48; 0x8A7C; 0x8A6D; 0x8A6C; 0x8A62; 0x8A85; 0x8A82;
    0x8A84; 0x8AA8; 0x8AA1; 0x8A91; 0x8AA5; 0x8AA6; 0x8A9A; 0x8AA3; 0x8AC4; 0x8ACD; 0x8AC2; 0x8ADA;
    0x8AEB; 0x8AF3; 0x8AE7; 0x8AE4; 0x8AF1; 0x8B14; 0x8AE0; 0x8AE2; 0x8AF7; 0x8ADE; 0x8ADB; 0x8B0C;
    0x8B07; 0x8B1A; 0x8AE1; 0x8B16; 0x8B10; 0x8B17; 0x8B20; 0x8B33; 0x97AB; 0x8B26; 0x8B2B; 0x8B3E;
    0x8B28; 0x8B41; 0x8B4C; 0x8B4F; 0x8B4E; 0x8B49; 0x8B56; 0x8B5B; 0x8B5A; 0x8B6B ].
Definition jisx0208_row_6C : list N :=
  [ 0x8B5F; 0x8B6C; 0x8B6F; 0x8B74; 0x8B7D; 0x8B80; 0x8B8C; 0x8B8E; 0x8B92; 0x8B93; 0x8B96; 0x8B99;
    0x8B9A; 0x8C3A; 0x8C41; 0x8C3F; 0x8C48; 0x8C4C; 0x8C4E; 0x8C50; 0x8C55; 0x8C62; 0x8C6C; 0x8C78;
    0x8C7A; 0x8C82; 0x8C89; 0x8C85; 0x8C8A; 0x8C8D; 0x8C8E; 0x8C94; 0x8C7C; 0x8C98; 0x621D; 0x8CAD;
    0x8CAA; 0x8CBD; 0x8CB2; 0x8CB3; 0x8CAE; 0x8CB6; 0x8CC8; 0x8CC1; 0x8CE4; 0x8CE3; 0x8CDA; 0x8CFD;
    0x8CFA; 0x8CFB; 0x8D04; 0x8D05; 0x8D0A; 0x8D07; 0x8D0F; 0x8D0D; 0x8D10; 0x9F4E; 0x8D13; 0x8CCD;
    0x8D14; 0x8D16; 0x8D67; 0x8D6D; 0x8D71; 0x8D73; 0x8D81; 0x8D99; 0x8DC2; 0x8DBE; 0x8DBA; 0x8DCF;
    0x8DDA; 0x8DD6; 0x8DCC; 0x8DDB; 0x8DCB; 0x8DEA; 0x8DEB; 0x8DDF; 0x8DE3; 0x8DFC; 0x8E08; 0x8E09;
    0x8DFF; 0x8E1D; 0x8E1E; 0x8E10; 0x8E1F; 0x8E42; 0x8E35; 0x8E30; 0x8E34; 0x8E4A ].
Definition jisx0208_row_6D : list N :=
  [ 0x8E47; 0x8E49; 0x8E4C; 0x8E50; 0x8E48; 0x8E59; 0x8E64; 0x8E60; 0x8E2A; 0x8E63; 0x8E55; 0x8E76;
    0x8E72; 0x8E7C; 0x8E81; 0x8E87; 0x8E85; 0x8E84; 0x8E8B; 0x8E8A; 0x8E93; 0x8E91; 0x8E94; 0x8E99;
    0x8EAA; 0x8EA1; 0x8EAC; 0x8EB0; 0x8EC6; 0x8EB1; 0x8EBE; 0x8EC5; 0x8EC8; 0x8ECB; 0x8EDB; 0x8EE3;
    0x8EFC; 0x8EFB; 0x8EEB; 0x8EFE; 0x8F0A; 0x8F05; 0x8F15; 0x8F12; 0x8F19; 0x8F13; 0x8F1C; 0x8F1F;
    0x8F1B; 0x8F0C; 0x8F26; 0x8F33; 0x8F3B; 0x8F39; 0x8F45; 0x8F42; 0x8F3E; 0x8F4C; 0x8F49; 0x8F46;
    0x8F4E; 0x8F57; 0x8F5C; 0x8F62; 0x8F63; 0x8F64; 0x8F9C; 0x8F9F; 0x8FA3; 0x8FAD; 0x8FAF; 0x8FB7;
    0x8FDA; 0x8FE5; 0x8FE2; 0x8FEA; 0x8FEF; 0x9087; 0x8FF4; 0x9005; 0x8FF9; 0x8FFA; 0x9011; 0x9015;
    0x9021; 0x900D; 0x901E; 0x9016; 0x900B; 0x9027; 0x9036; 0x9035; 0x9039; 0x8FF8 ].
Definition jisx0208_row_6E : list N :=
  [ 0x904F; 0x9050; 0x9051; 0x9052; 0x900E; 0x9049; 0x903E; 0x9056; 0x9058; 0x905E; 0x9068; 0x906F;
    0x9076; 0x96A8; 0x9072; 0x9082; 0x907D; 0x9081; 0x9080; 0x908A; 0x9089; 0x908F; 0x90A8; 0x90AF;
    0x90B1; 0x90B5; 0x90E2; 0x90E4; 0x6248; 0x90DB; 0x9102; 0x9112; 0x9119; 0x9132; 0x9130; 0x914A;
    0x9156; 0x9158; 0x9163; 0x9165; 0x9169; 0x9173; 0x9172; 0x918B; 0x9189; 0x9182; 0x91A2; 0x91AB;
    0x91AF; 0x91AA; 0x91B5; 0x91B4; 0x91BA; 0x91C0; 0x91C1; 0x91C9; 0x91CB; 0x91D0; 0x91D6; 0x91DF;
    0x91E1; 0x91DB; 0x91FC; 0x91F5; 0x91F6; 0x921E; 0x91FF; 0x9214; 0x922C; 0x9215; 0x9211; 0x925E;
    0x9257; 0x9245; 0x9249; 0x9264; 0x9248; 0x9295; 0x923F; 0x924B; 0x9250; 0x929C; 0x9296; 0x9293;
    0x929B; 0x925A; 0x92CF; 0x92B9; 0x92B7; 0x92E9; 0x930F; 0x92FA; 0x9344; 0x932E ].
Definition jisx0208_row_6F : list N :=
  [ 0x9319; 0x9322; 0x931A; 0x9323; 0x933A; 0x9335; 0x933B; 0x935C; 0x9360; 0x937C; 0x936E; 0x9356;
    0x93B0; 0x93AC; 0x93AD; 0x9394; 0x93B9; 0x93D6; 0x93D7; 0x93E8; 0x93E5; 0x93D8; 0x93C3; 0x93DD;
    0x93D0; 0x93C8; 0x93E4; 0x941A; 0x9414; 0x9413; 0x9403; 0x9407; 0x9410; 0x9436; 0x942B; 0x9435;
    0x9421; 0x943A; 0x9441; 0x9452; 0x9444; 0x945B; 0x9460; 0x9462; 0x945E; 0x946A; 0x9229; 0x9470;
    0x9475; 0x9477; 0x947D; 0x945A; 0x947C; 0x947E; 0x9481; 0x947F; 0x9582; 0x9587; 0x958A; 0x9594;
    0x9596; 0x9598; 0x9599; 0x95A0; 0x95A8; 0x95A7; 0x95AD; 0x95BC; 0x95BB; 0x95B9; 0x95BE; 0x95CA;
    0x6FF6; 0x95C3; 0x95CD; 0x95CC; 0x95D5; 0x95D4; 0x95D6; 0x95DC; 0x95E1; 0x95E5; 0x95E2; 0x9621;
    0x9628; 0x962E; 0x962F; 0x9642; 0x964C; 0x964F; 0x964B; 0x9677; 0x965C; 0x965E ].
Definition jisx0208_row_70 : list N :=
  [ 0x965D; 0x965F; 0x9666; 0x9672; 0x966C; 0x968D; 0x9698; 0x9695; 0x9697; 0x96AA; 0x96A7; 0x96B1;
    0x96B2; 0x96B0; 0x96B4; 0x96B6; 0x96B8; 0x96B9; 0x96CE; 0x96CB; 0x96C9; 0x96CD; 0x894D; 0x96DC;
    0x970D; 0x96D5; 0x96F9; 0x9704; 0x9706; 0x9708; 0x9713; 0x970E; 0x9711; 0x970F; 0x9716; 0x9719;
    0x9724; 0x972A; 0x9730; 0x9739; 0x973D; 0x973E; 0x9744; 0x9746; 0x9748; 0x9742; 0x9749; 0x975C;
    0x9760; 0x9764; 0x9766; 0x9768; 0x52D2; 0x976B; 0x9771; 0x9779; 0x9785; 0x977C; 0x9781; 0x977A;
    0x9786; 0x978B; 0x978F; 0x9790; 0x979C; 0x97A8; 0x97A6; 0x97A3; 0x97B3; 0x97B4; 0x97C3; 0x97C6;
    0x97C8; 0x97CB; 0x97DC; 0x97ED; 0x9F4F; 0x97F2; 0x7ADF; 0x97F6; 0x97F5; 0x980F; 0x980C; 0x9838;
    0x9824; 0x9821; 0x9837; 0x983D; 0x9846; 0x984F; 0x984B; 0x986B; 0x986F; 0x9870 ].
Definition jisx0208_row_71 : list N :=
  [ 0x9871; 0x9874; 0x9873; 0x98AA; 0x98AF; 0x98B1; 0x98B6; 0x98C4; 0x98C3; 0x98C6; 0x98E9; 0x98EB;
    0x9903; 0x9909; 0x9912; 0x9914; 0x9918; 0x9921; 0x991D; 0x991E; 0x9924; 0x9920; 0x992C; 0x992E;
    0x993D; 0x993E; 0x9942; 0x9949; 0x9945; 0x9950; 0x994B; 0x9951; 0x9952; 0x994C; 0x9955; 0x9997;
    0x9998; 0x99A5; 0x99AD; 0x99AE; 0x99BC; 0x99DF; 0x99DB; 0x99DD; 0x99D8; 0x99D1; 0x99ED; 0x99EE;
    0x99F1; 0x99F2; 0x99FB; 0x99F8; 0x9A01; 0x9A0F; 0x9A05; 0x99E2; 0x9A19; 0x9A2B; 0x9A37; 0x9A45;
    0x9A42; 0x9A40; 0x9A43; 0x9A3E; 0x9A55; 0x9A4D; 0x9A5B; 0x9A57; 0x9A5F; 0x9A62; 0x9A65; 0x9A64;
    0x9A69; 0x9A6B; 0x9A6A; 0x9AAD; 0x9AB0; 0x9ABC; 0x9AC0; 0x9ACF; 0x9AD1; 0x9AD3; 0x9AD4; 0x9ADE;
    0x9ADF; 0x9AE2; 0x9AE3; 0x9AE6; 0x9AEF; 0x9AEB; 0x9AEE; 0x9AF4; 0x9AF1; 0x9AF7 ].
Definition jisx0208_row_72 : list N :=
  [ 0x9AFB; 0x9B06; 0x9B18; 0x9B1A; 0x9B1F; 0x9B22; 0x9B23; 0x9B25; 0x9B27; 0x9B28; 0x9B29; 0x9B2A;
    0x9B2E; 0x9B2F; 0x9B32; 0x9B44; 0x9B43; 0x9B4F; 0x9B4D; 0x9B4E; 0x9B51; 0x9B58; 0x9B74; 0x9B93;
    0x9B83; 0x9B91; 0x9B96; 0x9B97; 0x9B9F; 0x9BA0; 0x9BA8; 0x9BB4; 0x9BC0; 0x9BCA; 0x9BB9; 0x9BC6;
    0x9BCF; 0x9BD1; 0x9BD2; 0x9BE3; 0x9BE2; 0x9BE4; 0x9BD4; 0x9BE1; 0x9C3A; 0x9BF2; 0x9BF1; 0x9BF0;
    0x9C15; 0x9C14; 0x9C09; 0x9C13; 0x9C0C; 0x9C06; 0x9C08; 0x9C12; 0x9C0A; 0x9C04; 0x9C2E; 0x9C1B;
    0x9C25; 0x9C24; 0x9C21; 0x9C30; 0x9C47; 0x9C32; 0x9C46; 0x9C3E; 0x9C5A; 0x9C60; 0x9C67; 0x9C76;
    0x9C78; 0x9CE7; 0x9CEC; 0x9CF0; 0x9D09; 0x9D08; 0x9CEB; 0x9D03; 0x9D06; 0x9D2A; 0x9D26; 0x9DAF;
    0x9D23; 0x9D1F; 0x9D44; 0x9D15; 0x9D12; 0x9D41; 0x9D3F; 0x9D3E; 0x9D46; 0x9D48 ].
Definition jisx0208_row_73 : list N :=
  [ 0x9D5D; 0x9D5E; 0x9D64; 0x9D51; 0x9D50; 0x9D59; 0x9D72; 0x9D89; 0x9D87; 0x9DAB; 0x9D6F; 0x9D7A;
    0x9D9A; 0x9DA4; 0x9DA9; 0x9DB2; 0x9DC4; 0x9DC1; 0x9DBB; 0x9DB8; 0x9DBA; 0x9DC6; 0x9DCF; 0x9DC2;
    0x9DD9; 0x9DD3; 0x9DF8; 0x9DE6; 0x9DED; 0x9DEF; 0x9DFD; 0x9E1A; 0x9E1B; 0x9E1E; 0x9E75; 0x9E79;
    0x9E7D; 0x9E81; 0x9E88; 0x9E8B; 0x9E8C; 0x9E92; 0x9E95; 0x9E91; 0x9E9D; 0x9EA5; 0x9EA9; 0x9EB8;
    0x9EAA; 0x9EAD; 0x9761; 0x9ECC; 0x9ECE; 0x9ECF; 0x9ED0; 0x9ED4; 0x9EDC; 0x9EDE; 0x9EDD; 0x9EE0;
    0x9EE5; 0x9EE8; 0x9EEF; 0x9EF4; 0x9EF6; 0x9EF7; 0x9EF9; 0x9EFB; 0x9EFC; 0x9EFD; 0x9F07; 0x9F08;
    0x76B7; 0x9F15; 0x9F21; 0x9F2C; 0x9F3E; 0x9F4A; 0x9F52; 0x9F54; 0x9F63; 0x9F5F; 0x9F60; 0x9F61;
    0x9F66; 0x9F67; 0x9F6C; 0x9F6A; 0x9F77; 0x9F72; 0x9F76; 0x9F95; 0x9F9C; 0x9FA0 ].
Definition jisx0208_row_74 : list N :=
  [ 0x582F; 0x69C7; 0x9059; 0x7464; 0x51DC; 0x7199; 0xFFFE; 0xFFFE; 0xFFFE; 0xFFFE; 0xFFFE; 0xFFFE;
    0xFFFE; 0xFFFE; 0xFFFE; 0xFFFE; 0xFFFE; 0xFFFE; 0xFFFE; 0xFFFE; 0xFFFE; 0xFFFE; 0xFFFE; 0xFFFE;
    0xFFFE; 0xFFFE; 0xFFFE; 0xFFFE; 0xFFFE; 0xFFFE; 0xFFFE; 0xFFFE; 0xFFFE; 0xFFFE; 0xFFFE; 0xFFFE;
    0xFFFE; 0xFFFE; 0xFFFE; 0xFFFE; 0xFFFE; 0xFFFE; 0xFFFE; 0xFFFE; 0xFFFE; 0xFFFE; 0xFFFE; 0xFFFE;
    0xFFFE; 0xFFFE; 0xFFFE; 0xFFFE; 0xFFFE; 0xFFFE; 0xFFFE; 0xFFFE; 0xFFFE; 0xFFFE; 0xFFFE; 0xFFFE;
    0xFFFE; 0xFFFE; 0xFFFE; 0xFFFE; 0xFFFE; 0xFFFE; 0xFFFE; 0xFFFE; 0xFFFE; 0xFFFE; 0xFFFE; 0xFFFE;
    0xFFFE; 0xFFFE; 0xFFFE; 0xFFFE; 0xFFFE; 0xFFFE; 0xFFFE; 0xFFFE; 0xFFFE; 0xFFFE; 0xFFFE; 0xFFFE;
    0xFFFE; 0xFFFE; 0xFFFE; 0xFFFE; 0xFFFE; 0xFFFE; 0xFFFE; 0xFFFE; 0xFFFE; 0xFFFE ].

Definition jisx0208 : list (list N) :=
  [ jisx0208_row_21; jisx0208_row_22; jisx0208_row_23; jisx0208_row_24;
    jisx0208_row_25; jisx0208_row_26; jisx0208_row_27; jisx0208_row_28;
    []; []; []; [];
    []; []; []; jisx0208_row_30;
    jisx0208_row_31; jisx0208_row_32; jisx0208_row_33; jisx0208_row_34;
    jisx0208_row_35; jisx0208_row_36; jisx0208_row_37; jisx0208_row_38;
    jisx0208_row_39; jisx0208_row_3A; jisx0208_row_3B; jisx0208_row_3C;
    jisx0208_row_3D; jisx0208_row_3E; jisx0208_row_3F; jisx0208_row_40;
    jisx0208_row_41; jisx0208_row_42; jisx0208_row_43; jisx0208_row_44;
    jisx0208_row_45; jisx0208_row_46; jisx0208_row_47; jisx0208_row_48;
    jisx0208_row_49; jisx0208_row_4A; jisx0208_row_4B; jisx0208_row_4C;
    jisx0208_row_4D; jisx0208_row_4E; jisx0208_row_4F; jisx0208_row_50;
    jisx0208_row_51; jisx0208_row_52; jisx0208_row_53; jisx0208_row_54;
    jisx0208_row_55; jisx0208_row_56; jisx0208_row_57; jisx0208_row_58;
    jisx0208_row_59; jisx0208_row_5A; jisx0208_row_5B; jisx0208_row_5C;
    jisx0208_row_5D; jisx0208_row_5E; jisx0208_row_5F; jisx0208_row_60;
    jisx0208_row_61; jisx0208_row_62; jisx0208_row_63; jisx0208_row_64;
    jisx0208_row_65; jisx0208_row_66; jisx0208_row_67; jisx0208_row_68;
    jisx0208_row_69; jisx0208_row_6A; jisx0208_row_6B; jisx0208_row_6C;
    jisx0208_row_6D; jisx0208_row_6E; jisx0208_row_6F; jisx0208_row_70;
    jisx0208_row_71; jisx0208_row_72; jisx0208_row_73; jisx0208_row_74;
    []; []; []; [];
    []; []; []; [];
    []; [] ].

(** [TRYMAP_DEC(jisx0208, decoded, c1, c2)]. *)
Definition jisx0208_decode (c1 c2 : N) : option N :=
  if (c1 <? 0x21) || (c2 <? 0x21) then None
  else
    match nth_error jisx0208 (N.to_nat (c1 - 0x21)) with
    | None => None
    | Some row =>
        match nth_error row (N.to_nat (c2 - 0x21)) with
        | None => None
        | Some u => if u =? UNIINV then None else Some u
        end
    end.

(** The cells of a table with their indexes, counted from [i]. *)
Fixpoint enumerate {A} (i : N) (l : list A) : list (N * A) :=
  match l with
  | [] => []
  | x :: rest => (i, x) :: enumerate (N.succ i) rest
  end.

(** The encoding map [jisxcommon] of the codec, as pairs (code point,
    JIS code).  On JIS X 0208 it is the inverse of [jisx0208]; its entries
    for JIS X 0212 carry the bit 0x8000, which the shift_jis encoder
    refuses, and are left out. *)
Definition jisxcommon : list (N * N) :=
    flat_map
      (fun r : N * list N =>
         flat_map
           (fun e : N * N =>
              if snd e =? UNIINV then [] else [(snd e, fst r * 256 + fst e)])
           (enumerate 0x21 (snd r)))
      (enumerate 0x21 jisx0208).

(** [TRYMAP_ENC(jisxcommon, code, c)]. *)
Definition jisxcommon_encode (c : N) : option N :=
  option_map snd (find (fun e : N * N => fst e =? c) jisxcommon).

Definition NOCHAR : N := 0xFFFF.

(** The two output bytes for a JIS code: the tail of [ENCODER(shift_jis)]. *)
Definition jis_to_sjis (code : N) : bytes :=
  let c1 := code / 256 in
  let c2 := code mod 256 in
  let c2 := (if N.odd (c1 - 0x21) then 0x5E else 0) + (c2 - 0x21) in
  let c1 := (c1 - 0x21) / 2 in
  [ byte_of_N (if c1 <? 0x1F then c1 + 0x81 else c1 + 0xC1);
    byte_of_N (if c2 <? 0x3F then c2 + 0x40 else c2 + 0x41) ].

(** One round of the loop of [ENCODER(shift_jis)]: the bytes of the
    character [c], or [None] where the C code returns 1. *)
Definition encode_char (c : N) : option bytes :=
  match (if c <? 0x80 then Some c
         else if c =? 0x00A5 then Some 0x5C          (* YEN SIGN *)
         else if c =? 0x203E then Some 0x7E          (* OVERLINE *)
         else if (0xFF61 <=? c) && (c <=? 0xFF9F) then Some (c - 0xFEC0)
         else if 0xFFFF <? c then None
         else Some NOCHAR)
  with
  | None => None
  | Some code =>
      if (code <? 0x80) || ((0xA1 <=? code) && (code <=? 0xDF))
      then Some [byte_of_N code]
      else
        match (if code =? NOCHAR
               then match jisxcommon_encode c with
                    | Some code' =>
                        if N.testbit code' 15 then None else Some code'
                    | None =>
                        if c =? 0xFF3C then Some 0x2140 else None
                    end
               else Some code)
        with
        | None => None
        | Some code => Some (jis_to_sjis code)
        end
  end.

(** [s.encode('shift_jis')], with the default handler [strict]. *)
Fixpoint encode (s : str) : result bytes :=
  match s with
  | [] => Ok []
  | c :: rest =>
      match encode_char c with
      | Some b => fmap (app b) (encode rest)
      | None => Raise UnicodeEncodeError
      end
  end.

(** The error handlers the programs use. *)
Inductive errors := strict | ignore.

Definition is_lead (c : N) : bool :=
  ((0x81 <=? c) && (c <=? 0x9F)) || ((0xE0 <=? c) && (c <=? 0xEA)).

(** The two-byte branch of [DECODER(shift_jis)]: the character of the lead
    byte [c] and the trail byte [c2], or [None] where the C code
    returns 1. *)
Definition decode_pair (c c2 : N) : option N :=
  if (c2 <? 0x40) || ((0x7E <? c2) && (c2 <? 0x80)) || (0xFC <? c2)
  then None
  else
    let c1 := if c <? 0xE0 then c - 0x81 else c - 0xC1 in
    let c2 := if c2 <? 0x80 then c2 - 0x40 else c2 - 0x41 in
    let c1 := 2 * c1 + (if c2 <? 0x5E then 0 else 1) + 0x21 in
    let c2 := (if c2 <? 0x5E then c2 else c2 - 0x5E) + 0x21 in
    if (c1 =? 0x21) && (c2 =? 0x40)
    then Some 0xFF3C                       (* FULL-WIDTH REVERSE SOLIDUS *)
    else jisx0208_decode c1 c2.

(** [b.decode('shift_jis', errors=e)]: the loop of [DECODER(shift_jis)]
    under the driver of multibytecodec.c.  On an illegal sequence the
    handler [ignore] skips one byte and resumes; on a lead byte that ends
    the input (MBERR_TOOFEW) it skips what is left. *)
Fixpoint decode (e : errors) (inbuf : bytes) : result str :=
  match inbuf with
  | [] => Ok []
  | b :: rest =>
      let c := Byte.to_N b in
      if c <? 0x80 then fmap (cons c) (decode e rest)
      else if (0xA1 <=? c) && (c <=? 0xDF)
      then fmap (cons (0xFEC0 + c)) (decode e rest)
      else if is_lead c
      then
        match rest with
        | [] =>
            match e with
            | strict => Raise UnicodeDecodeError
            | ignore => Ok []
            end
        | b2 :: rest' =>
            match decode_pair c (Byte.to_N b2) with
            | Some ch => fmap (cons ch) (decode e rest')
            | None =>
                match e with
                | strict => Raise UnicodeDecodeError
                | ignore => decode e rest
                end
            end
        end
      else
        match e with
        | strict => Raise UnicodeDecodeError
        | ignore => decode e rest
        end
  end.

End ShiftJIS.

(** ** The field codecs of [construct] *)

Module Construct.

(** A parser reads from the front of a stream and leaves the rest. *)
Definition parser (A : Type) := bytes -> result (A * bytes).

Definition pbind {A B} (p : parser A) (k : A -> parser B) : parser B :=
  fun stream =>
    match p stream with
    | Ok (a, rest) => k a rest
    | Raise e => Raise e
    end.

Definition pret {A} (a : A) : parser A := fun stream => Ok (a, stream).

Definition plift {A} (r : result A) : parser A :=
  fun stream => fmap (fun a => (a, stream)) r.

(** [con.parse(data)]: parse from the start of [data]; what follows the
    parsed value is not looked at. *)
Definition parse {A} (p : parser A) (data : bytes) : result A :=
  fmap fst (p data).

(** [stream_read(stream, length)]. *)
Definition stream_read (length : nat) : parser bytes :=
  fun stream =>
    let data := firstn length stream in
    if Nat.eqb (List.length data) length
    then Ok (data, skipn length stream)
    else Raise StreamError.

(** [struct.pack("<B" | "<L" | "<Q", v)] and [struct.unpack]. *)
Fixpoint pack_le (width : nat) (v : Z) : bytes :=
  match width with
  | O => []
  | S w => byte_of_N (Z.to_N (v mod 256)) :: pack_le w (v / 256)
  end.

Fixpoint unpack_le (data : bytes) : Z :=
  match data with
  | [] => 0
  | b :: rest => Z.of_N (Byte.to_N b) + 256 * unpack_le rest
  end.

(** [FormatField]: an unsigned little-endian integer of [width] bytes. *)
Definition FormatField_build (width : nat) (obj : Z) : result bytes :=
  if (0 <=? obj)%Z && (obj <? 2 ^ (8 * Z.of_nat width))%Z
  then Ok (pack_le width obj)
  else Raise FormatFieldError.

Definition FormatField_parse (width : nat) : parser Z :=
  pbind (stream_read width) (fun data => pret (unpack_le data)).

Definition Int8ul_build := FormatField_build 1.
Definition Int8ul_parse := FormatField_parse 1.
Definition Int32ul_build := FormatField_build 4.
Definition Int32ul_parse := FormatField_parse 4.
Definition Int64ul_build := FormatField_build 8.
Definition Int64ul_parse := FormatField_parse 8.

(** [Const(value, Int8ul)].  The dictionaries the generator builds from
    have no key for the field, so [_build] receives [None] and writes
    [value]; [_parse] compares what it read with [value]. *)
Definition Const_build (value : Z) : result bytes := Int8ul_build value.

Definition Const_parse (value : Z) : parser Z :=
  pbind Int8ul_parse
    (fun obj => if (obj =? value)%Z then pret obj else plift (Raise ConstError)).

(** [Bytes(length)]. *)
Definition Bytes_build (length : nat) (data : bytes) : result bytes :=
  if Nat.eqb (List.length data) length then Ok data else Raise StreamError.

Definition Bytes_parse (length : nat) : parser bytes := stream_read length.

(** [PaddedString(length, "ascii")], that is
    [StringEncoded(FixedSized(length, NullStripped(GreedyBytes)), "ascii")].
    Text that is not ASCII fails with the error of [str.encode] or
    [bytes.decode]; the releases of [construct] that wrap that error in a
    [StringError] of their own fail at the same places. *)
Definition PaddedString_build (length : nat) (obj : str) : result bytes :=
  data <- ascii_encode obj ;;
  if Nat.ltb length (List.length data)
  then Raise PaddingError
  else Ok (data ++ zeros (length - List.length data)).

Definition PaddedString_parse (length : nat) : parser str :=
  pbind (stream_read length) (fun data => plift (ascii_decode (rstrip data))).

(** [Padding(length)]. *)
Definition Padding_build (length : nat) : result bytes := Ok (zeros length).

Definition Padding_parse (length : nat) : parser unit :=
  pbind (stream_read length) (fun _ => pret tt).

End Construct.

Import Construct.

Notation "x <~ p ;; k" := (Construct.pbind p (fun x => k))
  (at level 61, p at next level, right associativity).

(** ** The record layouts (declared alike in both programs) *)

Module Records.

Definition RECORD_TYPE_HEADER : Z := 1.
Definition RECORD_TYPE_DATA : Z := 2.
Definition RECORD_TYPE_TRAILER : Z := 8.

Definition RECORD_SIZE : nat := 120.

(** The adapter [ShiftJISString(length)] over [Bytes(length)]. *)
Definition ShiftJISString_decode (obj : bytes) : result str :=
  ShiftJIS.decode ShiftJIS.ignore (rstrip obj).

Definition ShiftJISString_encode (length : nat) (obj : str) : result bytes :=
  encoded <- ShiftJIS.encode obj ;;
  if Nat.ltb length (List.length encoded)
  then Raise (ValueError (TooLong (List.length encoded) length))
  else Ok (ljust length encoded).

Definition ShiftJISString_build (length : nat) (obj : str) : result bytes :=
  obj2 <- ShiftJISString_encode length obj ;;
  Bytes_build length obj2.

Definition ShiftJISString_parse (length : nat) : parser str :=
  obj <~ Bytes_parse length ;;
  plift (ShiftJISString_decode obj).

(** The values of the three kinds: the dictionary handed to [build] and
    the container [parse] returns, whose further keys ([record_type], the
    constant, and [reserved], always [None]) carry nothing. *)
Record Header := {
  file_name : str;
  creation_date : str;
  creation_time : str;
  total_records : Z;
  version : str
}.

Record Data := {
  record_id : Z;
  name : str;
  value : Z;
  status : Z;
  timestamp : str;
  description : str
}.

Record Trailer := {
  data_record_count : Z;
  total_value_sum : Z;
  checksum : Z
}.

(** [HeaderRecord = Struct(...)]. *)
Definition HeaderRecord_build (obj : Header) : result bytes :=
  b0 <- Const_build RECORD_TYPE_HEADER ;;
  b1 <- ShiftJISString_build 30 (file_name obj) ;;
  b2 <- PaddedString_build 8 (creation_date obj) ;;
  b3 <- PaddedString_build 6 (creation_time obj) ;;
  b4 <- Int32ul_build (total_records obj) ;;
  b5 <- PaddedString_build 10 (version obj) ;;
  b6 <- Padding_build 61 ;;
  Ok (b0 ++ b1 ++ b2 ++ b3 ++ b4 ++ b5 ++ b6).

Definition HeaderRecord_parser : parser Header :=
  _ <~ Const_parse RECORD_TYPE_HEADER ;;
  file_name <~ ShiftJISString_parse 30 ;;
  creation_date <~ PaddedString_parse 8 ;;
  creation_time <~ PaddedString_parse 6 ;;
  total_records <~ Int32ul_parse ;;
  version <~ PaddedString_parse 10 ;;
  _ <~ Padding_parse 61 ;;
  pret (Build_Header file_name creation_date creation_time total_records version).

Definition HeaderRecord_parse : bytes -> result Header := parse HeaderRecord_parser.

(** [DataRecord = Struct(...)]. *)
Definition DataRecord_build (obj : Data) : result bytes :=
  b0 <- Const_build RECORD_TYPE_DATA ;;
  b1 <- Int32ul_build (record_id obj) ;;
  b2 <- ShiftJISString_build 50 (name obj) ;;
  b3 <- Int32ul_build (value obj) ;;
  b4 <- Int8ul_build (status obj) ;;
  b5 <- PaddedString_build 14 (timestamp obj) ;;
  b6 <- ShiftJISString_build 40 (description obj) ;;
  b7 <- Padding_build 6 ;;
  Ok (b0 ++ b1 ++ b2 ++ b3 ++ b4 ++ b5 ++ b6 ++ b7).

Definition DataRecord_parser : parser Data :=
  _ <~ Const_parse RECORD_TYPE_DATA ;;
  record_id <~ Int32ul_parse ;;
  name <~ ShiftJISString_parse 50 ;;
  value <~ Int32ul_parse ;;
  status <~ Int8ul_parse ;;
  timestamp <~ PaddedString_parse 14 ;;
  description <~ ShiftJISString_parse 40 ;;
  _ <~ Padding_parse 6 ;;
  pret (Build_Data record_id name value status timestamp description).

Definition DataRecord_parse : bytes -> result Data := parse DataRecord_parser.

(** [TrailerRecord = Struct(...)]. *)
Definition TrailerRecord_build (obj : Trailer) : result bytes :=
  b0 <- Const_build RECORD_TYPE_TRAILER ;;
  b1 <- Int32ul_build (data_record_count obj) ;;
  b2 <- Int64ul_build (total_value_sum obj) ;;
  b3 <- Int32ul_build (checksum obj) ;;
  b4 <- Padding_build 103 ;;
  Ok (b0 ++ b1 ++ b2 ++ b3 ++ b4).

Definition TrailerRecord_parser : parser Trailer :=
  _ <~ Const_parse RECORD_TYPE_TRAILER ;;
  data_record_count <~ Int32ul_parse ;;
  total_value_sum <~ Int64ul_parse ;;
  checksum <~ Int32ul_parse ;;
  _ <~ Padding_parse 103 ;;
  pret (Build_Trailer data_record_count total_value_sum checksum).

Definition TrailerRecord_parse : bytes -> result Trailer := parse TrailerRecord_parser.

End Records.

(** ** record_parser.py *)

Module Parser.

Import Records.

(** What the program prints on the standard error stream. *)
Inductive stderr_line :=
| Warning_short (record_num : Z) (len : nat)
    (* 警告: レコード#{record_num}のサイズが不足しています ({len(data)}バイト) *)
| Error_record (record_num : Z) (e : exn)
    (* エラー: レコード#{record_num}のパースに失敗しました: {e} *)
| Error_main (e : exn).
    (* エラー: {e} *)

Definition detect_record_type (data : bytes) : option N :=
  match data with
  | [] => None
  | b :: _ => Some (Byte.to_N b)
  end.

(** The container a record parses to, by kind. *)
Inductive parsed :=
| Parsed_Header (h : Header)
| Parsed_Data (d : Data)
| Parsed_Trailer (t : Trailer).

Definition same_type (record_type : option N) (kind : Z) : bool :=
  match record_type with
  | Some t => (Z.of_N t =? kind)%Z
  | None => false
  end.

Definition parse_record (data : bytes) : result (parsed * string) :=
  if negb (Nat.eqb (List.length data) RECORD_SIZE)
  then Raise (ValueError (BadRecordSize (List.length data)))
  else
    let record_type := detect_record_type data in
    if same_type record_type RECORD_TYPE_HEADER
    then parsed <- HeaderRecord_parse data ;; Ok (Parsed_Header parsed, "HEADER"%string)
    else if same_type record_type RECORD_TYPE_DATA
    then parsed <- DataRecord_parse data ;; Ok (Parsed_Data parsed, "DATA"%string)
    else if same_type record_type RECORD_TYPE_TRAILER
    then parsed <- TrailerRecord_parse data ;; Ok (Parsed_Trailer parsed, "TRAILER"%string)
    else Raise (ValueError (UnknownRecordType
                              match record_type with Some t => t | None => 0%N end)).

(** An entry of [results]. *)
Record record_info := {
  record_number : Z;
  record_type : string;
  data : parsed
}.

(** [stream.read(size)] on a stream that holds [stream]: the bytes read
    and the stream afterwards. *)
Definition read (size : nat) (stream : bytes) : bytes * bytes :=
  (firstn size stream, skipn size stream).

Definition inspect {A} (a : A) : {b : A | a = b} := exist _ a eq_refl.

Opaque firstn skipn.

(** The [while True] loop of [parse_stream], from the state
    ([stream], [results], [record_num]): what is printed on the standard
    error stream, and the list returned or the exception raised. *)
Equations? parse_stream_loop (stream : bytes) (results : list record_info)
    (record_num : Z) : list stderr_line * result (list record_info)
    by wf (List.length stream) lt :=
  parse_stream_loop stream results record_num
    with inspect (fst (read RECORD_SIZE stream)) := {
    | exist _ [] _ => ([], Ok results)
    | exist _ (b :: data') Hread
        with Nat.eqb (List.length (b :: data')) RECORD_SIZE := {
        | false =>
            ([Warning_short record_num (List.length (b :: data'))], Ok results)
        | true with parse_record (b :: data') := {
            | Ok (parsed, rec_type) =>
                parse_stream_loop (snd (read RECORD_SIZE stream))
                  (results ++ [Build_record_info record_num rec_type parsed])
                  (record_num + 1)
            | Raise e => ([Error_record record_num e], Raise e) } } }.
Proof.
  unfold read in *. cbn [fst snd] in *. rewrite length_skipn.
  destruct stream as [|x stream].
  - rewrite firstn_nil in Hread. discriminate.
  - cbn [List.length]. unfold RECORD_SIZE. lia.
Qed.

Transparent firstn skipn.

Definition parse_stream (stream : bytes) : list stderr_line * result (list record_info) :=
  parse_stream_loop stream [] 1.

(** The options of the command line. *)
Record args := { verbose : bool; summary : bool }.

(** What [main] prints on the standard output, without the layout. *)
Inductive stdout_item :=
| Summary (total header_count data_count trailer_count : nat)
| Printed (record : record_info) (verbose : bool)
| Newline.

Definition count_type (t : string) (results : list record_info) : nat :=
  List.length (filter (fun r => String.eqb (record_type r) t) results).

(** [main], after [parser.parse_args()]: the two output streams and the
    exit status of the process ([sys.exit(1)] in the handler, 0 when
    [main] returns). *)
Definition main (a : args) (stdin : bytes)
  : list stdout_item * list stderr_line * Z :=
  match parse_stream stdin with
  | (err, Ok results) =>
      let out :=
        if summary a
        then [Summary (List.length results)
                (count_type "HEADER" results)
                (count_type "DATA" results)
                (count_type "TRAILER" results)]
        else map (fun record => Printed record (verbose a)) results in
      (out ++ [Newline], err, 0%Z)
  | (err, Raise e) => ([], err ++ [Error_main e], 1%Z)
  end.

End Parser.

(** ** generate_records.py *)

Module Generator.

Import Records.

Inductive stderr_line :=
| Error_num_records   (* エラー: データレコード数は1以上を指定してください。 *)
| Warning_many        (* 警告: 大量のレコードを生成します... *)
| Error_main (e : exn).
                      (* エラー: {e} *)

(** A reading of the clock, [datetime.now()]. *)
Record datetime := {
  year : Z; month : Z; day : Z;
  hour : Z; minute : Z; second : Z
}.

Definition digit (n : Z) : N := (0x30 + Z.to_N (n mod 10))%N.
Definition digits2 (n : Z) : str := [digit (n / 10); digit n].
Definition digits4 (n : Z) : str :=
  [digit (n / 1000); digit (n / 100); digit (n / 10); digit n].

(** [now.strftime("%Y%m%d")], [now.strftime("%H%M%S")] and
    [now.strftime("%Y%m%d%H%M%S")], for a year of four digits. *)
Definition strftime_Ymd (now : datetime) : str :=
  digits4 (year now) ++ digits2 (month now) ++ digits2 (day now).
Definition strftime_HMS (now : datetime) : str :=
  digits2 (hour now) ++ digits2 (minute now) ++ digits2 (second now).
Definition strftime_YmdHMS (now : datetime) : str :=
  strftime_Ymd now ++ strftime_HMS now.

Definition create_header_record (now : datetime)
    (file_name : str) (total_records : Z) (version : str) : result bytes :=
  let header_data := {|
    file_name := file_name;
    creation_date := strftime_Ymd now;
    creation_time := strftime_HMS now;
    total_records := total_records;
    version := version
  |} in
  HeaderRecord_build header_data.

Definition create_data_record (now : datetime)
    (record_id : Z) (name : str) (value status : Z) (description : str)
  : result bytes :=
  let data_record := {|
    record_id := record_id;
    name := name;
    value := value;
    status := status;
    timestamp := strftime_YmdHMS now;
    description := description
  |} in
  DataRecord_build data_record.

Definition create_trailer_record
    (data_record_count total_value_sum checksum : Z) : result bytes :=
  let trailer_data := {|
    data_record_count := data_record_count;
    total_value_sum := total_value_sum;
    checksum := checksum
  |} in
  TrailerRecord_build trailer_data.

Definition sample_names : list str :=
  [ lit "田中太郎"; lit "佐藤花子"; lit "鈴木一郎"; lit "高橋次郎"; lit "伊藤美咲";
    lit "渡辺健太"; lit "山本由美"; lit "中村陽子"; lit "小林大輔"; lit "加藤愛";
    lit "吉田智子"; lit "山田孝之"; lit "佐々木真"; lit "松本優子"; lit "井上誠" ].

Definition sample_descriptions : list str :=
  [ lit "通常処理"; lit "特別処理"; lit "優先処理"; lit "定期処理"; lit "緊急処理" ].

(** [l[i % len(l)]]. *)
Definition cycle (l : list str) (i : Z) : str :=
  nth (Z.to_nat (i mod Z.of_nat (List.length l))) l [].

(** [range(start, stop)] and [sum]. *)
Fixpoint range_from (start : Z) (count : nat) : list Z :=
  match count with
  | O => []
  | S k => start :: range_from (start + 1) k
  end.

Definition range (start stop : Z) : list Z :=
  range_from start (Z.to_nat (stop - start)).

Definition sum (l : list Z) : Z := fold_left Z.add l 0%Z.

(** The loop [for i in range(num_data_records)], with [count] rounds to
    go from [i]; [clock k] is the [k]-th reading of the clock, and the
    round of [i] takes the [i]-th. *)
Fixpoint data_loop (clock : nat -> datetime) (i : Z) (count : nat)
    (data_records : list bytes) (total_value_sum : Z)
  : result (list bytes * Z) :=
  match count with
  | O => Ok (data_records, total_value_sum)
  | S count' =>
      let record_id := (i + 1)%Z in
      let name := cycle sample_names i in
      let value := ((i + 1) * 1000)%Z in
      let status := if negb (i mod 3 =? 0)%Z then 1%Z else 0%Z in
      let description := cycle sample_descriptions i in
      record <- create_data_record (clock (Z.to_nat i))
                  record_id name value status description ;;
      data_loop clock (i + 1) count'
        (data_records ++ [record]) (total_value_sum + value)
  end.

(** [generate_sample_data]: what has been written to the standard output,
    and whether the function returned or raised. *)
Definition generate_sample_data (clock : nat -> datetime)
    (num_data_records : Z) : bytes * result unit :=
  let total_records := (1 + num_data_records + 1)%Z in
  match data_loop clock 0 (Z.to_nat num_data_records) [] 0 with
  | Raise e => ([], Raise e)
  | Ok (data_records, total_value_sum) =>
      let checksum := sum (range 1 (num_data_records + 1)) in
      match create_header_record (clock (Z.to_nat num_data_records))
              (lit "sample_data.bin") total_records (lit "1.0") with
      | Raise e => ([], Raise e)
      | Ok header =>
          let output := header ++ concat data_records in
          match create_trailer_record
                  num_data_records total_value_sum checksum with
          | Raise e => (output, Raise e)
          | Ok trailer => (output ++ trailer, Ok tt)
          end
      end
  end.

(** [main], after [parser.parse_args()] has read [num_records]: the two
    output streams and the exit status of the process ([sys.exit(1)] at
    both places, 0 when [main] returns). *)
Definition main (clock : nat -> datetime) (num_records : Z)
  : bytes * list stderr_line * Z :=
  if (num_records <? 1)%Z
  then ([], [Error_num_records], 1%Z)
  else
    let warning := if (1000 <? num_records)%Z then [Warning_many] else [] in
    match generate_sample_data clock num_records with
    | (output, Ok _) => (output, warning, 0%Z)
    | (output, Raise e) => (output, warning ++ [Error_main e], 1%Z)
    end.

End Generator.

(** ** struct_size.py: the entry point *)

Module StructSize.

Section Main.

(** [struct.calcsize], with [None] for [struct.error]. *)
Variable calcsize : string -> option Z.

Definition calculate_format_size (format_string : string) : result Z :=
  match calcsize format_string with
  | Some size => Ok size
  | None => Raise (ValueError InvalidFormat)
  end.

(** The value that [main] returns to [sys.exit] when it is run with
    [--simple]: the branch [size = calculate_format_size(args.format);
    print(size)] under the two handlers.  The whole of [main], with the
    branch of [print_format_details], is [FormatDetails.main]. *)
Definition main_simple (format : string) : Z :=
  match calculate_format_size format with
  | Ok _ => 0%Z
  | Raise e => if is_ValueError e then 1%Z else 2%Z
  end.

End Main.

End StructSize.

(** ** The vocabulary of the properties *)

Module Spec.

Import Records Parser.

(** [s.rstrip('\x00')] on a [str], and whether [s] ends with U+0000. *)
Fixpoint str_lstrip (s : str) : str :=
  match s with
  | [] => []
  | c :: rest => if (c =? 0)%N then str_lstrip rest else s
  end.

Definition str_rstrip (s : str) : str := rev (str_lstrip (rev s)).

Definition ends_with_nul (s : str) : bool :=
  match rev s with
  | c :: _ => (c =? 0)%N
  | [] => false
  end.

(** The character that [c] is read back as from its shift_jis bytes. *)
Definition read_back (c : N) : N :=
  if (c =? 0x00A5)%N then 0x5C%N
  else if (c =? 0x203E)%N then 0x7E%N
  else c.

(** The text read back from a legacy field, and from an ASCII field, that
    was written from [s]. *)
Definition text_back (s : str) : str := str_rstrip (map read_back s).
Definition ascii_back (s : str) : str := str_rstrip s.

(** The record that is read back from the frame written from a record. *)
Definition Header_back (v : Header) : Header := {|
  file_name := text_back (file_name v);
  creation_date := ascii_back (creation_date v);
  creation_time := ascii_back (creation_time v);
  total_records := total_records v;
  version := ascii_back (version v)
|}.

Definition Data_back (v : Data) : Data := {|
  record_id := record_id v;
  name := text_back (name v);
  value := value v;
  status := status v;
  timestamp := ascii_back (timestamp v);
  description := text_back (description v)
|}.

Definition back (r : parsed) : parsed :=
  match r with
  | Parsed_Header v => Parsed_Header (Header_back v)
  | Parsed_Data v => Parsed_Data (Data_back v)
  | Parsed_Trailer v => Parsed_Trailer v
  end.

(** The three kinds, with the codec of each. *)
Inductive kind := HEADER | DATA | TRAILER.

Definition kind_of (r : parsed) : kind :=
  match r with
  | Parsed_Header _ => HEADER
  | Parsed_Data _ => DATA
  | Parsed_Trailer _ => TRAILER
  end.

Definition kind_name (k : kind) : string :=
  match k with
  | HEADER => "HEADER"
  | DATA => "DATA"
  | TRAILER => "TRAILER"
  end.

Definition encode (r : parsed) : result bytes :=
  match r with
  | Parsed_Header v => HeaderRecord_build v
  | Parsed_Data v => DataRecord_build v
  | Parsed_Trailer v => TrailerRecord_build v
  end.

Definition decode (k : kind) (frame : bytes) : result parsed :=
  match k with
  | HEADER => fmap Parsed_Header (HeaderRecord_parse frame)
  | DATA => fmap Parsed_Data (DataRecord_parse frame)
  | TRAILER => fmap Parsed_Trailer (TrailerRecord_parse frame)
  end.

(** The length of the reserved tail of a frame. *)
Definition reserved (k : kind) : nat :=
  match k with
  | HEADER => 61
  | DATA => 6
  | TRAILER => 103
  end.

(** Valid values: text within the capacity of its field, ASCII text
    within the width, integers within their widths, status 0 or 1. *)
Definition fits (length : nat) (s : str) : bool :=
  match ShiftJIS.encode s with
  | Ok encoded => Nat.leb (List.length encoded) length
  | Raise _ => false
  end.

Definition ascii_fits (length : nat) (s : str) : bool :=
  match ascii_encode s with
  | Ok encoded => Nat.leb (List.length encoded) length
  | Raise _ => false
  end.

Definition uint (bits v : Z) : bool := ((0 <=? v) && (v <? 2 ^ bits))%Z.

Definition valid (r : parsed) : bool :=
  match r with
  | Parsed_Header v =>
      fits 30 (file_name v) && ascii_fits 8 (creation_date v)
      && ascii_fits 6 (creation_time v) && uint 32 (total_records v)
      && ascii_fits 10 (version v)
  | Parsed_Data v =>
      uint 32 (record_id v) && fits 50 (name v) && uint 32 (value v)
      && ((status v =? 0) || (status v =? 1))%Z
      && ascii_fits 14 (timestamp v) && fits 40 (description v)
  | Parsed_Trailer v =>
      uint 32 (data_record_count v) && uint 64 (total_value_sum v)
      && uint 32 (checksum v)
  end.

(** Text that is read back as it was written: no U+0000 at the end and,
    in a legacy field, neither U+00A5 nor U+203E. *)
Definition ascii_clean (s : str) : bool := negb (ends_with_nul s).

Definition text_clean (s : str) : bool :=
  negb (ends_with_nul s)
  && forallb (fun c => negb (c =? 0x00A5)%N && negb (c =? 0x203E)%N) s.

Definition clean (r : parsed) : bool :=
  match r with
  | Parsed_Header v =>
      text_clean (file_name v) && ascii_clean (creation_date v)
      && ascii_clean (creation_time v) && ascii_clean (version v)
  | Parsed_Data v =>
      text_clean (name v) && ascii_clean (timestamp v)
      && text_clean (description v)
  | Parsed_Trailer _ => true
  end.

(** An entry (code point, JIS code) of the encoding map is sound when the
    decoder reads the two bytes written for the code back as the code
    point, and the second of them is not zero. *)
Definition entry_ok (e : N * N) : bool :=
  match ShiftJIS.jis_to_sjis (snd e) with
  | [b1; b2] =>
      let c1 := Byte.to_N b1 in
      negb (N.testbit (snd e) 15)
      && negb (c1 <? 0x80)%N
      && negb ((0xA1 <=? c1) && (c1 <=? 0xDF))%N
      && ShiftJIS.is_lead c1
      && match ShiftJIS.decode_pair c1 (Byte.to_N b2) with
         | Some ch => (ch =? fst e)%N
         | None => false
         end
      && negb (is_nul b2)
  | _ => false
  end.

(** [l1] is [l2] with some elements dropped. *)
Inductive subsequence {A : Type} : list A -> list A -> Prop :=
| subsequence_nil : subsequence [] []
| subsequence_keep x l1 l2 : subsequence l1 l2 -> subsequence (x :: l1) (x :: l2)
| subsequence_drop x l1 l2 : subsequence l1 l2 -> subsequence l1 (x :: l2).

(** The entries of [results] for the records [rs], numbered from
    [record_num]. *)
Fixpoint tagged (record_num : Z) (rs : list parsed) : list record_info :=
  match rs with
  | [] => []
  | r :: rest =>
      {| record_number := record_num;
         record_type := kind_name (kind_of r);
         data := r |} :: tagged (record_num + 1) rest
  end.


End Spec.


(** ** Sample values *)

Module Examples.

Import Records Parser.

Definition header_sample : Header := {|
  file_name := lit "sample_data.bin";
  creation_date := lit "20240101";
  creation_time := lit "120000";
  total_records := 3;
  version := lit "1.0"
|}.

(** The data record of the scenario of the specification. *)
Definition data_scenario : Data := {|
  record_id := 1;
  name := lit "田中太郎";
  value := 1000;
  status := 1;
  timestamp := lit "20240101120000";
  description := lit "通常処理"
|}.

Definition trailer_sample : Trailer := {|
  data_record_count := 1;
  total_value_sum := 1000;
  checksum := 1
|}.

(** A header whose version is the four characters "1.0\x00". *)
Definition header_nul : Header := {|
  file_name := lit "sample_data.bin";
  creation_date := lit "20240101";
  creation_time := lit "120000";
  total_records := 3;
  version := lit "1.0" ++ [0%N]
|}.

(** A data record whose name holds a yen sign. *)
Definition data_yen : Data := {|
  record_id := 1;
  name := lit "¥1000";
  value := 1000;
  status := 1;
  timestamp := lit "20240101120000";
  description := lit "通常処理"
|}.

(** A name of 26 characters of two bytes each. *)
Definition long_name : str := concat (repeat (lit "田") 26).

(** The bytes that were written, when the writing succeeded. *)
Definition written (r : result bytes) : bytes :=
  match r with
  | Ok b => b
  | Raise _ => []
  end.

Definition frame_header : bytes := written (HeaderRecord_build header_sample).
Definition frame_data : bytes := written (DataRecord_build data_scenario).
Definition frame_trailer : bytes := written (TrailerRecord_build trailer_sample).

(** A frame that starts with the byte 2, and one that starts with 5. *)
Definition frame_2 : bytes := x02 :: zeros 119.
Definition frame_5 : bytes := x05 :: zeros 119.

(** A clock stopped at 2024-01-01 12:00:00. *)
Definition noon : Generator.datetime := {|
  Generator.year := 2024; Generator.month := 1; Generator.day := 1;
  Generator.hour := 12; Generator.minute := 0; Generator.second := 0
|}.

Definition clock (k : nat) : Generator.datetime := noon.

End Examples.


(** ** Slices of a frame, and the records of the generator *)

Module Wire.

(** [data[start : start + length]]. *)
Definition slice (start length : nat) (data : bytes) : bytes :=
  firstn length (skipn start data).

(** The number of bytes of a frame before its reserved tail, by the first
    byte of the frame. *)
Definition payload (record_type : N) : nat :=
  if (record_type =? 1)%N then 59
  else if (record_type =? 2)%N then 114
  else if (record_type =? 8)%N then 17
  else 120.

(** The 256 bytes. *)
Definition all_bytes : bytes :=
  map (fun n => byte_of_N (N.of_nat n)) (seq 0 256).

(** The pair of a lead byte [x] and a byte [y] is sound when the character
    the decoder reads from it, if any, is written back as [x] and [y]. *)
Definition pair_ok (x y : byte) : bool :=
  if ShiftJIS.is_lead (Byte.to_N x)
  then match ShiftJIS.decode_pair (Byte.to_N x) (Byte.to_N y) with
       | Some ch =>
           match ShiftJIS.encode_char ch with
           | Some [a; b] => Byte.eqb a x && Byte.eqb b y
           | _ => false
           end
       | None => true
       end
  else true.

End Wire.

Module Samples.

Import Records Generator.

(** The dictionaries that [generate_sample_data] hands to the three
    [Struct]s: the header after [num_data_records] data records, the data
    record of the round [i], and the trailer. *)
Definition sample_header (clock : nat -> datetime) (num_data_records : Z) : Header := {|
  file_name := lit "sample_data.bin";
  creation_date := strftime_Ymd (clock (Z.to_nat num_data_records));
  creation_time := strftime_HMS (clock (Z.to_nat num_data_records));
  total_records := 1 + num_data_records + 1;
  version := lit "1.0"
|}.

Definition sample_data (clock : nat -> datetime) (i : Z) : Data := {|
  record_id := i + 1;
  name := cycle sample_names i;
  value := (i + 1) * 1000;
  status := if negb (i mod 3 =? 0)%Z then 1%Z else 0%Z;
  timestamp := strftime_YmdHMS (clock (Z.to_nat i));
  description := cycle sample_descriptions i
|}.

Definition sample_trailer (num_data_records : Z) : Trailer := {|
  data_record_count := num_data_records;
  total_value_sum := 500 * num_data_records * (num_data_records + 1);
  checksum := num_data_records * (num_data_records + 1) / 2
|}.

(** The records of a whole run, in the order they are written. *)
Definition sample_records (clock : nat -> datetime) (num_data_records : Z)
  : list Parser.parsed :=
  Parser.Parsed_Header (sample_header clock num_data_records)
  :: map (fun i => Parser.Parsed_Data (sample_data clock i)) (range 0 num_data_records)
  ++ [Parser.Parsed_Trailer (sample_trailer num_data_records)].

End Samples.

(** * [struct_size.py]: the details of a format string

    A format string is a [string] whose characters are the ones of the
    Python [str], with their code points (below 256). *)

Module FormatDetails.

Import StructSize.

(** [str.isdigit] on one character: the ten digits and the superscripts
    two, three and one (U+00B2, U+00B3, U+00B9); [str.isdecimal]: what
    [int] reads as a digit. *)
Definition isdigit (c : ascii) : bool :=
  let n := N_of_ascii c in
  ((48 <=? n) && (n <=? 57) || (n =? 178) || (n =? 179) || (n =? 185))%N.

Definition isdecimal (c : ascii) : bool :=
  let n := N_of_ascii c in ((48 <=? n) && (n <=? 57))%N.

(** A [dict] with characters as keys: [k in m] and [m.get(k, default)]. *)
Definition contains {A} (m : list (ascii * A)) (k : ascii) : bool :=
  existsb (fun e => Ascii.eqb (fst e) k) m.

Definition get {A} (m : list (ascii * A)) (k : ascii) (default : A) : A :=
  match find (fun e => Ascii.eqb (fst e) k) m with
  | Some e => snd e
  | None => default
  end.

Definition byte_order_map : list (ascii * str) :=
  [ ("@"%char, lit "ネイティブ (native)");
    ("="%char, lit "ネイティブ標準 (native standard)");
    ("<"%char, lit "リトルエンディアン (little-endian)");
    (">"%char, lit "ビッグエンディアン (big-endian)");
    ("!"%char, lit "ネットワーク (big-endian)") ].

Definition format_chars : list (ascii * str) :=
  [ ("x"%char, lit "パディングバイト");
    ("c"%char, lit "char (1バイト)");
    ("b"%char, lit "signed char (1バイト)");
    ("B"%char, lit "unsigned char (1バイト)");
    ("?"%char, lit "bool (1バイト)");
    ("h"%char, lit "short (2バイト)");
    ("H"%char, lit "unsigned short (2バイト)");
    ("i"%char, lit "int (4バイト)");
    ("I"%char, lit "unsigned int (4バイト)");
    ("l"%char, lit "long (4バイト)");
    ("L"%char, lit "unsigned long (4バイト)");
    ("q"%char, lit "long long (8バイト)");
    ("Q"%char, lit "unsigned long long (8バイト)");
    ("f"%char, lit "float (4バイト)");
    ("d"%char, lit "double (8バイト)");
    ("s"%char, lit "char[]");
    ("p"%char, lit "char[] (Pascal文字列)");
    ("P"%char, lit "void* (ポインタ)") ].

(** [format_string[0] if format_string and format_string[0] in
    byte_order_map else '@'], and the format without that character. *)
Definition byte_order (format_string : string) : ascii :=
  match format_string with
  | String c _ => if contains byte_order_map c then c else "@"%char
  | EmptyString => "@"%char
  end.

Definition byte_order_name (format_string : string) : str :=
  get byte_order_map (byte_order format_string) (lit "ネイティブ").

Definition format_body (format_string : string) : list ascii :=
  match format_string with
  | String c rest =>
      if contains byte_order_map c
      then list_ascii_of_string rest
      else list_ascii_of_string format_string
  | EmptyString => []
  end.

(** What is printed on the standard output, without the layout. *)
Inductive stdout_line :=
| Size_only (size : Z)                    (* {size} *)
| Format_string (format_string : string)  (* フォーマット文字列: {format_string} *)
| Data_length (size : Z)                  (* データ長: {size} バイト *)
| Byte_order (name : str)                 (* バイトオーダー: {byte_order_name} *)
| Composition                             (* フォーマット構成: *)
| Item (repeat : Z) (char : ascii) (desc : str)
                                          (*   {repeat}x {char} - {desc} *)
| Usage                                   (* 使用例: *)
| Usage_pack (format : string)            (*   data = struct.pack('{args.format}', ...) *)
| Usage_unpack (format : string).         (*   values = struct.unpack('{args.format}', data) *)

(** What ends a run: [calculate_format_size]'s exception, or the
    [ValueError] of [int(count)]. *)
Inductive raised :=
| Raised_size (e : exn)
| Raised_int (count : list ascii).

Definition is_ValueError (r : raised) : bool :=
  match r with
  | Raised_size e => Py.is_ValueError e
  | Raised_int _ => true
  end.

Section Details.

Variable calcsize : string -> option Z.

(** [sys.get_int_max_str_digits()]: 0 for no limit, else at least 640. *)
Variable max_str_digits : nat.

(** [int(count)] for a [count] of characters that are [isdigit], with
    [None] for [ValueError]: a superscript is no decimal digit, and more
    digits than the limit are refused. *)
Definition int (count : list ascii) : option Z :=
  if forallb isdecimal count
  then if (0 <? max_str_digits)%nat && (max_str_digits <? List.length count)%nat
       then None
       else Some (fold_left
                    (fun acc c => (10 * acc + Z.of_N (N_of_ascii c - 48))%Z)
                    count 0%Z)
  else None.

(** The loop [while i < len(format_body)] from the index of the first
    character of [format_body] on, with [count] read so far by the inner
    loop: the lines printed and how the loop ends. *)
Fixpoint composition (format_body : list ascii) (count : list ascii)
  : list stdout_line * option raised :=
  match format_body with
  | [] => ([], None)
  | c :: rest =>
      if isdigit c
      then composition rest (count ++ [c])
      else
        match (match count with [] => Some 1%Z | _ => int count end) with
        | None => ([], Some (Raised_int count))
        | Some repeat =>
            let (out, r) := composition rest [] in
            (Item repeat c (get format_chars c (lit "不明")) :: out, r)
        end
  end.

Definition print_format_details (format_string : string)
  : list stdout_line * option raised :=
  match calculate_format_size calcsize format_string with
  | Raise e => ([], Some (Raised_size e))
  | Ok size =>
      let (out, r) := composition (format_body format_string) [] in
      ([Format_string format_string; Data_length size;
        Byte_order (byte_order_name format_string); Composition] ++ out, r)
  end.

(** [main], after [parser.parse_args()]: the standard output and the
    value that [main] returns to [sys.exit]. *)
Definition main (simple verbose : bool) (format : string)
  : list stdout_line * Z :=
  let (out, r) :=
    if simple
    then match calculate_format_size calcsize format with
         | Ok size => ([Size_only size], None)
         | Raise e => ([], Some (Raised_size e))
         end
    else match print_format_details format with
         | (out, None) =>
             (out ++ (if verbose
                      then [Usage; Usage_pack format; Usage_unpack format]
                      else []), None)
         | (out, Some e) => (out, Some e)
         end in
  match r with
  | None => (out, 0%Z)
  | Some e => (out, if is_ValueError e then 1%Z else 2%Z)
  end.

End Details.

End FormatDetails.

(** The lines of a listing. *)
Module Listing.

Import FormatDetails.

(** A character that the inner loop does not take for a digit. *)
Definition plain (c : ascii) : bool := negb (isdigit c).

(** The characters that the lines of the composition are about. *)
Definition chars_of (out : list stdout_line) : list ascii :=
  flat_map (fun l => match l with Item _ c _ => [c] | _ => [] end) out.

(** A line of the composition with the description of its character. *)
Definition described (l : stdout_line) : Prop :=
  match l with
  | Item repeat c desc =>
      (0 <= repeat)%Z /\ desc = get format_chars c (lit "不明")
  | _ => False
  end.

(** A format body without superscripts that is no longer than the limit
    of [int]. *)
Definition modest (max_str_digits : nat) (format_body : list ascii) : bool :=
  forallb (fun c => isdecimal c || plain c) format_body
  && ((max_str_digits =? 0)%nat
      || (List.length format_body <=? max_str_digits)%nat).

End Listing.

(** * The decoding of a legacy text field, as it is described

    "Converts the remaining bytes to text under the legacy encoding,
    dropping any byte sequence that does not form a valid character." *)

Module Legacy.

(** The character that the bytes [b] form: the one character that the
    strict decoder reads from exactly these bytes, if there is one. *)
Definition valid_character (b : bytes) : option N :=
  match ShiftJIS.decode ShiftJIS.strict b with
  | Ok [c] => Some c
  | _ => None
  end.

(** The text of the bytes [b] without what forms no valid character: at
    each place the character of the byte there is kept, or else the
    character of the two bytes there; where neither forms a character,
    the byte there is dropped and the next one is looked at. *)
Fixpoint drop_invalid (b : bytes) : str :=
  match b with
  | [] => []
  | x :: rest =>
      match valid_character [x] with
      | Some c => c :: drop_invalid rest
      | None =>
          match rest with
          | [] => []
          | y :: rest' =>
              match valid_character [x; y] with
              | Some c => c :: drop_invalid rest'
              | None => drop_invalid rest
              end
          end
      end
  end.

End Legacy.

(** * Properties *)

(** ** Bytes and strings *)

Module PyFacts.

Import Spec.

Lemma byte_of_N_to_N (b : byte) : byte_of_N (Byte.to_N b) = b.
Proof.
  unfold byte_of_N. pose proof (Byte.to_N_bounded b).
  rewrite N.mod_small by lia. now rewrite Byte.of_to_N.
Qed.

Lemma to_N_byte_of_N (n : N) : (n < 256)%N -> Byte.to_N (byte_of_N n) = n.
Proof.
  intros Hn. unfold byte_of_N. rewrite N.mod_small by lia.
  destruct (Byte.of_N n) eqn:E.
  - now apply Byte.to_of_N.
  - apply Byte.of_N_None_iff in E. lia.
Qed.

Lemma byte_of_N_nul (n : N) : (n < 256)%N -> byte_of_N n = x00 -> n = 0%N.
Proof.
  intros Hn E. rewrite <- (to_N_byte_of_N n Hn), E. reflexivity.
Qed.

Lemma is_nul_true (b : byte) : is_nul b = true <-> b = x00.
Proof.
  unfold is_nul. split.
  - apply Byte.byte_dec_bl.
  - apply Byte.byte_dec_lb.
Qed.

Lemma is_nul_false (b : byte) : is_nul b = false <-> b <> x00.
Proof.
  rewrite <- is_nul_true. destruct (is_nul b); split; congruence.
Qed.

(** *** [rstrip] *)

Lemma lstrip_zeros (k : nat) (b : bytes) : lstrip (zeros k ++ b) = lstrip b.
Proof. induction k; simpl; auto. Qed.

Lemma rstrip_zeros (b : bytes) (k : nat) : rstrip (b ++ zeros k) = rstrip b.
Proof.
  unfold rstrip, zeros. rewrite rev_app_distr, rev_repeat.
  now rewrite (lstrip_zeros k).
Qed.

Lemma rstrip_snoc (b : bytes) (x : byte) : x <> x00 -> rstrip (b ++ [x]) = b ++ [x].
Proof.
  intros Hx. unfold rstrip. rewrite rev_unit. simpl.
  apply is_nul_false in Hx. rewrite Hx. simpl. now rewrite rev_involutive.
Qed.

Lemma lstrip_suffix (b : bytes) : exists k, b = zeros k ++ lstrip b.
Proof.
  induction b as [|x b [k IH]]; simpl.
  - now exists 0.
  - destruct (is_nul x) eqn:E.
    + apply is_nul_true in E. subst x. exists (S k). simpl. now f_equal.
    + now exists 0.
Qed.

(** What [rstrip] removes is a run of zero bytes. *)
Lemma rstrip_zeros_inv (b : bytes) : exists k, b = rstrip b ++ zeros k.
Proof.
  unfold rstrip. destruct (lstrip_suffix (rev b)) as [k Hk]. exists k.
  rewrite <- (rev_involutive b) at 1. rewrite Hk at 1.
  rewrite rev_app_distr. unfold zeros. now rewrite rev_repeat.
Qed.

Lemma lstrip_head (b : bytes) : hd_error (lstrip b) <> Some x00.
Proof.
  induction b as [|x b IH]; simpl; [discriminate|].
  destruct (is_nul x) eqn:E; auto.
  simpl. apply is_nul_false in E. congruence.
Qed.

(** What [rstrip] leaves does not end with a zero byte. *)
Lemma rstrip_last (b c : bytes) : rstrip b <> c ++ [x00].
Proof.
  unfold rstrip. intros E. apply (f_equal (@rev byte)) in E.
  rewrite rev_involutive, rev_unit in E.
  apply (lstrip_head (rev b)). now rewrite E.
Qed.

(** *** [str_rstrip] *)

Lemma str_rstrip_snoc_nul (s : str) : str_rstrip (s ++ [0%N]) = str_rstrip s.
Proof. unfold str_rstrip. now rewrite rev_unit. Qed.

Lemma str_rstrip_snoc (s : str) (c : N) :
  c <> 0%N -> str_rstrip (s ++ [c]) = s ++ [c].
Proof.
  intros Hc. unfold str_rstrip. rewrite rev_unit. simpl.
  apply N.eqb_neq in Hc. rewrite Hc. simpl. now rewrite rev_involutive.
Qed.

Lemma ends_with_nul_snoc (s : str) (c : N) :
  ends_with_nul (s ++ [c]) = (c =? 0)%N.
Proof. unfold ends_with_nul. now rewrite rev_unit. Qed.

Lemma str_rstrip_clean (s : str) : ends_with_nul s = false -> str_rstrip s = s.
Proof.
  destruct s as [|c s] using rev_ind; [reflexivity|].
  rewrite ends_with_nul_snoc. intros H. apply str_rstrip_snoc.
  now apply N.eqb_neq.
Qed.

Lemma str_rstrip_shorter (s : str) :
  ends_with_nul s = true -> List.length (str_rstrip s) < List.length s.
Proof.
  induction s as [|c s IH] using rev_ind; [discriminate|].
  rewrite ends_with_nul_snoc. intros H. apply N.eqb_eq in H. subst c.
  rewrite str_rstrip_snoc_nul, length_app. simpl.
  destruct (ends_with_nul s) eqn:E.
  - specialize (IH eq_refl). lia.
  - rewrite (str_rstrip_clean _ E). lia.
Qed.

Lemma str_rstrip_ends (s : str) : ends_with_nul (str_rstrip s) = false.
Proof.
  induction s as [|c s IH] using rev_ind; [reflexivity|].
  destruct (N.eq_dec c 0) as [->|Hc].
  - now rewrite str_rstrip_snoc_nul.
  - rewrite (str_rstrip_snoc _ _ Hc), ends_with_nul_snoc. now apply N.eqb_neq.
Qed.

Lemma read_back_nul (c : N) : read_back c = 0%N <-> c = 0%N.
Proof.
  unfold read_back.
  destruct (N.eqb_spec c 0xA5); [subst; split; discriminate|].
  destruct (N.eqb_spec c 0x203E); [subst; split; discriminate|].
  tauto.
Qed.

Lemma str_rstrip_map_read_back (s : str) :
  str_rstrip (map read_back s) = map read_back (str_rstrip s).
Proof.
  induction s as [|c s IH] using rev_ind; [reflexivity|].
  rewrite map_app. simpl map.
  destruct (N.eq_dec c 0) as [->|Hc].
  - change (read_back 0) with 0%N. now rewrite !str_rstrip_snoc_nul.
  - rewrite !str_rstrip_snoc, ?map_app; auto.
    now rewrite read_back_nul.
Qed.

Lemma map_read_back_clean (s : str) :
  forallb (fun c => negb (c =? 0x00A5)%N && negb (c =? 0x203E)%N) s = true ->
  map read_back s = s.
Proof.
  induction s as [|c s IH]; simpl; [reflexivity|].
  intros H. apply andb_prop in H. destruct H as [Hc Hs].
  rewrite (IH Hs). f_equal. unfold read_back.
  apply andb_prop in Hc. destruct Hc as [H1 H2].
  apply negb_true_iff in H1, H2. now rewrite H1, H2.
Qed.

Lemma text_back_clean (s : str) : text_clean s = true -> text_back s = s.
Proof.
  unfold text_clean, text_back. intros H. apply andb_prop in H.
  destruct H as [H1 H2]. apply negb_true_iff in H1.
  rewrite str_rstrip_map_read_back, (str_rstrip_clean _ H1).
  now apply map_read_back_clean.
Qed.

Lemma ascii_back_clean (s : str) : ascii_clean s = true -> ascii_back s = s.
Proof.
  unfold ascii_clean, ascii_back. intros H. apply negb_true_iff in H.
  now apply str_rstrip_clean.
Qed.

End PyFacts.

(** ** The text codecs *)

Module CodecFacts.

Import Spec PyFacts.

Lemma fmap_Ok_inv {A B} (f : A -> B) (r : result A) (b : B) :
  fmap f r = Ok b -> exists a, r = Ok a /\ b = f a.
Proof.
  destruct r as [a|e]; simpl; [|discriminate].
  intros H. injection H as <-. now exists a.
Qed.

(** *** Encoders that work character by character *)

Section Charwise.

Variable encode : str -> result bytes.
Variable enc : N -> option bytes.
Variable err : exn.

Hypothesis encode_nil : encode [] = Ok [].
Hypothesis encode_cons : forall c rest,
  encode (c :: rest) =
  match enc c with
  | Some b => fmap (app b) (encode rest)
  | None => Raise err
  end.
Hypothesis enc_nul : enc 0%N = Some [x00].
Hypothesis enc_last : forall c b,
  enc c = Some b -> c <> 0%N -> exists b' x, b = b' ++ [x] /\ x <> x00.

Lemma charwise_app (s1 s2 : str) (b : bytes) :
  encode (s1 ++ s2) = Ok b ->
  exists b1 b2, encode s1 = Ok b1 /\ encode s2 = Ok b2 /\ b = b1 ++ b2.
Proof.
  revert b. induction s1 as [|c s1 IH]; intros b H.
  - exists [], b. now rewrite encode_nil.
  - simpl in H. rewrite encode_cons in H. rewrite encode_cons.
    destruct (enc c) as [bc|]; [|discriminate].
    apply fmap_Ok_inv in H. destruct H as (b0 & H & ->).
    destruct (IH _ H) as (b1 & b2 & E1 & E2 & ->).
    exists (bc ++ b1), b2. rewrite E1. simpl. now rewrite app_assoc.
Qed.

Lemma charwise_snoc (s : str) (c : N) (b : bytes) :
  encode (s ++ [c]) = Ok b ->
  exists b1 bc, encode s = Ok b1 /\ enc c = Some bc /\ b = b1 ++ bc.
Proof.
  intros H. destruct (charwise_app _ _ _ H) as (b1 & b2 & E1 & E2 & ->).
  rewrite encode_cons, encode_nil in E2.
  destruct (enc c) as [bc|]; [|discriminate].
  simpl in E2. injection E2 as <-. exists b1, bc. now rewrite app_nil_r.
Qed.

(** Stripping the zero bytes of the field undoes the padding and the
    U+0000 characters at the end of the text, and nothing else. *)
Lemma charwise_rstrip (s : str) (b : bytes) (k : nat) :
  encode s = Ok b -> encode (str_rstrip s) = Ok (rstrip (b ++ zeros k)).
Proof.
  rewrite rstrip_zeros. revert b.
  induction s as [|c s IH] using rev_ind; intros b H.
  - rewrite encode_nil in H. injection H as <-. exact encode_nil.
  - pose proof H as H0.
    apply charwise_snoc in H. destruct H as (b1 & bc & E1 & Ec & ->).
    destruct (N.eq_dec c 0) as [->|Hc].
    + rewrite enc_nul in Ec. injection Ec as <-.
      rewrite str_rstrip_snoc_nul. change [x00] with (zeros 1).
      rewrite rstrip_zeros. now apply IH.
    + rewrite (str_rstrip_snoc _ _ Hc).
      destruct (enc_last _ _ Ec Hc) as (b' & x & -> & Hx).
      rewrite H0. f_equal. rewrite app_assoc. symmetry. now apply rstrip_snoc.
Qed.

End Charwise.

(** *** ASCII *)

Lemma ascii_encode_decode (s : str) (b : bytes) :
  ascii_encode s = Ok b -> ascii_decode b = Ok s.
Proof.
  revert b. induction s as [|c s IH]; simpl; intros b H.
  - now injection H as <-.
  - destruct (N.ltb_spec c 0x80) as [Hc|]; [|discriminate].
    apply fmap_Ok_inv in H. destruct H as (b0 & H & ->).
    simpl. rewrite to_N_byte_of_N by lia.
    apply N.ltb_lt in Hc. rewrite Hc. now rewrite (IH _ H).
Qed.

Lemma ascii_rstrip (s : str) (b : bytes) (k : nat) :
  ascii_encode s = Ok b ->
  ascii_decode (rstrip (b ++ zeros k)) = Ok (ascii_back s).
Proof.
  intros H. apply ascii_encode_decode.
  apply (charwise_rstrip ascii_encode
           (fun c => if (c <? 0x80)%N then Some [byte_of_N c] else None)
           UnicodeEncodeError); auto.
  - intros c rest. simpl. destruct (c <? 0x80)%N; reflexivity.
  - intros c b0 Hb Hc. destruct (N.ltb_spec c 0x80) as [Hlt|]; [|discriminate].
    injection Hb as <-. exists [], (byte_of_N c). split; [reflexivity|].
    intros E. apply byte_of_N_nul in E; lia.
Qed.

End CodecFacts.

(** ** The shift_jis codec *)

Module ShiftJISFacts.

Import Spec PyFacts CodecFacts ShiftJIS.

Local Open Scope N_scope.

(** *** The rounds of the decoder *)

Lemma decode_single (e : errors) (b : byte) (rest : bytes) :
  (Byte.to_N b <? 0x80) = true ->
  decode e (b :: rest) = fmap (cons (Byte.to_N b)) (decode e rest).
Proof. intros H. cbn [decode]. now rewrite H. Qed.

Lemma decode_kana (e : errors) (b : byte) (rest : bytes) :
  (Byte.to_N b <? 0x80) = false ->
  (0xA1 <=? Byte.to_N b) && (Byte.to_N b <=? 0xDF) = true ->
  decode e (b :: rest) = fmap (cons (0xFEC0 + Byte.to_N b)) (decode e rest).
Proof. intros H1 H2. cbn [decode]. now rewrite H1, H2. Qed.

Lemma decode_double (e : errors) (b b2 : byte) (rest : bytes) (ch : N) :
  (Byte.to_N b <? 0x80) = false ->
  (0xA1 <=? Byte.to_N b) && (Byte.to_N b <=? 0xDF) = false ->
  is_lead (Byte.to_N b) = true ->
  decode_pair (Byte.to_N b) (Byte.to_N b2) = Some ch ->
  decode e (b :: b2 :: rest) = fmap (cons ch) (decode e rest).
Proof. intros H1 H2 H3 H4. cbn [decode]. now rewrite H1, H2, H3, H4. Qed.

Lemma decode_illegal (b b2 : byte) (rest : bytes) :
  (Byte.to_N b <? 0x80) = false ->
  (0xA1 <=? Byte.to_N b) && (Byte.to_N b <=? 0xDF) = false ->
  is_lead (Byte.to_N b) = true ->
  decode_pair (Byte.to_N b) (Byte.to_N b2) = None ->
  decode ignore (b :: b2 :: rest) = decode ignore (b2 :: rest).
Proof. intros H1 H2 H3 H4. cbn [decode]. now rewrite H1, H2, H3, H4. Qed.

Lemma decode_incomplete (b : byte) :
  (Byte.to_N b <? 0x80) = false ->
  (0xA1 <=? Byte.to_N b) && (Byte.to_N b <=? 0xDF) = false ->
  is_lead (Byte.to_N b) = true ->
  decode ignore [b] = Ok [].
Proof. intros H1 H2 H3. cbn [decode]. now rewrite H1, H2, H3. Qed.

Lemma decode_stray (b : byte) (rest : bytes) :
  (Byte.to_N b <? 0x80) = false ->
  (0xA1 <=? Byte.to_N b) && (Byte.to_N b <=? 0xDF) = false ->
  is_lead (Byte.to_N b) = false ->
  decode ignore (b :: rest) = decode ignore rest.
Proof. intros H1 H2 H3. cbn [decode]. now rewrite H1, H2, H3. Qed.

(** *** The encoding map against the decoding table *)

(** Every entry of the encoding map beyond ASCII is read back by the
    decoder: checked on the 6879 entries. *)
Lemma jisxcommon_sound :
  forallb (fun e => (fst e <? 0x80) || entry_ok e) jisxcommon = true.
Proof. vm_compute. reflexivity. Qed.

Lemma jisxcommon_encode_sound (c code : N) :
  0x80 <= c -> jisxcommon_encode c = Some code -> entry_ok (c, code) = true.
Proof.
  intros Hc. unfold jisxcommon_encode.
  destruct (find (fun e : N * N => fst e =? c) jisxcommon) as [[c' code']|] eqn:F;
    [|discriminate].
  simpl. intros H. injection H as ->.
  apply find_some in F. destruct F as [Hin Heq]. simpl in Heq.
  apply N.eqb_eq in Heq. subst c'.
  pose proof (proj1 (forallb_forall _ _) jisxcommon_sound _ Hin) as H.
  cbv beta in H. cbn [fst] in H.
  destruct (N.ltb_spec c 0x80); [lia|]. exact H.
Qed.

Lemma reverse_solidus_sound : entry_ok (0xFF3C, 0x2140) = true.
Proof. vm_compute. reflexivity. Qed.

Lemma entry_ok_inv (c code : N) :
  entry_ok (c, code) = true ->
  exists b1 b2,
    jis_to_sjis code = [b1; b2]
    /\ (Byte.to_N b1 <? 0x80) = false
    /\ (0xA1 <=? Byte.to_N b1) && (Byte.to_N b1 <=? 0xDF) = false
    /\ is_lead (Byte.to_N b1) = true
    /\ decode_pair (Byte.to_N b1) (Byte.to_N b2) = Some c
    /\ b2 <> x00.
Proof.
  unfold entry_ok. cbn [fst snd].
  destruct (jis_to_sjis code) as [|b1 [|b2 [|? ?]]]; try discriminate.
  intros H. exists b1, b2.
  repeat (apply andb_prop in H; destruct H as [H ?]).
  repeat match goal with
         | H : negb _ = true |- _ => apply negb_true_iff in H
         end.
  destruct (decode_pair (Byte.to_N b1) (Byte.to_N b2)) as [ch|]; [|discriminate].
  match goal with H : (ch =? c) = true |- _ => apply N.eqb_eq in H; subst ch end.
  repeat split; auto. now apply is_nul_false.
Qed.

(** The bytes of a character come in one of three shapes: one byte below
    0x80, one byte of half-width katakana, or the two bytes of a JIS code. *)
Lemma encode_char_cases (c : N) (bs : bytes) :
  encode_char c = Some bs ->
  (bs = [byte_of_N (read_back c)] /\ read_back c < 0x80)
  \/ (bs = [byte_of_N (c - 0xFEC0)] /\ 0xFF61 <= c <= 0xFF9F)
  \/ (exists code,
        bs = jis_to_sjis code /\ entry_ok (c, code) = true /\ read_back c = c).
Proof.
  unfold encode_char, read_back.
  destruct (N.ltb_spec c 0x80) as [H1|H1].
  { assert (E : (c <? 0x80) = true) by now apply N.ltb_lt.
    rewrite E. cbn [orb]. intros H. injection H as <-. left.
    destruct (N.eqb_spec c 0xA5); [lia|].
    destruct (N.eqb_spec c 0x203E); [lia|]. auto. }
  destruct (N.eqb_spec c 0xA5) as [H2|H2].
  { intros H. vm_compute in H. injection H as <-. left.
    split; [reflexivity|lia]. }
  destruct (N.eqb_spec c 0x203E) as [H3|H3].
  { intros H. vm_compute in H. injection H as <-. left.
    split; [reflexivity|lia]. }
  destruct (andb (0xFF61 <=? c) (c <=? 0xFF9F)) eqn:H4.
  { apply andb_prop in H4. destruct H4 as [Ha Hb].
    apply N.leb_le in Ha, Hb.
    assert (E1 : (c - 0xFEC0 <? 0x80) = false) by (apply N.ltb_ge; lia).
    assert (E2 : (0xA1 <=? c - 0xFEC0) = true) by (apply N.leb_le; lia).
    assert (E3 : (c - 0xFEC0 <=? 0xDF) = true) by (apply N.leb_le; lia).
    rewrite E1, E2, E3. cbn [orb andb]. intros H. injection H as <-.
    right. left. split; [reflexivity|lia]. }
  destruct (N.ltb_spec 0xFFFF c) as [H5|H5]; [discriminate|].
  change ((NOCHAR <? 0x80) || (0xA1 <=? NOCHAR) && (NOCHAR <=? 0xDF)) with false.
  change (NOCHAR =? NOCHAR) with true. cbv iota.
  destruct (jisxcommon_encode c) as [code|] eqn:F.
  - destruct (N.testbit code 15); [discriminate|].
    intros H. injection H as <-. right. right. exists code.
    split; [reflexivity|]. split; [|reflexivity].
    now apply jisxcommon_encode_sound.
  - destruct (N.eqb_spec c 0xFF3C) as [->|]; [|discriminate].
    intros H. injection H as <-. right. right. exists 0x2140.
    split; [reflexivity|]. split; [|reflexivity].
    exact reverse_solidus_sound.
Qed.

(** *** Decoding what was encoded *)

Lemma encode_char_decode (e : errors) (c : N) (bs rest : bytes) :
  encode_char c = Some bs ->
  decode e (bs ++ rest) = fmap (cons (read_back c)) (decode e rest).
Proof.
  intros H. destruct (encode_char_cases _ _ H) as [[-> Hk]|[[-> Hk]|(code & -> & Hok & ->)]].
  - cbn [app]. rewrite decode_single; rewrite to_N_byte_of_N by lia; auto.
    now apply N.ltb_lt.
  - assert (Hr : read_back c = c).
    { unfold read_back. destruct (N.eqb_spec c 0xA5); [lia|].
      destruct (N.eqb_spec c 0x203E); [lia|]. reflexivity. }
    cbn [app]. rewrite decode_kana; rewrite to_N_byte_of_N by lia.
    + rewrite Hr. do 2 f_equal. lia.
    + apply N.ltb_ge. lia.
    + apply andb_true_intro. split; apply N.leb_le; lia.
  - destruct (entry_ok_inv _ _ Hok) as (b1 & b2 & -> & H1 & H2 & H3 & H4 & _).
    cbn [app]. now apply decode_double.
Qed.

Lemma encode_decode (e : errors) (s : str) (b : bytes) :
  encode s = Ok b -> decode e b = Ok (map read_back s).
Proof.
  revert b. induction s as [|c s IH]; intros b H.
  - injection H as <-. reflexivity.
  - cbn [encode] in H. destruct (encode_char c) as [bc|] eqn:Ec; [|discriminate].
    apply fmap_Ok_inv in H. destruct H as (b0 & H & ->).
    rewrite (encode_char_decode e _ _ _ Ec), (IH _ H). reflexivity.
Qed.

Lemma encode_char_last (c : N) (b : bytes) :
  encode_char c = Some b -> c <> 0 -> exists b' x, b = b' ++ [x] /\ x <> x00.
Proof.
  intros H Hc.
  destruct (encode_char_cases _ _ H) as [[-> Hk]|[[-> Hk]|(code & -> & Hok & _)]].
  - exists [], (byte_of_N (read_back c)). split; [reflexivity|].
    intros E. apply byte_of_N_nul in E; [|lia]. exact (Hc (proj1 (read_back_nul c) E)).
  - exists [], (byte_of_N (c - 0xFEC0)). split; [reflexivity|].
    intros E. apply byte_of_N_nul in E; lia.
  - destruct (entry_ok_inv _ _ Hok) as (b1 & b2 & -> & _ & _ & _ & _ & Hb2).
    now exists [b1], b2.
Qed.

(** The bytes read back from a field written from [s]. *)
Lemma text_rstrip (s : str) (b : bytes) (k : nat) :
  encode s = Ok b ->
  decode ignore (rstrip (b ++ zeros k)) = Ok (text_back s).
Proof.
  intros H. unfold text_back. rewrite str_rstrip_map_read_back.
  apply encode_decode.
  apply (charwise_rstrip encode encode_char UnicodeEncodeError); auto.
  apply encode_char_last.
Qed.

(** *** The decoder under [ignore] *)

Lemma decode_ignore_kept (b : bytes) :
  exists s kept,
    decode ignore b = Ok s /\ subsequence kept b /\ decode strict kept = Ok s.
Proof.
  remember (List.length b) as n eqn:Hn.
  assert (Hle : (List.length b <= n)%nat) by lia. clear Hn.
  revert b Hle. induction n as [|n IH]; intros b Hle.
  { destruct b; [|simpl in Hle; lia].
    exists [], []. repeat split; constructor. }
  destruct b as [|x rest].
  { exists [], []. repeat split; constructor. }
  simpl in Hle.
  destruct (IH rest ltac:(lia)) as (s1 & k1 & D1 & S1 & T1).
  destruct (Byte.to_N x <? 0x80) eqn:H1.
  { exists (Byte.to_N x :: s1), (x :: k1).
    rewrite !decode_single, D1, T1 by assumption.
    repeat split. now constructor. }
  destruct ((0xA1 <=? Byte.to_N x) && (Byte.to_N x <=? 0xDF)) eqn:H2.
  { exists (0xFEC0 + Byte.to_N x :: s1), (x :: k1).
    rewrite !decode_kana, D1, T1 by assumption.
    repeat split. now constructor. }
  destruct (is_lead (Byte.to_N x)) eqn:H3.
  - destruct rest as [|y rest'].
    + exists [], []. rewrite decode_incomplete by assumption.
      repeat split. repeat constructor.
    + destruct (decode_pair (Byte.to_N x) (Byte.to_N y)) as [ch|] eqn:H4.
      * simpl in Hle.
        destruct (IH rest' ltac:(lia)) as (s2 & k2 & D2 & S2 & T2).
        exists (ch :: s2), (x :: y :: k2).
        rewrite !(decode_double _ _ _ _ _ H1 H2 H3 H4), D2, T2.
        repeat split. now repeat constructor.
      * exists s1, k1. rewrite decode_illegal by assumption.
        repeat split; auto. now constructor.
  - exists s1, k1. rewrite decode_stray by assumption.
    repeat split; auto. now constructor.
Qed.

Lemma decode_strict_ignore (b : bytes) (s : str) :
  decode strict b = Ok s -> decode ignore b = Ok s.
Proof.
  remember (List.length b) as n eqn:Hn.
  assert (Hle : (List.length b <= n)%nat) by lia. clear Hn.
  revert b s Hle. induction n as [|n IH]; intros b s Hle H.
  { destruct b; [exact H|simpl in Hle; lia]. }
  destruct b as [|x rest]; [exact H|].
  simpl in Hle. cbn [decode] in H |- *.
  destruct (Byte.to_N x <? 0x80).
  { apply fmap_Ok_inv in H. destruct H as (s1 & H & ->).
    now rewrite (IH rest s1 ltac:(lia) H). }
  destruct ((0xA1 <=? Byte.to_N x) && (Byte.to_N x <=? 0xDF)).
  { apply fmap_Ok_inv in H. destruct H as (s1 & H & ->).
    now rewrite (IH rest s1 ltac:(lia) H). }
  destruct (is_lead (Byte.to_N x)); [|discriminate].
  destruct rest as [|y rest']; [discriminate|].
  destruct (decode_pair (Byte.to_N x) (Byte.to_N y)); [|discriminate].
  apply fmap_Ok_inv in H. destruct H as (s1 & H & ->).
  simpl in Hle. now rewrite (IH rest' s1 ltac:(lia) H).
Qed.

End ShiftJISFacts.

(** ** The field codecs and the three layouts *)

Module ConstructFacts.

Import Spec PyFacts CodecFacts ShiftJISFacts Records.

Lemma stream_read_app (n : nat) (data rest : bytes) :
  List.length data = n -> stream_read n (data ++ rest) = Ok (data, rest).
Proof.
  intros <-. unfold stream_read.
  rewrite firstn_app, Nat.sub_diag, firstn_all, firstn_O, app_nil_r.
  rewrite Nat.eqb_refl, skipn_app, skipn_all, Nat.sub_diag. reflexivity.
Qed.

Lemma skipn_app_exact {A} (n : nat) (p q : list A) :
  List.length p = n -> skipn n (p ++ q) = q.
Proof.
  intros <-. now rewrite skipn_app, skipn_all, Nat.sub_diag.
Qed.

(** *** Integers *)

Lemma pack_le_length (w : nat) (v : Z) : List.length (pack_le w v) = w.
Proof. revert v. induction w; simpl; auto. Qed.

Lemma unpack_pack_le (w : nat) (v : Z) :
  (0 <= v < 2 ^ (8 * Z.of_nat w))%Z -> unpack_le (pack_le w v) = v.
Proof.
  revert v. induction w as [|w IH]; intros v Hv.
  - simpl in *. lia.
  - cbn [pack_le unpack_le].
    assert (Hm : (0 <= v mod 256 < 256)%Z) by (apply Z.mod_pos_bound; lia).
    rewrite to_N_byte_of_N by lia. rewrite Z2N.id by lia.
    rewrite IH.
    + pose proof (Z.div_mod v 256). lia.
    + replace (8 * Z.of_nat (S w))%Z with (8 + 8 * Z.of_nat w)%Z in Hv by lia.
      rewrite Z.pow_add_r in Hv by lia. change (2 ^ 8)%Z with 256%Z in Hv.
      split; [apply Z.div_pos; lia|]. apply Z.div_lt_upper_bound; lia.
Qed.

Lemma FormatField_round_trip (w : nat) (v : Z) (b rest : bytes) :
  FormatField_build w v = Ok b ->
  List.length b = w /\ FormatField_parse w (b ++ rest) = Ok (v, rest).
Proof.
  unfold FormatField_build, FormatField_parse, pbind, pret.
  destruct ((0 <=? v)%Z && (v <? 2 ^ (8 * Z.of_nat w))%Z) eqn:Hv; [|discriminate].
  intros H. injection H as <-.
  apply andb_prop in Hv. destruct Hv as [H1 H2].
  apply Z.leb_le in H1. apply Z.ltb_lt in H2.
  split; [apply pack_le_length|].
  rewrite stream_read_app by apply pack_le_length.
  now rewrite unpack_pack_le.
Qed.

Lemma Const_round_trip (value : Z) (b rest : bytes) :
  Const_build value = Ok b ->
  List.length b = 1 /\ Const_parse value (b ++ rest) = Ok (value, rest).
Proof.
  unfold Const_build, Const_parse, Int8ul_build, Int8ul_parse. intros H.
  destruct (FormatField_round_trip 1 value b rest H) as [Hl Hp].
  split; [exact Hl|]. unfold pbind at 1. rewrite Hp.
  now rewrite Z.eqb_refl.
Qed.

(** *** Text *)

Lemma PaddedString_round_trip (n : nat) (s : str) (b rest : bytes) :
  PaddedString_build n s = Ok b ->
  List.length b = n /\ PaddedString_parse n (b ++ rest) = Ok (ascii_back s, rest).
Proof.
  unfold PaddedString_build, PaddedString_parse, pbind, plift.
  destruct (ascii_encode s) as [data|] eqn:E; [|discriminate]. cbn [bind].
  destruct (Nat.ltb_spec n (List.length data)) as [|Hn]; [discriminate|].
  intros H. injection H as <-.
  assert (Hl : List.length (data ++ zeros (n - List.length data)) = n).
  { unfold zeros. rewrite length_app, repeat_length. lia. }
  split; [exact Hl|].
  rewrite (stream_read_app n _ rest Hl).
  now rewrite (ascii_rstrip s data _ E).
Qed.

Lemma ShiftJISString_encode_inv (n : nat) (s : str) (b : bytes) :
  ShiftJISString_encode n s = Ok b ->
  exists encoded,
    ShiftJIS.encode s = Ok encoded
    /\ List.length encoded <= n
    /\ b = encoded ++ zeros (n - List.length encoded).
Proof.
  unfold ShiftJISString_encode.
  destruct (ShiftJIS.encode s) as [encoded|]; [|discriminate]. cbn [bind].
  destruct (Nat.ltb_spec n (List.length encoded)) as [|Hn]; [discriminate|].
  intros H. injection H as <-. now exists encoded.
Qed.

Lemma ShiftJISString_round_trip (n : nat) (s : str) (b rest : bytes) :
  ShiftJISString_build n s = Ok b ->
  List.length b = n /\ ShiftJISString_parse n (b ++ rest) = Ok (text_back s, rest).
Proof.
  unfold ShiftJISString_build, ShiftJISString_parse, Bytes_build, Bytes_parse.
  destruct (ShiftJISString_encode n s) as [obj2|] eqn:E; [|discriminate].
  cbn [bind]. destruct (Nat.eqb_spec (List.length obj2) n) as [Hl|]; [|discriminate].
  intros H. injection H as <-. split; [exact Hl|].
  unfold pbind, plift. rewrite (stream_read_app n _ rest Hl).
  destruct (ShiftJISString_encode_inv _ _ _ E) as (encoded & He & _ & ->).
  unfold ShiftJISString_decode. now rewrite (text_rstrip s encoded _ He).
Qed.

Lemma Padding_round_trip (n : nat) (b rest : bytes) :
  Padding_build n = Ok b ->
  b = zeros n /\ Padding_parse n (b ++ rest) = Ok (tt, rest).
Proof.
  unfold Padding_build, Padding_parse, pbind, pret.
  intros H. injection H as <-. split; [reflexivity|].
  rewrite stream_read_app; [reflexivity|]. apply repeat_length.
Qed.

(** *** The three layouts *)

Ltac bind_inv H :=
  match type of H with
  | bind ?r _ = Ok _ =>
      let b := fresh "b" in
      let E := fresh "E" in
      destruct r as [b|] eqn:E; [cbn [bind] in H|discriminate H]
  end.


Lemma zeros_length (n : nat) : List.length (zeros n) = n.
Proof. apply repeat_length. Qed.

Lemma HeaderRecord_round_trip (v : Header) (frame rest : bytes) :
  HeaderRecord_build v = Ok frame ->
  List.length frame = 120
  /\ skipn 59 frame = zeros 61
  /\ hd_error frame = Some x01
  /\ HeaderRecord_parser (frame ++ rest) = Ok (Header_back v, rest).
Proof.
  unfold HeaderRecord_build. intros H. repeat bind_inv H.
  injection H as <-.
  assert (Hb : b = [x01]) by (vm_compute in E; congruence).
  destruct (Const_round_trip _ _ (b0 ++ b1 ++ b2 ++ b3 ++ b4 ++ b5 ++ rest) E) as [L0 P0].
  destruct (ShiftJISString_round_trip _ _ _ (b1 ++ b2 ++ b3 ++ b4 ++ b5 ++ rest) E0) as [L1 P1].
  destruct (PaddedString_round_trip _ _ _ (b2 ++ b3 ++ b4 ++ b5 ++ rest) E1) as [L2 P2].
  destruct (PaddedString_round_trip _ _ _ (b3 ++ b4 ++ b5 ++ rest) E2) as [L3 P3].
  destruct (FormatField_round_trip _ _ _ (b4 ++ b5 ++ rest) E3) as [L4 P4].
  destruct (PaddedString_round_trip _ _ _ (b5 ++ rest) E4) as [L5 P5].
  destruct (Padding_round_trip _ _ rest E5) as [L6 P6].
  repeat split.
  - rewrite !length_app, L0, L1, L2, L3, L4, L5, L6, zeros_length. reflexivity.
  - rewrite !app_assoc, <- L6. apply skipn_app_exact.
    rewrite !length_app, L0, L1, L2, L3, L4, L5. reflexivity.
  - now rewrite Hb.
  - rewrite <- !app_assoc. unfold HeaderRecord_parser.
    unfold pbind at 1. rewrite P0.
    unfold pbind at 1. rewrite P1.
    unfold pbind at 1. rewrite P2.
    unfold pbind at 1. rewrite P3.
    unfold pbind at 1. unfold Int32ul_parse. rewrite P4.
    unfold pbind at 1. rewrite P5.
    unfold pbind at 1. rewrite P6.
    reflexivity.
Qed.

Lemma DataRecord_round_trip (v : Data) (frame rest : bytes) :
  DataRecord_build v = Ok frame ->
  List.length frame = 120
  /\ skipn 114 frame = zeros 6
  /\ hd_error frame = Some x02
  /\ DataRecord_parser (frame ++ rest) = Ok (Data_back v, rest).
Proof.
  unfold DataRecord_build. intros H. repeat bind_inv H.
  injection H as <-.
  assert (Hb : b = [x02]) by (vm_compute in E; congruence).
  destruct (Const_round_trip _ _ (b0 ++ b1 ++ b2 ++ b3 ++ b4 ++ b5 ++ b6 ++ rest) E) as [L0 P0].
  destruct (FormatField_round_trip _ _ _ (b1 ++ b2 ++ b3 ++ b4 ++ b5 ++ b6 ++ rest) E0) as [L1 P1].
  destruct (ShiftJISString_round_trip _ _ _ (b2 ++ b3 ++ b4 ++ b5 ++ b6 ++ rest) E1) as [L2 P2].
  destruct (FormatField_round_trip _ _ _ (b3 ++ b4 ++ b5 ++ b6 ++ rest) E2) as [L3 P3].
  destruct (FormatField_round_trip _ _ _ (b4 ++ b5 ++ b6 ++ rest) E3) as [L4 P4].
  destruct (PaddedString_round_trip _ _ _ (b5 ++ b6 ++ rest) E4) as [L5 P5].
  destruct (ShiftJISString_round_trip _ _ _ (b6 ++ rest) E5) as [L6 P6].
  destruct (Padding_round_trip _ _ rest E6) as [L7 P7].
  repeat split.
  - rewrite !length_app, L0, L1, L2, L3, L4, L5, L6, L7, zeros_length. reflexivity.
  - rewrite !app_assoc, <- L7. apply skipn_app_exact.
    rewrite !length_app, L0, L1, L2, L3, L4, L5, L6. reflexivity.
  - now rewrite Hb.
  - rewrite <- !app_assoc. unfold DataRecord_parser, Int32ul_parse, Int8ul_parse.
    unfold pbind at 1. rewrite P0.
    unfold pbind at 1. rewrite P1.
    unfold pbind at 1. rewrite P2.
    unfold pbind at 1. rewrite P3.
    unfold pbind at 1. rewrite P4.
    unfold pbind at 1. rewrite P5.
    unfold pbind at 1. rewrite P6.
    unfold pbind at 1. rewrite P7.
    reflexivity.
Qed.

Lemma TrailerRecord_round_trip (v : Trailer) (frame rest : bytes) :
  TrailerRecord_build v = Ok frame ->
  List.length frame = 120
  /\ skipn 17 frame = zeros 103
  /\ hd_error frame = Some x08
  /\ TrailerRecord_parser (frame ++ rest) = Ok (v, rest).
Proof.
  unfold TrailerRecord_build. intros H. repeat bind_inv H.
  injection H as <-.
  assert (Hb : b = [x08]) by (vm_compute in E; congruence).
  destruct (Const_round_trip _ _ (b0 ++ b1 ++ b2 ++ b3 ++ rest) E) as [L0 P0].
  destruct (FormatField_round_trip _ _ _ (b1 ++ b2 ++ b3 ++ rest) E0) as [L1 P1].
  destruct (FormatField_round_trip _ _ _ (b2 ++ b3 ++ rest) E1) as [L2 P2].
  destruct (FormatField_round_trip _ _ _ (b3 ++ rest) E2) as [L3 P3].
  destruct (Padding_round_trip _ _ rest E3) as [L4 P4].
  repeat split.
  - rewrite !length_app, L0, L1, L2, L3, L4, zeros_length. reflexivity.
  - rewrite !app_assoc, <- L4. apply skipn_app_exact.
    rewrite !length_app, L0, L1, L2, L3. reflexivity.
  - now rewrite Hb.
  - rewrite <- !app_assoc.
    unfold TrailerRecord_parser, Int32ul_parse, Int64ul_parse.
    unfold pbind at 1. rewrite P0.
    unfold pbind at 1. rewrite P1.
    unfold pbind at 1. rewrite P2.
    unfold pbind at 1. rewrite P3.
    unfold pbind at 1. rewrite P4.
    destruct v. reflexivity.
Qed.

End ConstructFacts.

(** ** The dispatch and the loop of the parser *)

Module ParserFacts.

Import Spec PyFacts CodecFacts ShiftJISFacts ConstructFacts Records Parser.

Lemma kind_of_back (r : parsed) : kind_of (back r) = kind_of r.
Proof. now destruct r. Qed.

(** What writing a record gives, for the three kinds at once. *)
Lemma encode_round_trip (r : parsed) (frame : bytes) :
  encode r = Ok frame ->
  List.length frame = RECORD_SIZE
  /\ skipn (RECORD_SIZE - reserved (kind_of r)) frame = zeros (reserved (kind_of r))
  /\ decode (kind_of r) frame = Ok (back r)
  /\ parse_record frame = Ok (back r, kind_name (kind_of r)).
Proof.
  destruct r as [v|v|v]; cbn [encode kind_of reserved decode back kind_name]; intros H.
  - destruct (HeaderRecord_round_trip v frame [] H) as (Hl & Ht & Hh & Hp).
    rewrite app_nil_r in Hp.
    assert (Hd : HeaderRecord_parse frame = Ok (Header_back v)).
    { unfold HeaderRecord_parse, parse. now rewrite Hp. }
    repeat split; auto.
    + now rewrite Hd.
    + unfold parse_record. rewrite Hl.
      destruct frame as [|b frame]; [discriminate|].
      injection Hh as ->. cbn [Nat.eqb negb detect_record_type].
      change (negb (RECORD_SIZE =? RECORD_SIZE)%nat) with false. cbv iota.
      change (same_type (Some (Byte.to_N x01)) RECORD_TYPE_HEADER) with true.
      cbv iota. now rewrite Hd.
  - destruct (DataRecord_round_trip v frame [] H) as (Hl & Ht & Hh & Hp).
    rewrite app_nil_r in Hp.
    assert (Hd : DataRecord_parse frame = Ok (Data_back v)).
    { unfold DataRecord_parse, parse. now rewrite Hp. }
    repeat split; auto.
    + now rewrite Hd.
    + unfold parse_record. rewrite Hl.
      destruct frame as [|b frame]; [discriminate|].
      injection Hh as ->. cbn [detect_record_type].
      change (negb (RECORD_SIZE =? RECORD_SIZE)%nat) with false. cbv iota.
      change (same_type (Some (Byte.to_N x02)) RECORD_TYPE_HEADER) with false.
      change (same_type (Some (Byte.to_N x02)) RECORD_TYPE_DATA) with true.
      cbv iota. now rewrite Hd.
  - destruct (TrailerRecord_round_trip v frame [] H) as (Hl & Ht & Hh & Hp).
    rewrite app_nil_r in Hp.
    assert (Hd : TrailerRecord_parse frame = Ok v).
    { unfold TrailerRecord_parse, parse. now rewrite Hp. }
    repeat split; auto.
    + now rewrite Hd.
    + unfold parse_record. rewrite Hl.
      destruct frame as [|b frame]; [discriminate|].
      injection Hh as ->. cbn [detect_record_type].
      change (negb (RECORD_SIZE =? RECORD_SIZE)%nat) with false. cbv iota.
      change (same_type (Some (Byte.to_N x08)) RECORD_TYPE_HEADER) with false.
      change (same_type (Some (Byte.to_N x08)) RECORD_TYPE_DATA) with false.
      change (same_type (Some (Byte.to_N x08)) RECORD_TYPE_TRAILER) with true.
      cbv iota. now rewrite Hd.
Qed.

(** *** The loop, one round at a time *)

Lemma parse_stream_loop_unfold (stream : bytes)
    (results : list record_info) (record_num : Z) :
  parse_stream_loop stream results record_num =
  let data := fst (read RECORD_SIZE stream) in
  match data with
  | [] => ([], Ok results)
  | _ :: _ =>
      if Nat.eqb (List.length data) RECORD_SIZE
      then match parse_record data with
           | Ok (parsed, rec_type) =>
               parse_stream_loop (snd (read RECORD_SIZE stream))
                 (results ++ [Build_record_info record_num rec_type parsed])
                 (record_num + 1)
           | Raise e => ([Error_record record_num e], Raise e)
           end
      else ([Warning_short record_num (List.length data)], Ok results)
  end.
Proof.
  funelim (parse_stream_loop stream results record_num); cbv zeta.
  - match goal with H : fst _ = [] |- _ => rewrite H end. reflexivity.
  - rewrite Hread.
    match goal with H : Nat.eqb _ _ = false |- _ => rewrite H end. reflexivity.
  - rewrite Hread.
    match goal with H : Nat.eqb _ _ = true |- _ => rewrite H end.
    match goal with H : parse_record _ = _ |- _ => rewrite H end. reflexivity.
  - rewrite Hread.
    match goal with H : Nat.eqb _ _ = true |- _ => rewrite H end.
    match goal with H : parse_record _ = _ |- _ => rewrite H end. reflexivity.
Qed.

Lemma read_frame (frame rest : bytes) :
  List.length frame = RECORD_SIZE -> read RECORD_SIZE (frame ++ rest) = (frame, rest).
Proof.
  intros H. unfold read. rewrite <- H at 1 2.
  rewrite firstn_app, Nat.sub_diag, firstn_all, firstn_O, app_nil_r.
  now rewrite skipn_app, skipn_all, Nat.sub_diag.
Qed.

Lemma read_short (stream : bytes) :
  List.length stream < RECORD_SIZE -> fst (read RECORD_SIZE stream) = stream.
Proof. intros H. unfold read. cbn [fst]. apply firstn_all2. lia. Qed.

(** End of the stream: [Done]. *)
Lemma parse_stream_loop_done (results : list record_info) (record_num : Z) :
  parse_stream_loop [] results record_num = ([], Ok results).
Proof. rewrite parse_stream_loop_unfold. reflexivity. Qed.

(** A short last read: [Truncated]. *)
Lemma parse_stream_loop_short (tail : bytes)
    (results : list record_info) (record_num : Z) :
  0 < List.length tail < RECORD_SIZE ->
  parse_stream_loop tail results record_num =
  ([Warning_short record_num (List.length tail)], Ok results).
Proof.
  intros [H1 H2]. rewrite parse_stream_loop_unfold. cbv zeta.
  rewrite (read_short tail H2).
  destruct tail as [|b tail]; [simpl in H1; lia|].
  destruct (Nat.eqb_spec (List.length (b :: tail)) RECORD_SIZE); [lia|reflexivity].
Qed.

(** A whole frame that parses: [Reading] goes on. *)
Lemma parse_stream_loop_frame (frame rest : bytes)
    (results : list record_info) (record_num : Z)
    (parsed : parsed) (rec_type : string) :
  List.length frame = RECORD_SIZE ->
  parse_record frame = Ok (parsed, rec_type) ->
  parse_stream_loop (frame ++ rest) results record_num =
  parse_stream_loop rest
    (results ++ [Build_record_info record_num rec_type parsed]) (record_num + 1).
Proof.
  intros Hl Hp. rewrite parse_stream_loop_unfold. cbv zeta.
  rewrite (read_frame frame rest Hl). cbn [fst snd].
  destruct frame as [|b frame]; [discriminate|].
  rewrite Hl, Hp. change (RECORD_SIZE =? RECORD_SIZE)%nat with true. reflexivity.
Qed.

(** A whole frame that does not parse: [Failed]. *)
Lemma parse_stream_loop_failed (frame rest : bytes)
    (results : list record_info) (record_num : Z) (e : exn) :
  List.length frame = RECORD_SIZE ->
  parse_record frame = Raise e ->
  parse_stream_loop (frame ++ rest) results record_num =
  ([Error_record record_num e], Raise e).
Proof.
  intros Hl Hp. rewrite parse_stream_loop_unfold. cbv zeta.
  rewrite (read_frame frame rest Hl). cbn [fst snd].
  destruct frame as [|b frame]; [discriminate|].
  rewrite Hl, Hp. change (RECORD_SIZE =? RECORD_SIZE)%nat with true. reflexivity.
Qed.

(** The frames written from the records [rs] are read as the records
    [map back rs], numbered in order. *)
Lemma parse_stream_loop_frames (rs : list parsed) (frames : list bytes) :
  Forall2 (fun r frame => encode r = Ok frame) rs frames ->
  forall (tail : bytes) (results : list record_info) (record_num : Z),
    parse_stream_loop (concat frames ++ tail) results record_num =
    parse_stream_loop tail
      (results ++ tagged record_num (map back rs))
      (record_num + Z.of_nat (List.length rs)).
Proof.
  induction 1 as [|r frame rs frames Hr _ IH]; intros tail results record_num.
  - cbn [concat app map tagged List.length]. rewrite app_nil_r.
    f_equal. change (Z.of_nat 0) with 0%Z. lia.
  - destruct (encode_round_trip r frame Hr) as (Hl & _ & _ & Hp).
    cbn [concat map tagged]. rewrite <- app_assoc.
    rewrite (parse_stream_loop_frame frame _ results record_num _ _ Hl Hp).
    rewrite IH, <- app_assoc, kind_of_back. cbn [app].
    f_equal. cbn [List.length]. lia.
Qed.

Lemma length_concat_frames (rs : list parsed) (frames : list bytes) :
  Forall2 (fun r frame => encode r = Ok frame) rs frames ->
  List.length (concat frames) = RECORD_SIZE * List.length rs.
Proof.
  induction 1 as [|r frame rs frames Hr _ IH]; [reflexivity|].
  destruct (encode_round_trip r frame Hr) as (Hl & _).
  cbn [concat List.length]. rewrite length_app, Hl, IH. lia.
Qed.

Lemma tagged_length (record_num : Z) (rs : list parsed) :
  List.length (tagged record_num rs) = List.length rs.
Proof.
  revert record_num. induction rs as [|r rs IH]; intros n; simpl; auto.
Qed.

Lemma tagged_numbers (record_num : Z) (rs : list parsed) :
  map record_number (tagged record_num rs) =
  Generator.range_from record_num (List.length rs).
Proof.
  revert record_num. induction rs as [|r rs IH]; intros n; simpl; [reflexivity|].
  now rewrite IH.
Qed.

Lemma tagged_data (record_num : Z) (rs : list parsed) :
  map data (tagged record_num rs) = rs.
Proof.
  revert record_num. induction rs as [|r rs IH]; intros n; simpl; [reflexivity|].
  now rewrite IH.
Qed.

End ParserFacts.

(** ** Valid values are written, clean values are read back *)

Module BuildFacts.

Import Spec PyFacts CodecFacts ShiftJISFacts ConstructFacts ParserFacts Records Parser.

Lemma FormatField_build_ok (w : nat) (v : Z) :
  uint (8 * Z.of_nat w) v = true -> FormatField_build w v = Ok (pack_le w v).
Proof. unfold uint, FormatField_build. now intros ->. Qed.

Lemma PaddedString_build_ok (n : nat) (s : str) :
  ascii_fits n s = true -> exists b, PaddedString_build n s = Ok b.
Proof.
  unfold ascii_fits, PaddedString_build.
  destruct (ascii_encode s) as [data|]; [|discriminate]. cbn [bind].
  intros H. apply Nat.leb_le in H.
  destruct (Nat.ltb_spec n (List.length data)); [lia|]. eauto.
Qed.

Lemma ShiftJISString_build_ok (n : nat) (s : str) :
  fits n s = true -> exists b, ShiftJISString_build n s = Ok b.
Proof.
  unfold fits, ShiftJISString_build, ShiftJISString_encode, Bytes_build, ljust.
  destruct (ShiftJIS.encode s) as [encoded|]; [|discriminate]. cbn [bind].
  intros H. apply Nat.leb_le in H.
  destruct (Nat.ltb_spec n (List.length encoded)); [lia|]. cbn [bind].
  rewrite length_app, repeat_length.
  replace (List.length encoded + (n - List.length encoded)) with n by lia.
  rewrite Nat.eqb_refl. eauto.
Qed.

Lemma status_build_ok (v : Z) :
  ((v =? 0) || (v =? 1))%Z = true -> Int8ul_build v = Ok (pack_le 1 v).
Proof.
  intros H. apply FormatField_build_ok. unfold uint.
  apply orb_prop in H. destruct H as [H|H]; apply Z.eqb_eq in H; now subst v.
Qed.

Ltac split_valid H :=
  repeat match type of H with
         | (_ && _) = true =>
             let H' := fresh "V" in
             apply andb_prop in H; destruct H as [H H']
         end.

Lemma valid_encode (r : parsed) : valid r = true -> exists frame, encode r = Ok frame.
Proof.
  destruct r as [v|v|v]; cbn [valid encode]; intros H; split_valid H.
  - unfold HeaderRecord_build.
    destruct (ShiftJISString_build_ok _ _ H) as [b1 ->].
    destruct (PaddedString_build_ok _ _ V2) as [b2 ->].
    destruct (PaddedString_build_ok _ _ V1) as [b3 ->].
    unfold Int32ul_build. rewrite (FormatField_build_ok 4 _ V0).
    destruct (PaddedString_build_ok _ _ V) as [b5 ->].
    change (Const_build RECORD_TYPE_HEADER) with (Ok (A:=bytes) [x01]).
    cbn [bind Padding_build]. eauto.
  - unfold DataRecord_build.
    unfold Int32ul_build. rewrite (FormatField_build_ok 4 _ H).
    destruct (ShiftJISString_build_ok _ _ V3) as [b2 ->].
    rewrite (FormatField_build_ok 4 _ V2).
    rewrite (status_build_ok _ V1).
    destruct (PaddedString_build_ok _ _ V0) as [b5 ->].
    destruct (ShiftJISString_build_ok _ _ V) as [b6 ->].
    change (Const_build RECORD_TYPE_DATA) with (Ok (A:=bytes) [x02]).
    cbn [bind Padding_build]. eauto.
  - unfold TrailerRecord_build.
    unfold Int32ul_build, Int64ul_build.
    rewrite (FormatField_build_ok 4 _ H), (FormatField_build_ok 8 _ V0),
      (FormatField_build_ok 4 _ V).
    change (Const_build RECORD_TYPE_TRAILER) with (Ok (A:=bytes) [x08]).
    cbn [bind Padding_build]. eauto.
Qed.

Lemma clean_back (r : parsed) : clean r = true -> back r = r.
Proof.
  destruct r as [v|v|v]; [| |reflexivity]; destruct v;
    cbn [clean back Header_back Data_back file_name creation_date creation_time
         total_records version record_id name value status timestamp description];
    intros H; split_valid H; unfold Header_back, Data_back;
    cbn [file_name creation_date creation_time total_records version
         record_id name value status timestamp description];
    repeat match goal with
           | H : text_clean _ = true |- _ => rewrite (text_back_clean _ H); clear H
           | H : ascii_clean _ = true |- _ => rewrite (ascii_back_clean _ H); clear H
           end; reflexivity.
Qed.

End BuildFacts.

(** ** The generator on a count that overflows the checksum *)

Module GeneratorFacts.

Import Spec PyFacts CodecFacts ShiftJISFacts ConstructFacts ParserFacts BuildFacts.
Import Records Parser Generator.

Lemma uint_true (bits v : Z) : (0 <= v < 2 ^ bits)%Z -> uint bits v = true.
Proof.
  intros [H1 H2]. unfold uint. apply andb_true_intro.
  split; [now apply Z.leb_le|now apply Z.ltb_lt].
Qed.

Lemma digit_ascii (n : Z) : (digit n < 0x80)%N.
Proof.
  unfold digit. assert (0 <= n mod 10 < 10)%Z by (apply Z.mod_pos_bound; lia). lia.
Qed.

Lemma ascii_encode_ok (s : str) :
  Forall (fun c => (c < 0x80)%N) s ->
  exists b, ascii_encode s = Ok b /\ List.length b = List.length s.
Proof.
  induction 1 as [|c s Hc _ (b & Hb & Hl)].
  - now exists [].
  - exists (byte_of_N c :: b). cbn [ascii_encode].
    apply N.ltb_lt in Hc. rewrite Hc, Hb. cbn. now rewrite Hl.
Qed.

Lemma ascii_fits_ok (n : nat) (s : str) :
  Forall (fun c => (c < 0x80)%N) s -> List.length s <= n -> ascii_fits n s = true.
Proof.
  intros Hs Hn. destruct (ascii_encode_ok s Hs) as (b & Hb & Hl).
  unfold ascii_fits. rewrite Hb. apply Nat.leb_le. lia.
Qed.

Lemma strftime_Ymd_fits (now : datetime) : ascii_fits 8 (strftime_Ymd now) = true.
Proof.
  apply ascii_fits_ok; [|cbn; lia].
  unfold strftime_Ymd, digits4, digits2. cbn [app].
  repeat constructor; apply digit_ascii.
Qed.

Lemma strftime_HMS_fits (now : datetime) : ascii_fits 6 (strftime_HMS now) = true.
Proof.
  apply ascii_fits_ok; [|cbn; lia].
  unfold strftime_HMS, digits2. cbn [app].
  repeat constructor; apply digit_ascii.
Qed.

Lemma strftime_YmdHMS_fits (now : datetime) :
  ascii_fits 14 (strftime_YmdHMS now) = true.
Proof.
  apply ascii_fits_ok; [|cbn; lia].
  unfold strftime_YmdHMS, strftime_Ymd, strftime_HMS, digits4, digits2. cbn [app].
  repeat constructor; apply digit_ascii.
Qed.

Lemma sample_names_fit : forallb (fits 50) sample_names = true.
Proof. vm_compute. reflexivity. Qed.

Lemma sample_descriptions_fit : forallb (fits 40) sample_descriptions = true.
Proof. vm_compute. reflexivity. Qed.

Lemma cycle_In (l : list str) (i : Z) : l <> [] -> In (cycle l i) l.
Proof.
  intros Hl. unfold cycle. apply nth_In.
  assert (0 < List.length l) by (destruct l; [congruence|cbn; lia]).
  assert (0 <= i mod Z.of_nat (List.length l) < Z.of_nat (List.length l))%Z
    by (apply Z.mod_pos_bound; lia).
  lia.
Qed.






End GeneratorFacts.

(** ** Strict decoding and the end of the text *)

Module StrictFacts.

Import Spec PyFacts CodecFacts ShiftJISFacts ShiftJIS.

Local Open Scope N_scope.

(** No cell of the decoding table holds U+0000. *)
Lemma jisx0208_nonzero :
  forallb (forallb (fun u => negb (u =? 0))) jisx0208 = true.
Proof. vm_compute. reflexivity. Qed.

Lemma decode_pair_nonzero (c c2 ch : N) : decode_pair c c2 = Some ch -> ch <> 0.
Proof.
  unfold decode_pair.
  destruct ((c2 <? 0x40) || (0x7E <? c2) && (c2 <? 0x80) || (0xFC <? c2));
    [discriminate|].
  cbv zeta.
  match goal with |- context [if ?b then Some 0xFF3C else _] => destruct b end.
  { intros H. injection H as <-. discriminate. }
  unfold jisx0208_decode.
  match goal with |- context [if ?b then None else _] => destruct b end;
    [discriminate|].
  match goal with |- context [nth_error jisx0208 ?i] =>
    destruct (nth_error jisx0208 i) as [row|] eqn:Er end; [|discriminate].
  match goal with |- context [nth_error row ?j] =>
    destruct (nth_error row j) as [u|] eqn:Eu end; [|discriminate].
  destruct (u =? UNIINV); [discriminate|].
  intros H. injection H as <-.
  apply nth_error_In in Er, Eu.
  pose proof (proj1 (forallb_forall _ _) jisx0208_nonzero row Er) as Hrow.
  pose proof (proj1 (forallb_forall _ _) Hrow u Eu) as Hu.
  apply negb_true_iff in Hu. now apply N.eqb_neq.
Qed.

Lemma decode_strict_nil (b : bytes) : decode strict b = Ok [] -> b = [].
Proof.
  destruct b as [|x rest]; [reflexivity|]. cbn [decode].
  destruct (Byte.to_N x <? 0x80).
  { intros H. apply fmap_Ok_inv in H. destruct H as (? & _ & ?). discriminate. }
  destruct ((0xA1 <=? Byte.to_N x) && (Byte.to_N x <=? 0xDF)).
  { intros H. apply fmap_Ok_inv in H. destruct H as (? & _ & ?). discriminate. }
  destruct (is_lead (Byte.to_N x)); [|discriminate].
  destruct rest as [|y rest]; [discriminate|].
  destruct (decode_pair (Byte.to_N x) (Byte.to_N y)); [|discriminate].
  intros H. apply fmap_Ok_inv in H. destruct H as (? & _ & ?). discriminate.
Qed.

Lemma ends_with_nul_cons (c : N) (s : str) :
  s <> [] -> ends_with_nul (c :: s) = ends_with_nul s.
Proof.
  intros Hs. unfold ends_with_nul. cbn [rev].
  destruct (rev s) as [|x r] eqn:E; [|reflexivity].
  apply (f_equal (@rev N)) in E. rewrite rev_involutive in E. contradiction.
Qed.

(** A text that the strict decoder returns ends with U+0000 only when the
    bytes end with a zero byte. *)
Lemma decode_strict_ends (b : bytes) (s : str) :
  decode strict b = Ok s -> ends_with_nul s = true -> exists c, b = c ++ [x00].
Proof.
  remember (List.length b) as n eqn:Hn.
  assert (Hle : (List.length b <= n)%nat) by lia. clear Hn.
  revert b s Hle. induction n as [|n IH]; intros b s Hle H Hs.
  { destruct b; [|simpl in Hle; lia]. injection H as <-. discriminate. }
  destruct b as [|x rest]; [injection H as <-; discriminate|].
  simpl in Hle.
  assert (Step : forall (ch : N) (tl : bytes) (s1 : str) (pre : bytes),
             (List.length tl <= n)%nat -> decode strict tl = Ok s1 ->
             s = ch :: s1 -> x :: rest = pre ++ tl ->
             (tl = [] -> ch = 0 -> exists c, x :: rest = c ++ [x00]) ->
             exists c, x :: rest = c ++ [x00]).
  { intros ch tl s1 pre Htl Hd -> Hb Hlast.
    destruct s1 as [|c1 s1].
    - apply decode_strict_nil in Hd. apply Hlast; [exact Hd|].
      unfold ends_with_nul in Hs. cbn in Hs. now apply N.eqb_eq.
    - rewrite ends_with_nul_cons in Hs by discriminate.
      destruct (IH tl _ Htl Hd Hs) as [c ->].
      exists (pre ++ c). now rewrite Hb, app_assoc. }
  cbn [decode] in H.
  destruct (Byte.to_N x <? 0x80) eqn:H1.
  { apply fmap_Ok_inv in H. destruct H as (s1 & Hd & ->).
    apply (Step (Byte.to_N x) rest s1 [x]); auto; [lia|].
    intros -> Hx. exists []. cbn. f_equal.
    rewrite <- (byte_of_N_to_N x), Hx. reflexivity. }
  destruct ((0xA1 <=? Byte.to_N x) && (Byte.to_N x <=? 0xDF)) eqn:H2.
  { apply fmap_Ok_inv in H. destruct H as (s1 & Hd & ->).
    apply (Step (0xFEC0 + Byte.to_N x) rest s1 [x]); auto; [lia|].
    intros _ Hx. lia. }
  destruct (is_lead (Byte.to_N x)); [|discriminate].
  destruct rest as [|y rest']; [discriminate|].
  destruct (decode_pair (Byte.to_N x) (Byte.to_N y)) as [ch|] eqn:H4; [|discriminate].
  apply fmap_Ok_inv in H. destruct H as (s1 & Hd & ->).
  simpl in Hle.
  apply (Step ch rest' s1 [x; y]); auto; [lia|].
  intros _ Hch. now apply decode_pair_nonzero in H4.
Qed.

End StrictFacts.

(** * The claims *)

Import Spec PyFacts CodecFacts ShiftJISFacts ConstructFacts ParserFacts BuildFacts.
Import Records Parser Examples.

(** C1, as stated, fails.  The header whose version is "1.0\x00" is valid
    (four ASCII bytes in a field of ten) and is read back with the version
    "1.0"; the data record whose name is "¥1000" is valid (five bytes in a
    field of fifty) and is read back with the name "\1000", because the
    codec writes U+00A5 as the byte 0x5C and reads 0x5C as U+005C. *)
Lemma round_trip_counterexample :
  (valid (Parsed_Header header_nul) = true
   /\ exists frame,
        encode (Parsed_Header header_nul) = Ok frame
        /\ decode HEADER frame = Ok (Parsed_Header header_sample)
        /\ version header_sample <> version header_nul)
  /\ (valid (Parsed_Data data_yen) = true
      /\ exists frame read,
           encode (Parsed_Data data_yen) = Ok frame
           /\ decode DATA frame = Ok (Parsed_Data read)
           /\ name read = [0x5C; 0x31; 0x30; 0x30; 0x30]%N
           /\ name data_yen = [0xA5; 0x31; 0x30; 0x30; 0x30]%N).
Proof.
  split; (split; [vm_compute; reflexivity|]).
  - eexists. split; [vm_compute; reflexivity|].
    split; [vm_compute; reflexivity|]. vm_compute. discriminate.
  - eexists. eexists. split; [vm_compute; reflexivity|].
    split; [vm_compute; reflexivity|]. split; vm_compute; reflexivity.
Qed.

(** C1, amended.  Every valid record of any of the three kinds (text
    within the capacity of its field, ASCII text within the width, integers
    within their widths, status 0 or 1) in which no text ends with U+0000
    and no legacy text holds U+00A5 or U+203E is written to a frame of 120
    bytes from which its own codec, and the dispatch of the parser, read
    the record back, field by field. *)
Theorem round_trip_amended (r : parsed) :
  valid r = true ->
  clean r = true ->
  exists frame,
    encode r = Ok frame
    /\ List.length frame = RECORD_SIZE
    /\ decode (kind_of r) frame = Ok r
    /\ parse_record frame = Ok (r, kind_name (kind_of r)).
Proof.
  intros Hv Hc. destruct (valid_encode r Hv) as [frame Hf]. exists frame.
  destruct (encode_round_trip r frame Hf) as (Hl & _ & Hd & Hp).
  rewrite (clean_back r Hc) in Hd, Hp. auto.
Qed.

(** The data record of the scenario is valid and clean, and is read back. *)
Lemma round_trip_amended_witness :
  exists frame,
    encode (Parsed_Data data_scenario) = Ok frame
    /\ List.length frame = RECORD_SIZE
    /\ decode DATA frame = Ok (Parsed_Data data_scenario)
    /\ parse_record frame = Ok (Parsed_Data data_scenario, "DATA"%string).
Proof.
  apply (round_trip_amended (Parsed_Data data_scenario)); vm_compute; reflexivity.
Defined.

(** C2.  Whenever a record of any of the three kinds is written, the frame
    is exactly 120 bytes long and ends with the reserved tail of its kind
    (61, 6 or 103 bytes), all zero. *)
Theorem fixed_length (r : parsed) (frame : bytes) :
  encode r = Ok frame ->
  List.length frame = 120
  /\ skipn (120 - reserved (kind_of r)) frame = zeros (reserved (kind_of r)).
Proof.
  intros H. destruct (encode_round_trip r frame H) as (Hl & Ht & _). auto.
Qed.

(** The frame of the sample trailer: 120 bytes, the last 103 of them zero. *)
Lemma fixed_length_witness :
  exists frame,
    encode (Parsed_Trailer trailer_sample) = Ok frame
    /\ List.length frame = 120
    /\ skipn (120 - reserved TRAILER) frame = zeros (reserved TRAILER).
Proof.
  eexists. split; [vm_compute; reflexivity|].
  apply (fixed_length (Parsed_Trailer trailer_sample)). vm_compute. reflexivity.
Defined.

(** C3.  The header codec refuses a frame of 120 bytes that starts with the
    byte 2 with [ConstError] (its constant is 1); the dispatch refuses a
    frame of 120 bytes that starts with the byte 5 with the [ValueError] of
    an unknown record type, and so does the loop of the reader, which
    reports the frame by its number and stops. *)
Theorem discriminant_enforcement (frame2 frame5 rest : bytes) :
  List.length frame2 = 120 ->
  hd_error frame2 = Some x02 ->
  List.length frame5 = 120 ->
  hd_error frame5 = Some x05 ->
  HeaderRecord_parse frame2 = Raise ConstError
  /\ decode HEADER frame2 = Raise ConstError
  /\ parse_record frame5 = Raise (ValueError (UnknownRecordType 5))
  /\ parse_stream (frame5 ++ rest) =
     ([Error_record 1 (ValueError (UnknownRecordType 5))],
      Raise (ValueError (UnknownRecordType 5))).
Proof.
  intros L2 H2 L5 H5.
  destruct frame2 as [|b2 f2]; [discriminate|]. injection H2 as ->.
  destruct frame5 as [|b5 f5]; [discriminate|]. injection H5 as ->.
  assert (P2 : HeaderRecord_parse (x02 :: f2) = Raise ConstError) by reflexivity.
  assert (P5 : parse_record (x05 :: f5) = Raise (ValueError (UnknownRecordType 5))).
  { unfold parse_record. rewrite L5. reflexivity. }
  split; [exact P2|]. split; [cbn [decode]; now rewrite P2|].
  split; [exact P5|]. unfold parse_stream. now apply parse_stream_loop_failed.
Qed.

(** The two frames that hold the byte 2, or 5, and 119 zero bytes. *)
Lemma discriminant_enforcement_witness :
  HeaderRecord_parse frame_2 = Raise ConstError
  /\ decode HEADER frame_2 = Raise ConstError
  /\ parse_record frame_5 = Raise (ValueError (UnknownRecordType 5))
  /\ parse_stream (frame_5 ++ frame_2) =
     ([Error_record 1 (ValueError (UnknownRecordType 5))],
      Raise (ValueError (UnknownRecordType 5))).
Proof.
  apply (discriminant_enforcement frame_2 frame_5 frame_2); reflexivity.
Defined.

(** C7.  Writing the data record {record_id=1, name="田中太郎", value=1000,
    status=1, timestamp="20240101120000", description="通常処理"} gives a
    frame of 120 bytes whose byte 0 is 0x02 and whose bytes 1 to 4 are 1 in
    little-endian order; reading the frame gives every field back, the two
    texts included. *)
Theorem concrete_scenario :
  name data_scenario = [0x7530; 0x4E2D; 0x592A; 0x90CE]%N
  /\ description data_scenario = [0x901A; 0x5E38; 0x51E6; 0x7406]%N
  /\ exists frame,
       DataRecord_build data_scenario = Ok frame
       /\ List.length frame = 120
       /\ nth_error frame 0 = Some x02
       /\ firstn 4 (skipn 1 frame) = [x01; x00; x00; x00]
       /\ unpack_le (firstn 4 (skipn 1 frame)) = 1%Z
       /\ DataRecord_parse frame = Ok data_scenario.
Proof.
  split; [vm_compute; reflexivity|]. split; [vm_compute; reflexivity|].
  eexists. split; [vm_compute; reflexivity|].
  repeat split; vm_compute; reflexivity.
Qed.

(** C4.  For every number N of data records, the reader applied to the
    frame of a header, then the frames of N data records, then the frame of
    a trailer returns exactly N+2 entries, in the order of the frames,
    numbered 1 to N+2, each holding the record read back from its frame;
    nothing is printed on the standard error stream and no exception is
    raised (the loop ends on the empty read). *)
Theorem stream_composition (h : Header) (ds : list Data) (t : Trailer)
    (fh : bytes) (fds : list bytes) (ft : bytes) :
  HeaderRecord_build h = Ok fh ->
  Forall2 (fun d fd => DataRecord_build d = Ok fd) ds fds ->
  TrailerRecord_build t = Ok ft ->
  let records :=
    Parsed_Header (Header_back h)
    :: map (fun d => Parsed_Data (Data_back d)) ds ++ [Parsed_Trailer t] in
  parse_stream (fh ++ concat fds ++ ft) = ([], Ok (tagged 1 records))
  /\ List.length (tagged 1 records) = List.length ds + 2
  /\ map record_number (tagged 1 records)
     = Generator.range 1 (Z.of_nat (List.length ds) + 3)
  /\ map data (tagged 1 records) = records
  /\ map record_type (tagged 1 records)
     = "HEADER"%string :: repeat "DATA"%string (List.length ds) ++ ["TRAILER"%string].
Proof.
  intros Hh Hd Ht records.
  assert (Hlen : List.length records = List.length ds + 2).
  { unfold records. cbn [List.length]. rewrite length_app, length_map.
    cbn [List.length]. lia. }
  assert (F : Forall2 (fun r frame => encode r = Ok frame)
                (Parsed_Header h :: map Parsed_Data ds ++ [Parsed_Trailer t])
                (fh :: fds ++ [ft])).
  { constructor; [exact Hh|]. apply Forall2_app.
    - clear Hh Ht records Hlen. induction Hd; constructor; auto.
    - constructor; [exact Ht|constructor]. }
  split; [|split; [|split; [|split]]].
  - pose proof (parse_stream_loop_frames _ _ F [] [] 1%Z) as L.
    rewrite parse_stream_loop_done in L.
    assert (E : concat (fh :: fds ++ [ft]) ++ [] = fh ++ concat fds ++ ft).
    { rewrite app_nil_r. cbn [concat]. rewrite concat_app. cbn [concat].
      now rewrite app_nil_r. }
    rewrite E in L. unfold parse_stream. rewrite L.
    cbn [app map back]. rewrite map_app, map_map. reflexivity.
  - now rewrite tagged_length.
  - rewrite tagged_numbers, Hlen. unfold Generator.range. f_equal. lia.
  - apply tagged_data.
  - unfold records. cbn [tagged map record_type kind_of kind_name]. f_equal.
    generalize (1 + 1)%Z. clear. induction ds as [|d ds IH]; intros n.
    + reflexivity.
    + cbn [map app tagged record_type kind_of kind_name List.length repeat].
      f_equal. apply IH.
Qed.

(** A header, the data record of the scenario twice, and a trailer. *)
Lemma stream_composition_witness :
  parse_stream (frame_header ++ concat [frame_data; frame_data] ++ frame_trailer)
  = ([], Ok (tagged 1 [Parsed_Header header_sample; Parsed_Data data_scenario;
                       Parsed_Data data_scenario; Parsed_Trailer trailer_sample])).
Proof.
  refine (proj1 (stream_composition header_sample
                   [data_scenario; data_scenario] trailer_sample
                   frame_header [frame_data; frame_data] frame_trailer _ _ _)).
  - vm_compute. reflexivity.
  - repeat constructor; vm_compute; reflexivity.
  - vm_compute. reflexivity.
Defined.

(** C5.  For every N, a source of 120*(N+2) - 1 bytes whose first N+1
    frames were written from records makes the reader return the N+1
    records read back from those frames, numbered 1 to N+1, and print the
    warning of a short record N+2 of 119 bytes; no exception is raised and
    the last 119 bytes are not parsed. *)
Theorem truncation (N : nat) (rs : list parsed) (frames : list bytes) (tail : bytes) :
  List.length rs = N + 1 ->
  Forall2 (fun r frame => encode r = Ok frame) rs frames ->
  List.length tail = 119 ->
  List.length (concat frames ++ tail) = 120 * (N + 2) - 1
  /\ parse_stream (concat frames ++ tail)
     = ([Warning_short (Z.of_nat N + 2) 119], Ok (tagged 1 (map back rs)))
  /\ List.length (tagged 1 (map back rs)) = N + 1
  /\ map record_number (tagged 1 (map back rs))
     = Generator.range 1 (Z.of_nat N + 2).
Proof.
  intros Hn F Ht.
  split; [|split; [|split]].
  - rewrite length_app, (length_concat_frames rs frames F), Hn, Ht.
    unfold RECORD_SIZE. lia.
  - unfold parse_stream. rewrite (parse_stream_loop_frames rs frames F).
    rewrite parse_stream_loop_short by (unfold RECORD_SIZE; lia).
    rewrite Ht, Hn. cbn [app]. do 3 f_equal. lia.
  - now rewrite tagged_length, length_map.
  - rewrite tagged_numbers, length_map, Hn. unfold Generator.range. f_equal. lia.
Qed.

(** A header and a data record followed by 119 zero bytes. *)
Lemma truncation_witness :
  parse_stream (concat [frame_header; frame_data] ++ zeros 119)
  = ([Warning_short 3 119],
     Ok (tagged 1 [Parsed_Header header_sample; Parsed_Data data_scenario])).
Proof.
  refine (proj1 (proj2 (truncation 1
                   [Parsed_Header header_sample; Parsed_Data data_scenario]
                   [frame_header; frame_data] (zeros 119) _ _ _))).
  - reflexivity.
  - repeat constructor; vm_compute; reflexivity.
  - reflexivity.
Defined.

(** C6.  When the shift_jis bytes of a text are more than the capacity of
    the field, the adapter raises the [ValueError] of a text too long,
    so that neither the field nor a data record with such a name is
    written at all (an exception carries no bytes); when they are not
    more, the field is the bytes followed by zero bytes up to exactly the
    capacity. *)
Theorem overflow_rejection (length : nat) (s : str) (encoded : bytes) :
  ShiftJIS.encode s = Ok encoded ->
  (length < List.length encoded ->
   ShiftJISString_encode length s
   = Raise (ValueError (TooLong (List.length encoded) length))
   /\ ShiftJISString_build length s
      = Raise (ValueError (TooLong (List.length encoded) length)))
  /\ (List.length encoded <= length ->
      ShiftJISString_encode length s
      = Ok (encoded ++ zeros (length - List.length encoded))
      /\ ShiftJISString_build length s
         = Ok (encoded ++ zeros (length - List.length encoded))
      /\ List.length (encoded ++ zeros (length - List.length encoded)) = length)
  /\ (forall d : Data,
        name d = s ->
        length = 50 ->
        50 < List.length encoded ->
        uint 32 (record_id d) = true ->
        DataRecord_build d
        = Raise (ValueError (TooLong (List.length encoded) 50))).
Proof.
  intros He.
  assert (Hover : length < List.length encoded ->
                  ShiftJISString_encode length s
                  = Raise (ValueError (TooLong (List.length encoded) length))).
  { intros Hlt. unfold ShiftJISString_encode. rewrite He. cbn [bind].
    destruct (Nat.ltb_spec length (List.length encoded)); [reflexivity|lia]. }
  split; [|split].
  - intros Hlt. split; [now apply Hover|].
    unfold ShiftJISString_build. now rewrite (Hover Hlt).
  - intros Hle.
    assert (Hfit : ShiftJISString_encode length s
                   = Ok (encoded ++ zeros (length - List.length encoded))).
    { unfold ShiftJISString_encode. rewrite He. cbn [bind].
      destruct (Nat.ltb_spec length (List.length encoded)); [lia|reflexivity]. }
    assert (Hl : List.length (encoded ++ zeros (length - List.length encoded)) = length).
    { rewrite length_app, zeros_length. lia. }
    split; [exact Hfit|]. split; [|exact Hl].
    unfold ShiftJISString_build. rewrite Hfit. cbn [bind].
    unfold Bytes_build. now rewrite Hl, Nat.eqb_refl.
  - intros d Hname -> Hlt Hid. unfold DataRecord_build.
    change (Const_build RECORD_TYPE_DATA) with (Ok (A:=bytes) [x02]).
    unfold Int32ul_build at 1. rewrite (FormatField_build_ok 4 _ Hid).
    cbn [bind]. unfold ShiftJISString_build at 1.
    rewrite Hname, (Hover Hlt). reflexivity.
Qed.

(** A name of 26 kanji takes 52 bytes and is refused by a field of 50. *)
Lemma overflow_rejection_witness :
  ShiftJISString_encode 50 long_name = Raise (ValueError (TooLong 52 50))
  /\ ShiftJISString_build 50 long_name = Raise (ValueError (TooLong 52 50)).
Proof.
  refine (proj1 (overflow_rejection 50 long_name
                   (written (ShiftJIS.encode long_name)) _) _).
  - vm_compute. reflexivity.
  - vm_compute. lia.
Defined.

(** C10, as stated, fails twice.  A field that holds the bytes 00 81 and
    then zero bytes decodes to the text "\x00", which ends with U+0000:
    the zero bytes at the end are stripped, the lead byte 0x81 that is
    left at the end forms no character and is dropped, and the zero byte
    before it is kept.  And the text "¥\x00" is read back as "\", which is
    not the text without its U+0000, "¥". *)
Lemma trailing_nul_counterexample :
  ShiftJISString_decode ([x00; x81] ++ zeros 48) = Ok [0%N]
  /\ ends_with_nul [0%N] = true
  /\ exists field,
       ShiftJISString_encode 50 [0xA5; 0]%N = Ok field
       /\ ShiftJISString_decode field = Ok [0x5C%N]
       /\ str_rstrip [0xA5; 0]%N = [0xA5%N].
Proof.
  split; [vm_compute; reflexivity|]. split; [reflexivity|].
  eexists. split; [vm_compute; reflexivity|].
  split; vm_compute; reflexivity.
Qed.

(** C10, amended.  Decoding a legacy text field strips all the zero bytes
    at the end of the field and nothing else.  When what is left is valid
    shift_jis, as it is in every field that the adapter wrote, the decoded
    text does not end with U+0000.  For a text [s] written to a field, the
    text read back is [s] without the U+0000 characters at its end and
    with U+00A5 and U+203E read as U+005C and U+007E; so when [s] ends
    with U+0000 the text read back is never [s], and it is exactly [s]
    without the U+0000 characters at its end when [s] holds neither U+00A5
    nor U+203E. *)
Theorem trailing_nul_amended (length : nat) (s : str) (field : bytes) :
  ShiftJISString_encode length s = Ok field ->
  ShiftJISString_decode field = Ok (text_back s)
  /\ ends_with_nul (text_back s) = false
  /\ (ends_with_nul s = true ->
      text_back s <> s
      /\ (forallb (fun c => negb (c =? 0x00A5)%N && negb (c =? 0x203E)%N) s = true ->
          text_back s = str_rstrip s))
  /\ (forall obj : bytes,
        ShiftJISString_decode obj = ShiftJIS.decode ShiftJIS.ignore (rstrip obj)
        /\ (exists k, obj = rstrip obj ++ zeros k)
        /\ (forall c, rstrip obj <> c ++ [x00]))
  /\ (forall (obj : bytes) (t : str),
        ShiftJIS.decode ShiftJIS.strict (rstrip obj) = Ok t ->
        ShiftJISString_decode obj = Ok t /\ ends_with_nul t = false).
Proof.
  intros H.
  destruct (ShiftJISString_encode_inv length s field H) as (encoded & He & _ & ->).
  split; [|split; [|split; [|split]]].
  - unfold ShiftJISString_decode. now apply text_rstrip.
  - apply str_rstrip_ends.
  - intros Hs. split.
    + intros E. apply (f_equal (@List.length N)) in E.
      unfold text_back in E. rewrite str_rstrip_map_read_back, length_map in E.
      pose proof (str_rstrip_shorter s Hs). lia.
    + intros Hc. unfold text_back. now rewrite (map_read_back_clean s Hc).
  - intros obj. split; [reflexivity|].
    split; [apply rstrip_zeros_inv|]. intros c. apply rstrip_last.
  - intros obj t Ht. split.
    + unfold ShiftJISString_decode. now apply decode_strict_ignore.
    + destruct (ends_with_nul t) eqn:Et; [|reflexivity].
      destruct (StrictFacts.decode_strict_ends (rstrip obj) t Ht Et) as [c Hc].
      now apply rstrip_last in Hc.
Qed.

(** The text "a.bin\x00" written to a field of 30 bytes. *)
Lemma trailing_nul_amended_witness :
  ShiftJISString_decode (written (ShiftJISString_encode 30 (lit "a.bin" ++ [0%N])))
  = Ok (text_back (lit "a.bin" ++ [0%N])).
Proof.
  refine (proj1 (trailing_nul_amended 30 (lit "a.bin" ++ [0%N])
                   (written (ShiftJISString_encode 30 (lit "a.bin" ++ [0%N]))) _)).
  vm_compute. reflexivity.
Defined.

(** * Further properties *)

(** ** Parsing any frame: the layout, slice by slice *)

Module FrameFacts.

Import Spec PyFacts CodecFacts ShiftJISFacts ConstructFacts ParserFacts BuildFacts.
Import Records Parser Wire.

Lemma stream_read_skipn (n start : nat) (data : bytes) :
  start + n <= List.length data ->
  stream_read n (skipn start data) = Ok (slice start n data, skipn (start + n) data).
Proof.
  intros H. unfold stream_read, slice.
  rewrite length_firstn, length_skipn, Nat.min_l by lia.
  rewrite Nat.eqb_refl, skipn_skipn. do 3 f_equal. lia.
Qed.

Lemma slice_length (start n : nat) (data : bytes) :
  start + n <= List.length data -> List.length (slice start n data) = n.
Proof.
  intros H. unfold slice. rewrite length_firstn, length_skipn. lia.
Qed.

Lemma ShiftJISString_decode_total (obj : bytes) :
  exists s, ShiftJISString_decode obj = Ok s.
Proof.
  destruct (decode_ignore_kept (rstrip obj)) as (s & _ & D & _). now exists s.
Qed.

Lemma ascii_decode_raises (b : bytes) (e : exn) :
  ascii_decode b = Raise e -> e = UnicodeDecodeError.
Proof.
  induction b as [|x b IH]; cbn [ascii_decode]; [discriminate|].
  destruct (Byte.to_N x <? 0x80)%N; [|now intros H; injection H].
  destruct (ascii_decode b); cbn; [discriminate|]. intros H. injection H as <-.
  now apply IH.
Qed.

(** The parsers of the fields, at an offset of a frame. *)
Lemma Const_parse_at (value : Z) (data : bytes) :
  1 <= List.length data ->
  Const_parse value (skipn 0 data)
  = if (unpack_le (slice 0 1 data) =? value)%Z
    then Ok (unpack_le (slice 0 1 data), skipn 1 data)
    else Raise ConstError.
Proof.
  intros H. unfold Const_parse, Int8ul_parse, FormatField_parse, pbind, pret, plift.
  rewrite stream_read_skipn by lia. cbn [Nat.add].
  now destruct (unpack_le (slice 0 1 data) =? value)%Z.
Qed.

Lemma FormatField_parse_at (w start : nat) (data : bytes) :
  start + w <= List.length data ->
  FormatField_parse w (skipn start data)
  = Ok (unpack_le (slice start w data), skipn (start + w) data).
Proof.
  intros H. unfold FormatField_parse, pbind, pret.
  now rewrite stream_read_skipn.
Qed.

Lemma ShiftJISString_parse_at (n start : nat) (data : bytes) :
  start + n <= List.length data ->
  ShiftJISString_parse n (skipn start data)
  = fmap (fun s => (s, skipn (start + n) data))
      (ShiftJISString_decode (slice start n data)).
Proof.
  intros H. unfold ShiftJISString_parse, Bytes_parse, pbind, plift.
  now rewrite stream_read_skipn.
Qed.

Lemma PaddedString_parse_at (n start : nat) (data : bytes) :
  start + n <= List.length data ->
  PaddedString_parse n (skipn start data)
  = fmap (fun s => (s, skipn (start + n) data))
      (ascii_decode (rstrip (slice start n data))).
Proof.
  intros H. unfold PaddedString_parse, pbind, plift.
  now rewrite stream_read_skipn.
Qed.

Lemma Padding_parse_at (n start : nat) (data : bytes) :
  start + n <= List.length data ->
  Padding_parse n (skipn start data) = Ok (tt, skipn (start + n) data).
Proof.
  intros H. unfold Padding_parse, pbind, pret.
  now rewrite stream_read_skipn.
Qed.

(** The three layouts on any 120 bytes: each field is decoded from its
    own slice, and the reserved tail is not looked at. *)
Lemma HeaderRecord_parse_slices (data : bytes) :
  List.length data = 120 ->
  HeaderRecord_parse data
  = if (unpack_le (slice 0 1 data) =? RECORD_TYPE_HEADER)%Z
    then
      file_name <- ShiftJISString_decode (slice 1 30 data) ;;
      creation_date <- ascii_decode (rstrip (slice 31 8 data)) ;;
      creation_time <- ascii_decode (rstrip (slice 39 6 data)) ;;
      version <- ascii_decode (rstrip (slice 49 10 data)) ;;
      Ok (Build_Header file_name creation_date creation_time
            (unpack_le (slice 45 4 data)) version)
    else Raise ConstError.
Proof.
  intros H. unfold HeaderRecord_parse, parse, HeaderRecord_parser.
  change data with (skipn 0 data) at 1.
  unfold pbind at 1. rewrite Const_parse_at by lia.
  destruct (unpack_le (slice 0 1 data) =? RECORD_TYPE_HEADER)%Z; [|reflexivity].
  unfold pbind at 1. rewrite ShiftJISString_parse_at by lia.
  destruct (ShiftJISString_decode (slice 1 30 data)); [|reflexivity].
  cbn [fmap bind Nat.add].
  unfold pbind at 1. rewrite (PaddedString_parse_at 8 31) by lia.
  destruct (ascii_decode (rstrip (slice 31 8 data))); [|reflexivity].
  cbn [fmap bind Nat.add].
  unfold pbind at 1. rewrite (PaddedString_parse_at 6 39) by lia.
  destruct (ascii_decode (rstrip (slice 39 6 data))); [|reflexivity].
  cbn [fmap bind Nat.add].
  unfold pbind at 1. unfold Int32ul_parse. rewrite (FormatField_parse_at 4 45) by lia.
  cbn [Nat.add].
  unfold pbind at 1. rewrite (PaddedString_parse_at 10 49) by lia.
  destruct (ascii_decode (rstrip (slice 49 10 data))); [|reflexivity].
  cbn [fmap bind Nat.add].
  unfold pbind at 1. rewrite (Padding_parse_at 61 59) by lia.
  reflexivity.
Qed.

Lemma DataRecord_parse_slices (data : bytes) :
  List.length data = 120 ->
  DataRecord_parse data
  = if (unpack_le (slice 0 1 data) =? RECORD_TYPE_DATA)%Z
    then
      name <- ShiftJISString_decode (slice 5 50 data) ;;
      timestamp <- ascii_decode (rstrip (slice 60 14 data)) ;;
      description <- ShiftJISString_decode (slice 74 40 data) ;;
      Ok (Build_Data (unpack_le (slice 1 4 data)) name
            (unpack_le (slice 55 4 data)) (unpack_le (slice 59 1 data))
            timestamp description)
    else Raise ConstError.
Proof.
  intros H. unfold DataRecord_parse, parse, DataRecord_parser.
  change data with (skipn 0 data) at 1.
  unfold pbind at 1. rewrite Const_parse_at by lia.
  destruct (unpack_le (slice 0 1 data) =? RECORD_TYPE_DATA)%Z; [|reflexivity].
  unfold Int32ul_parse, Int8ul_parse.
  unfold pbind at 1. rewrite (FormatField_parse_at 4 1) by lia. cbn [Nat.add].
  unfold pbind at 1. rewrite (ShiftJISString_parse_at 50 5) by lia.
  destruct (ShiftJISString_decode (slice 5 50 data)); [|reflexivity].
  cbn [fmap bind Nat.add].
  unfold pbind at 1. rewrite (FormatField_parse_at 4 55) by lia. cbn [Nat.add].
  unfold pbind at 1. rewrite (FormatField_parse_at 1 59) by lia. cbn [Nat.add].
  unfold pbind at 1. rewrite (PaddedString_parse_at 14 60) by lia.
  destruct (ascii_decode (rstrip (slice 60 14 data))); [|reflexivity].
  cbn [fmap bind Nat.add].
  unfold pbind at 1. rewrite (ShiftJISString_parse_at 40 74) by lia.
  destruct (ShiftJISString_decode (slice 74 40 data)); [|reflexivity].
  cbn [fmap bind Nat.add].
  unfold pbind at 1. rewrite (Padding_parse_at 6 114) by lia.
  reflexivity.
Qed.

Lemma TrailerRecord_parse_slices (data : bytes) :
  List.length data = 120 ->
  TrailerRecord_parse data
  = if (unpack_le (slice 0 1 data) =? RECORD_TYPE_TRAILER)%Z
    then
      Ok (Build_Trailer (unpack_le (slice 1 4 data))
            (unpack_le (slice 5 8 data)) (unpack_le (slice 13 4 data)))
    else Raise ConstError.
Proof.
  intros H. unfold TrailerRecord_parse, parse, TrailerRecord_parser.
  change data with (skipn 0 data) at 1.
  unfold pbind at 1. rewrite Const_parse_at by lia.
  destruct (unpack_le (slice 0 1 data) =? RECORD_TYPE_TRAILER)%Z; [|reflexivity].
  unfold Int32ul_parse, Int64ul_parse.
  unfold pbind at 1. rewrite (FormatField_parse_at 4 1) by lia. cbn [Nat.add].
  unfold pbind at 1. rewrite (FormatField_parse_at 8 5) by lia. cbn [Nat.add].
  unfold pbind at 1. rewrite (FormatField_parse_at 4 13) by lia. cbn [Nat.add].
  unfold pbind at 1. rewrite (Padding_parse_at 103 17) by lia.
  reflexivity.
Qed.

(** The first byte of a frame, as the dispatch and as the codecs read it. *)
Lemma first_byte (data : bytes) (b : byte) :
  hd_error data = Some b ->
  detect_record_type data = Some (Byte.to_N b)
  /\ unpack_le (slice 0 1 data) = Z.of_N (Byte.to_N b).
Proof.
  destruct data as [|x data]; [discriminate|]. intros H. injection H as ->.
  split; [reflexivity|]. unfold slice. cbn. lia.
Qed.

End FrameFacts.

(** ** The reader on any stream *)

Module StreamFacts.

Import Spec PyFacts CodecFacts ShiftJISFacts ConstructFacts ParserFacts BuildFacts.
Import FrameFacts Records Parser Wire.

Lemma parse_record_type (data : bytes) (p : parsed) (rec_type : string) :
  parse_record data = Ok (p, rec_type) -> rec_type = kind_name (kind_of p).
Proof.
  unfold parse_record.
  destruct (negb (List.length data =? RECORD_SIZE)%nat); [discriminate|].
  destruct (same_type (detect_record_type data) RECORD_TYPE_HEADER).
  { destruct (HeaderRecord_parse data); cbn [bind]; [|discriminate].
    intros H. now injection H as <- <-. }
  destruct (same_type (detect_record_type data) RECORD_TYPE_DATA).
  { destruct (DataRecord_parse data); cbn [bind]; [|discriminate].
    intros H. now injection H as <- <-. }
  destruct (same_type (detect_record_type data) RECORD_TYPE_TRAILER);
    [|discriminate].
  destruct (TrailerRecord_parse data); cbn [bind]; [|discriminate].
  intros H. now injection H as <- <-.
Qed.

Lemma slice_frame_head (frame rest : bytes) :
  List.length frame = 120 -> slice 0 120 (frame ++ rest) = frame.
Proof.
  intros H. unfold slice. cbn [skipn]. rewrite <- H at 1.
  now rewrite firstn_app, Nat.sub_diag, firstn_all, firstn_O, app_nil_r.
Qed.

Lemma slice_frame_tail (frame rest : bytes) (k : nat) :
  List.length frame = 120 ->
  slice (120 * S k) 120 (frame ++ rest) = slice (120 * k) 120 rest.
Proof.
  intros H. unfold slice. f_equal.
  rewrite skipn_app, H.
  replace (120 * S k - 120) with (120 * k) by lia.
  rewrite skipn_all2 by lia. reflexivity.
Qed.

Lemma split_frame (stream : bytes) :
  120 <= List.length stream ->
  exists frame rest,
    stream = frame ++ rest /\ List.length frame = 120
    /\ List.length rest = List.length stream - 120.
Proof.
  intros H. exists (firstn 120 stream), (skipn 120 stream).
  rewrite firstn_skipn, length_firstn, length_skipn. repeat split; lia.
Qed.

Ltac now_empty :=
  split; [reflexivity|]; split; [reflexivity|]; split; [reflexivity|];
  split; [constructor|];
  split; [intros k r Hk; destruct k; discriminate|reflexivity].

(** What the loop returns, when it returns. *)
Lemma parse_stream_loop_returns (stream : bytes) :
  forall (results : list record_info) (record_num : Z)
         (err : list stderr_line) (out : list record_info),
    parse_stream_loop stream results record_num = (err, Ok out) ->
    exists more,
      out = results ++ more
      /\ List.length more = List.length stream / 120
      /\ map record_number more = Generator.range_from record_num (List.length more)
      /\ Forall (fun r => record_type r = kind_name (kind_of (data r))) more
      /\ (forall k r, nth_error more k = Some r ->
            parse_record (slice (120 * k) 120 stream) = Ok (data r, record_type r))
      /\ err = (if (List.length stream mod 120 =? 0)%nat then []
                else [Warning_short (record_num + Z.of_nat (List.length more))
                        (List.length stream mod 120)]).
Proof.
  induction stream as [stream IH] using (induction_ltof1 _ (@List.length byte)).
  unfold ltof in IH. intros results num err out H.
  destruct stream as [|x stream'] eqn:Es.
  { rewrite parse_stream_loop_done in H. injection H as <- <-.
    exists []. rewrite app_nil_r. now_empty. }
  rewrite <- Es in *. assert (Hpos : 0 < List.length stream) by (subst; cbn; lia).
  clear Es x stream'.
  destruct (Nat.lt_ge_cases (List.length stream) 120) as [Hs|Hs].
  { rewrite parse_stream_loop_short in H by (unfold RECORD_SIZE; lia).
    injection H as <- <-. exists []. rewrite app_nil_r.
    rewrite Nat.div_small, Nat.mod_small by lia.
    destruct (Nat.eqb_spec (List.length stream) 0); [lia|].
    cbn [List.length]. rewrite Z.add_0_r. now_empty. }
  destruct (split_frame stream Hs) as (frame & rest & -> & Hf & Hr).
  rewrite length_app, Hf.
  destruct (parse_record frame) as [[p ty]|e] eqn:Hp.
  - rewrite (parse_stream_loop_frame frame rest results num p ty Hf Hp) in H.
    destruct (IH rest ltac:(rewrite length_app; lia) _ _ _ _ H)
      as (more & -> & Hl & Hn & Ht & Hk & He).
    exists (Build_record_info num ty p :: more).
    rewrite <- app_assoc. split; [reflexivity|].
    replace (120 + List.length rest) with (1 * 120 + List.length rest) by lia.
    rewrite Nat.div_add_l by lia.
    replace (1 * 120 + List.length rest) with (List.length rest + 1 * 120) by lia.
    rewrite Nat.Div0.mod_add.
    split; [cbn [List.length]; lia|].
    split; [cbn [map Generator.range_from List.length record_number]; now rewrite Hn|].
    split; [constructor; [cbn; now apply (parse_record_type frame)|exact Ht]|].
    split.
    + intros k r Hnth. destruct k as [|k].
      * injection Hnth as <-. rewrite Nat.mul_0_r, slice_frame_head by exact Hf.
        exact Hp.
      * rewrite slice_frame_tail by exact Hf. now apply Hk.
    + rewrite He. destruct (List.length rest mod 120 =? 0)%nat; [reflexivity|].
      cbn [List.length]. do 2 f_equal. lia.
  - rewrite (parse_stream_loop_failed frame rest results num e Hf Hp) in H.
    discriminate.
Qed.

(** Frames that parse, whatever they were written from, are passed over
    one by one. *)
Lemma parse_stream_loop_parsing (frames : list bytes) :
  Forall (fun f => List.length f = 120 /\ exists r, parse_record f = Ok r) frames ->
  forall (tail : bytes) (results : list record_info) (record_num : Z),
  exists more,
    List.length more = List.length frames
    /\ parse_stream_loop (concat frames ++ tail) results record_num
       = parse_stream_loop tail (results ++ more)
           (record_num + Z.of_nat (List.length frames)).
Proof.
  induction 1 as [|f frames [Hl [[p ty] Hp]] _ IH]; intros tail results num.
  - exists []. cbn [concat app List.length]. rewrite app_nil_r.
    split; [reflexivity|]. f_equal. cbn. lia.
  - cbn [concat]. rewrite <- app_assoc.
    rewrite (parse_stream_loop_frame f _ results num p ty Hl Hp).
    destruct (IH tail (results ++ [Build_record_info num ty p]) (num + 1)%Z)
      as (more & Hm & ->).
    exists (Build_record_info num ty p :: more).
    split; [cbn; now rewrite Hm|].
    rewrite <- app_assoc. cbn [app]. f_equal. cbn [List.length]. lia.
Qed.

(** *** Slices of a prefix *)

Lemma slice_firstn (start n m : nat) (data : bytes) :
  start + n <= m -> slice start n (firstn m data) = slice start n data.
Proof.
  intros H. unfold slice.
  rewrite skipn_firstn_comm, firstn_firstn. f_equal. lia.
Qed.

Lemma slices_agree (start n m : nat) (data data' : bytes) :
  start + n <= m -> firstn m data = firstn m data' ->
  slice start n data = slice start n data'.
Proof.
  intros H E.
  rewrite <- (slice_firstn start n m data H), E. now apply slice_firstn.
Qed.

End StreamFacts.

(** ** Writing what was read *)

Module RebuildFacts.

Import Spec PyFacts CodecFacts ShiftJISFacts ConstructFacts ParserFacts BuildFacts.
Import FrameFacts StreamFacts Records Parser Wire ShiftJIS.

Local Open Scope N_scope.

(** *** The decoder against the encoder *)

Lemma all_bytes_In (x : byte) : In x all_bytes.
Proof.
  unfold all_bytes. apply in_map_iff. exists (N.to_nat (Byte.to_N x)).
  split.
  - rewrite N2Nat.id. apply byte_of_N_to_N.
  - apply in_seq. pose proof (Byte.to_N_bounded x). lia.
Qed.

(** Every character that the decoder reads from two bytes is written back
    as those two bytes: checked on all the pairs. *)
Lemma pairs_sound :
  forallb (fun x => forallb (pair_ok x) all_bytes) all_bytes = true.
Proof. vm_compute. reflexivity. Qed.

Lemma decode_pair_encode (x y : byte) (ch : N) :
  is_lead (Byte.to_N x) = true ->
  decode_pair (Byte.to_N x) (Byte.to_N y) = Some ch ->
  encode_char ch = Some [x; y].
Proof.
  intros Hl Hd.
  pose proof (proj1 (forallb_forall _ _) pairs_sound x (all_bytes_In x)) as H.
  pose proof (proj1 (forallb_forall _ _) H y (all_bytes_In y)) as Hxy.
  unfold pair_ok in Hxy. rewrite Hl, Hd in Hxy.
  destruct (encode_char ch) as [[|a [|b [|? ?]]]|]; try discriminate.
  apply andb_prop in Hxy. destruct Hxy as [Ha Hb].
  apply Byte.byte_dec_bl in Ha, Hb. now subst.
Qed.

Lemma encode_char_single (x : byte) :
  (Byte.to_N x <? 0x80) = true -> encode_char (Byte.to_N x) = Some [x].
Proof.
  intros H. unfold encode_char. rewrite H. cbv beta iota. rewrite H.
  cbn [orb]. now rewrite byte_of_N_to_N.
Qed.

Lemma encode_char_kana (x : byte) :
  (0xA1 <=? Byte.to_N x) && (Byte.to_N x <=? 0xDF) = true ->
  encode_char (0xFEC0 + Byte.to_N x) = Some [x].
Proof.
  intros H. pose proof H as H0. apply andb_prop in H0. destruct H0 as [Ha Hb].
  apply N.leb_le in Ha, Hb. unfold encode_char.
  assert (E1 : (0xFEC0 + Byte.to_N x <? 0x80) = false) by (apply N.ltb_ge; lia).
  assert (E2 : (0xFEC0 + Byte.to_N x =? 0xA5) = false) by (apply N.eqb_neq; lia).
  assert (E3 : (0xFEC0 + Byte.to_N x =? 0x203E) = false) by (apply N.eqb_neq; lia).
  assert (E4 : (0xFF61 <=? 0xFEC0 + Byte.to_N x) = true) by (apply N.leb_le; lia).
  assert (E5 : (0xFEC0 + Byte.to_N x <=? 0xFF9F) = true) by (apply N.leb_le; lia).
  assert (E6 : (Byte.to_N x <? 0x80) = false) by (apply N.ltb_ge; lia).
  rewrite E1, E2, E3, E4, E5. cbn [andb]. cbv beta iota.
  replace (0xFEC0 + Byte.to_N x - 0xFEC0) with (Byte.to_N x) by lia.
  rewrite E6, H. cbn [orb]. now rewrite byte_of_N_to_N.
Qed.

(** The strict decoder is undone by the encoder. *)
Lemma decode_strict_encode (b : bytes) :
  forall s, decode strict b = Ok s -> encode s = Ok b.
Proof.
  induction b as [b IH] using (induction_ltof1 _ (@List.length byte)).
  unfold ltof in IH. intros s H.
  destruct b as [|x rest]; [injection H as <-; reflexivity|].
  cbn [decode] in H.
  destruct (Byte.to_N x <? 0x80) eqn:H1.
  { apply fmap_Ok_inv in H. destruct H as (s1 & Hd & ->).
    cbn [encode]. rewrite (encode_char_single x H1).
    now rewrite (IH rest ltac:(cbn; lia) s1 Hd). }
  destruct ((0xA1 <=? Byte.to_N x) && (Byte.to_N x <=? 0xDF)) eqn:H2.
  { apply fmap_Ok_inv in H. destruct H as (s1 & Hd & ->).
    cbn [encode]. rewrite (encode_char_kana x H2).
    now rewrite (IH rest ltac:(cbn; lia) s1 Hd). }
  destruct (is_lead (Byte.to_N x)) eqn:H3; [|discriminate].
  destruct rest as [|y rest']; [discriminate|].
  destruct (decode_pair (Byte.to_N x) (Byte.to_N y)) as [ch|] eqn:H4; [|discriminate].
  apply fmap_Ok_inv in H. destruct H as (s1 & Hd & ->).
  cbn [encode]. rewrite (decode_pair_encode x y ch H3 H4).
  now rewrite (IH rest' ltac:(cbn; lia) s1 Hd).
Qed.

Lemma subsequence_length {A} (l1 l2 : list A) :
  subsequence l1 l2 -> (List.length l1 <= List.length l2)%nat.
Proof. induction 1; cbn; lia. Qed.

Lemma rstrip_length (b : bytes) : (List.length (rstrip b) <= List.length b)%nat.
Proof.
  destruct (rstrip_zeros_inv b) as [k Hk]. rewrite Hk at 2.
  rewrite length_app. lia.
Qed.

(** A text read from a field fits a field of the same size. *)
Lemma decoded_fits (obj : bytes) (s : str) :
  ShiftJISString_decode obj = Ok s -> fits (List.length obj) s = true.
Proof.
  intros H. unfold ShiftJISString_decode in H.
  destruct (decode_ignore_kept (rstrip obj)) as (s' & kept & D & S & T).
  rewrite H in D. injection D as <-.
  unfold fits. rewrite (decode_strict_encode kept s T).
  apply Nat.leb_le. pose proof (subsequence_length _ _ S).
  pose proof (rstrip_length obj). lia.
Qed.

Lemma ascii_decode_encode (b : bytes) (s : str) :
  ascii_decode b = Ok s -> ascii_encode s = Ok b.
Proof.
  revert s. induction b as [|x b IH]; cbn [ascii_decode]; intros s H.
  - now injection H as <-.
  - destruct (Byte.to_N x <? 0x80) eqn:Hx; [|discriminate].
    apply fmap_Ok_inv in H. destruct H as (s1 & H & ->).
    cbn [ascii_encode]. rewrite Hx, (IH s1 H). cbn.
    now rewrite byte_of_N_to_N.
Qed.

Lemma ascii_decoded_fits (obj : bytes) (s : str) :
  ascii_decode (rstrip obj) = Ok s -> ascii_fits (List.length obj) s = true.
Proof.
  intros H. unfold ascii_fits. rewrite (ascii_decode_encode _ _ H).
  apply Nat.leb_le. apply rstrip_length.
Qed.

Local Close Scope N_scope.

(** *** Integers *)

Lemma unpack_le_bounds (data : bytes) :
  (0 <= unpack_le data < 2 ^ (8 * Z.of_nat (List.length data)))%Z.
Proof.
  induction data as [|x data IH]; [cbn; lia|].
  cbn [unpack_le List.length].
  replace (8 * Z.of_nat (S (List.length data)))%Z
    with (8 + 8 * Z.of_nat (List.length data))%Z by lia.
  rewrite Z.pow_add_r by lia. change (2 ^ 8)%Z with 256%Z.
  pose proof (Byte.to_N_bounded x). lia.
Qed.

Lemma unpacked_uint (w : nat) (data : bytes) :
  List.length data = w -> uint (8 * Z.of_nat w) (unpack_le data) = true.
Proof.
  intros <-. apply GeneratorFacts.uint_true. apply unpack_le_bounds.
Qed.

End RebuildFacts.

(** ** Records that were read, written again *)

Module RecordFacts.

Import Spec PyFacts CodecFacts ShiftJISFacts ConstructFacts ParserFacts BuildFacts.
Import FrameFacts StreamFacts RebuildFacts Records Parser Wire.

(** *** Writing the record that is read back gives the same frame *)

Lemma zeros_app (a b : nat) : zeros a ++ zeros b = zeros (a + b).
Proof. unfold zeros. now rewrite repeat_app. Qed.

Lemma encode_char_read_back (c : N) (bs : bytes) :
  ShiftJIS.encode_char c = Some bs -> ShiftJIS.encode_char (read_back c) = Some bs.
Proof.
  unfold read_back.
  destruct (N.eqb_spec c 0xA5) as [->|_].
  { intros H. vm_compute in H. injection H as <-. reflexivity. }
  destruct (N.eqb_spec c 0x203E) as [->|_]; [|auto].
  intros H. vm_compute in H. injection H as <-. reflexivity.
Qed.

Lemma encode_read_back (s : str) (e : bytes) :
  ShiftJIS.encode s = Ok e -> ShiftJIS.encode (map read_back s) = Ok e.
Proof.
  revert e. induction s as [|c s IH]; intros e H; [exact H|].
  cbn [ShiftJIS.encode map] in *.
  destruct (ShiftJIS.encode_char c) as [bc|] eqn:Ec; [|discriminate].
  rewrite (encode_char_read_back c bc Ec).
  apply fmap_Ok_inv in H. destruct H as (e0 & H & ->).
  now rewrite (IH e0 H).
Qed.

Lemma encode_text_back (s : str) (e : bytes) :
  ShiftJIS.encode s = Ok e ->
  exists k, ShiftJIS.encode (text_back s) = Ok (rstrip e) /\ e = rstrip e ++ zeros k.
Proof.
  intros H. destruct (rstrip_zeros_inv e) as [k Hk]. exists k.
  split; [|exact Hk]. unfold text_back.
  rewrite <- (app_nil_r e). change (@nil byte) with (zeros 0).
  apply (charwise_rstrip ShiftJIS.encode ShiftJIS.encode_char UnicodeEncodeError);
    auto.
  - apply encode_char_last.
  - now apply encode_read_back.
Qed.

Lemma ShiftJISString_build_back (n : nat) (s : str) (b : bytes) :
  ShiftJISString_build n s = Ok b -> ShiftJISString_build n (text_back s) = Ok b.
Proof.
  unfold ShiftJISString_build. intros H.
  destruct (ShiftJISString_encode n s) as [field|] eqn:E; [|discriminate].
  cbn [bind] in H.
  destruct (ShiftJISString_encode_inv n s field E) as (e & He & Hn & ->).
  destruct (encode_text_back s e He) as (k & Hb & Hk).
  assert (Hlen : List.length e = List.length (rstrip e) + k).
  { rewrite Hk at 1. now rewrite length_app, zeros_length. }
  assert (E' : ShiftJISString_encode n (text_back s)
               = Ok (e ++ zeros (n - List.length e))).
  { unfold ShiftJISString_encode. rewrite Hb. cbn [bind].
    destruct (Nat.ltb_spec n (List.length (rstrip e))); [lia|].
    f_equal. unfold ljust.
    transitivity ((rstrip e ++ zeros k) ++ zeros (n - List.length e));
      [|now rewrite <- Hk].
    rewrite <- app_assoc, zeros_app. unfold zeros. do 2 f_equal. lia. }
  rewrite E'. exact H.
Qed.

Lemma ascii_encode_back (s : str) (e : bytes) :
  ascii_encode s = Ok e ->
  exists k, ascii_encode (ascii_back s) = Ok (rstrip e) /\ e = rstrip e ++ zeros k.
Proof.
  intros H. destruct (rstrip_zeros_inv e) as [k Hk]. exists k.
  split; [|exact Hk]. unfold ascii_back.
  rewrite <- (app_nil_r e). change (@nil byte) with (zeros 0).
  apply (charwise_rstrip ascii_encode
           (fun c => if (c <? 0x80)%N then Some [byte_of_N c] else None)
           UnicodeEncodeError); auto.
  - intros c rest. simpl. destruct (c <? 0x80)%N; reflexivity.
  - intros c b0 Hb Hc. destruct (N.ltb_spec c 0x80) as [Hlt|]; [|discriminate].
    injection Hb as <-. exists [], (byte_of_N c). split; [reflexivity|].
    intros E. apply byte_of_N_nul in E; lia.
Qed.

Lemma PaddedString_build_back (n : nat) (s : str) (b : bytes) :
  PaddedString_build n s = Ok b -> PaddedString_build n (ascii_back s) = Ok b.
Proof.
  unfold PaddedString_build.
  destruct (ascii_encode s) as [e|] eqn:He; [|discriminate]. cbn [bind].
  destruct (Nat.ltb_spec n (List.length e)) as [|Hn]; [discriminate|].
  intros H. injection H as <-.
  destruct (ascii_encode_back s e He) as (k & Hb & Hk).
  rewrite Hb. cbn [bind]. pose proof (rstrip_length e).
  destruct (Nat.ltb_spec n (List.length (rstrip e))); [lia|].
  f_equal.
  assert (Hlen : List.length e = List.length (rstrip e) + k).
  { rewrite Hk at 1. now rewrite length_app, zeros_length. }
  transitivity ((rstrip e ++ zeros k) ++ zeros (n - List.length e));
    [|now rewrite <- Hk].
  rewrite <- app_assoc, zeros_app. unfold zeros. do 2 f_equal. lia.
Qed.

Lemma encode_back (r : parsed) (frame : bytes) :
  encode r = Ok frame -> encode (back r) = Ok frame.
Proof.
  destruct r as [v|v|v]; cbn [encode back]; [| |auto].
  - unfold HeaderRecord_build, Header_back.
    cbn [file_name creation_date creation_time total_records version].
    intros H. repeat bind_inv H.
    rewrite (ShiftJISString_build_back _ _ _ E0).
    rewrite (PaddedString_build_back _ _ _ E1), (PaddedString_build_back _ _ _ E2).
    rewrite (PaddedString_build_back _ _ _ E4). exact H.
  - unfold DataRecord_build, Data_back.
    cbn [record_id name value status timestamp description].
    intros H. repeat bind_inv H.
    rewrite (ShiftJISString_build_back _ _ _ E1).
    rewrite (PaddedString_build_back _ _ _ E4).
    rewrite (ShiftJISString_build_back _ _ _ E5). exact H.
Qed.

(** *** Every record that is read can be written *)

Lemma Data_encode_ok (v : Data) :
  uint 32 (record_id v) = true -> fits 50 (name v) = true ->
  uint 32 (value v) = true -> uint 8 (status v) = true ->
  ascii_fits 14 (timestamp v) = true -> fits 40 (description v) = true ->
  exists frame, DataRecord_build v = Ok frame.
Proof.
  intros H1 H2 H3 H4 H5 H6. unfold DataRecord_build.
  unfold Int32ul_build, Int8ul_build.
  rewrite (FormatField_build_ok 4 _ H1).
  destruct (ShiftJISString_build_ok _ _ H2) as [b2 ->].
  rewrite (FormatField_build_ok 4 _ H3), (FormatField_build_ok 1 _ H4).
  destruct (PaddedString_build_ok _ _ H5) as [b5 ->].
  destruct (ShiftJISString_build_ok _ _ H6) as [b6 ->].
  change (Const_build RECORD_TYPE_DATA) with (Ok (A:=bytes) [x02]).
  cbn [bind Padding_build]. eauto.
Qed.

Ltac slice_fits :=
  match goal with
  | H : ShiftJISString_decode (slice ?a ?n ?d) = Ok ?s |- fits ?n ?s = true =>
      rewrite <- (slice_length a n d) at 1 by lia; exact (decoded_fits _ _ H)
  | H : ascii_decode (rstrip (slice ?a ?n ?d)) = Ok ?s |- ascii_fits ?n ?s = true =>
      rewrite <- (slice_length a n d) at 1 by lia; exact (ascii_decoded_fits _ _ H)
  | |- uint 32 (unpack_le (slice ?a 4 ?d)) = true =>
      apply (unpacked_uint 4); apply slice_length; lia
  | |- uint 64 (unpack_le (slice ?a 8 ?d)) = true =>
      apply (unpacked_uint 8); apply slice_length; lia
  | |- uint 8 (unpack_le (slice ?a 1 ?d)) = true =>
      apply (unpacked_uint 1); apply slice_length; lia
  end.

Ltac split_andb :=
  repeat match goal with
         | |- (_ && _) = true => apply andb_true_intro; split
         end.

Lemma parsed_encodes (data : bytes) (r : parsed) (rec_type : string) :
  parse_record data = Ok (r, rec_type) -> exists frame, encode r = Ok frame.
Proof.
  unfold parse_record.
  destruct (Nat.eqb_spec (List.length data) RECORD_SIZE) as [Hl|]; [|discriminate].
  unfold RECORD_SIZE in Hl. cbn [negb].
  destruct (same_type (detect_record_type data) RECORD_TYPE_HEADER).
  { rewrite (HeaderRecord_parse_slices data Hl).
    destruct (unpack_le (slice 0 1 data) =? RECORD_TYPE_HEADER)%Z; [|discriminate].
    intros H. bind_inv H. injection H as <- _. rename E into H.
    repeat bind_inv H. injection H as <-.
    apply valid_encode. cbn [valid file_name creation_date creation_time
                             total_records version].
    split_andb; slice_fits. }
  destruct (same_type (detect_record_type data) RECORD_TYPE_DATA).
  { rewrite (DataRecord_parse_slices data Hl).
    destruct (unpack_le (slice 0 1 data) =? RECORD_TYPE_DATA)%Z; [|discriminate].
    intros H. bind_inv H. injection H as <- _. rename E into H.
    repeat bind_inv H. injection H as <-.
    cbn [encode]. apply Data_encode_ok;
      cbn [record_id name value status timestamp description]; slice_fits. }
  destruct (same_type (detect_record_type data) RECORD_TYPE_TRAILER); [|discriminate].
  rewrite (TrailerRecord_parse_slices data Hl).
  destruct (unpack_le (slice 0 1 data) =? RECORD_TYPE_TRAILER)%Z; [|discriminate].
  cbn [bind]. intros H. injection H as <- _.
  apply valid_encode. cbn [valid data_record_count total_value_sum checksum].
  split_andb; slice_fits.
Qed.

End RecordFacts.

(** ** A whole run of the generator *)

Module RunFacts.

Import Spec PyFacts CodecFacts ShiftJISFacts ConstructFacts ParserFacts BuildFacts.
Import GeneratorFacts Records Parser Generator Samples.

(** *** The two sums *)

Lemma fold_sum (k : nat) :
  forall (a acc : Z),
    (2 * fold_left Z.add (range_from a k) acc
     = 2 * acc + Z.of_nat k * (2 * a + Z.of_nat k - 1))%Z.
Proof.
  induction k as [|k IH]; intros a acc.
  - cbn. lia.
  - cbn [range_from fold_left]. rewrite IH, Nat2Z.inj_succ. nia.
Qed.

Lemma checksum_formula (n : Z) :
  (0 <= n)%Z -> sum (range 1 (n + 1)) = (n * (n + 1) / 2)%Z.
Proof.
  intros Hn. unfold sum, range.
  pose proof (fold_sum (Z.to_nat (n + 1 - 1)) 1 0) as H.
  rewrite Z2Nat.id in H by lia.
  replace (n * (n + 1))%Z
    with (fold_left Z.add (range_from 1 (Z.to_nat (n + 1 - 1))) 0 * 2)%Z by nia.
  now rewrite Z.div_mul by lia.
Qed.

Lemma checksum_fits (n : Z) :
  (0 <= n <= 92681)%Z -> uint 32 (n * (n + 1) / 2) = true.
Proof.
  intros Hn. apply uint_true. change (2 ^ 32)%Z with 4294967296%Z. split.
  - apply Z.div_pos; nia.
  - apply Z.div_lt_upper_bound; nia.
Qed.

Lemma checksum_overflows (n : Z) :
  (92682 <= n)%Z -> uint 32 (n * (n + 1) / 2) = false.
Proof.
  intros Hn. unfold uint. apply andb_false_intro2. apply Z.ltb_ge.
  change (2 ^ 32)%Z with 4294967296%Z. apply Z.div_le_lower_bound; nia.
Qed.

(** *** The records of the run are valid and are read back unchanged *)

Lemma digit_nonzero (n : Z) : (digit n =? 0)%N = false.
Proof. apply N.eqb_neq. unfold digit. lia. Qed.

Lemma sample_names_clean : forallb text_clean sample_names = true.
Proof. vm_compute. reflexivity. Qed.

Lemma sample_descriptions_clean : forallb text_clean sample_descriptions = true.
Proof. vm_compute. reflexivity. Qed.

Lemma strftime_Ymd_clean (now : datetime) : ascii_clean (strftime_Ymd now) = true.
Proof.
  unfold ascii_clean, ends_with_nul, strftime_Ymd, digits4, digits2.
  cbn [app rev]. now rewrite digit_nonzero.
Qed.

Lemma strftime_HMS_clean (now : datetime) : ascii_clean (strftime_HMS now) = true.
Proof.
  unfold ascii_clean, ends_with_nul, strftime_HMS, digits2.
  cbn [app rev]. now rewrite digit_nonzero.
Qed.

Lemma strftime_YmdHMS_clean (now : datetime) :
  ascii_clean (strftime_YmdHMS now) = true.
Proof.
  unfold ascii_clean, ends_with_nul, strftime_YmdHMS, strftime_Ymd,
    strftime_HMS, digits4, digits2.
  cbn [app rev]. now rewrite digit_nonzero.
Qed.

Lemma sample_data_valid (clock : nat -> datetime) (i : Z) :
  (0 <= i)%Z -> ((i + 1) * 1000 < 4294967296)%Z ->
  valid (Parsed_Data (sample_data clock i)) = true.
Proof.
  intros H0 H1.
  cbn [valid sample_data record_id name value status timestamp description].
  rewrite strftime_YmdHMS_fits.
  rewrite (proj1 (forallb_forall _ _) sample_names_fit _
             (cycle_In sample_names i ltac:(discriminate))).
  rewrite (proj1 (forallb_forall _ _) sample_descriptions_fit _
             (cycle_In sample_descriptions i ltac:(discriminate))).
  rewrite !uint_true by (change (2 ^ 32)%Z with 4294967296%Z; lia).
  now destruct (negb (i mod 3 =? 0)%Z).
Qed.

Lemma sample_data_clean (clock : nat -> datetime) (i : Z) :
  clean (Parsed_Data (sample_data clock i)) = true.
Proof.
  cbn [clean sample_data name timestamp description].
  rewrite strftime_YmdHMS_clean.
  rewrite (proj1 (forallb_forall _ _) sample_names_clean _
             (cycle_In sample_names i ltac:(discriminate))).
  now rewrite (proj1 (forallb_forall _ _) sample_descriptions_clean _
                 (cycle_In sample_descriptions i ltac:(discriminate))).
Qed.

Lemma sample_header_valid (clock : nat -> datetime) (n : Z) :
  (0 <= 1 + n + 1 < 4294967296)%Z ->
  valid (Parsed_Header (sample_header clock n)) = true.
Proof.
  intros Hn.
  cbn [valid sample_header file_name creation_date creation_time
       total_records version].
  rewrite strftime_Ymd_fits, strftime_HMS_fits.
  rewrite uint_true by (change (2 ^ 32)%Z with 4294967296%Z; lia).
  vm_compute. reflexivity.
Qed.

Lemma sample_header_clean (clock : nat -> datetime) (n : Z) :
  clean (Parsed_Header (sample_header clock n)) = true.
Proof.
  cbn [clean sample_header file_name creation_date creation_time version].
  rewrite strftime_Ymd_clean, strftime_HMS_clean. vm_compute. reflexivity.
Qed.

Lemma sample_trailer_valid (n : Z) :
  (0 <= n <= 92681)%Z -> valid (Parsed_Trailer (sample_trailer n)) = true.
Proof.
  intros Hn.
  cbn [valid sample_trailer data_record_count total_value_sum checksum].
  rewrite (checksum_fits n Hn).
  rewrite !uint_true; [reflexivity| |].
  - change (2 ^ 64)%Z with 18446744073709551616%Z. nia.
  - change (2 ^ 32)%Z with 4294967296%Z. lia.
Qed.

Lemma sample_records_clean (clock : nat -> datetime) (n : Z) :
  map back (sample_records clock n) = sample_records clock n.
Proof.
  unfold sample_records. cbn [map]. rewrite map_app, map_map. cbn [map].
  rewrite (clean_back _ (sample_header_clean clock n)). do 2 f_equal.
  apply map_ext. intros i. apply clean_back, sample_data_clean.
Qed.

(** *** The loop over the data records *)

Lemma data_loop_spec (clock : nat -> datetime) (count : nat) :
  forall (i : Z) (data_records : list bytes) (total_value_sum : Z),
    (0 <= i)%Z -> ((i + Z.of_nat count) * 1000 < 4294967296)%Z ->
    exists frames,
      data_loop clock i count data_records total_value_sum
      = Ok (data_records ++ frames,
            (total_value_sum
             + 500 * Z.of_nat count * (2 * i + Z.of_nat count + 1))%Z)
      /\ Forall2 (fun r frame => encode r = Ok frame)
           (map (fun j => Parsed_Data (sample_data clock j)) (range_from i count))
           frames.
Proof.
  induction count as [|count IH]; intros i rs tvs H0 H1.
  - exists []. rewrite app_nil_r. split; [|constructor].
    cbn [data_loop]. do 2 f_equal. cbn. lia.
  - cbn [data_loop range_from map].
    change (create_data_record (clock (Z.to_nat i)) (i + 1) (cycle sample_names i)
              ((i + 1) * 1000) (if negb (i mod 3 =? 0)%Z then 1%Z else 0%Z)
              (cycle sample_descriptions i))
      with (DataRecord_build (sample_data clock i)).
    destruct (valid_encode _ (sample_data_valid clock i H0 ltac:(lia))) as [f Hf].
    cbn [encode] in Hf. rewrite Hf. cbn [bind].
    destruct (IH (i + 1)%Z (rs ++ [f]) (tvs + (i + 1) * 1000)%Z
                ltac:(lia) ltac:(lia)) as (frames & -> & HF).
    exists (f :: frames). rewrite <- app_assoc. split.
    + cbn [app]. do 2 f_equal. rewrite Nat2Z.inj_succ. nia.
    + constructor; [exact Hf|exact HF].
Qed.

Lemma create_trailer_record_fails (n total_value_sum checksum : Z) :
  uint 32 checksum = false ->
  create_trailer_record n total_value_sum checksum = Raise FormatFieldError.
Proof.
  intros Hc. unfold create_trailer_record, TrailerRecord_build.
  cbn [data_record_count Records.total_value_sum Records.checksum].
  change (Const_build RECORD_TYPE_TRAILER) with (Ok (A:=bytes) [x08]).
  cbn [bind]. unfold Int32ul_build, Int64ul_build.
  unfold FormatField_build at 1.
  destruct ((0 <=? n)%Z && (n <? 2 ^ (8 * Z.of_nat 4))%Z); [|reflexivity].
  cbn [bind]. unfold FormatField_build at 1.
  destruct ((0 <=? total_value_sum)%Z
            && (total_value_sum <? 2 ^ (8 * Z.of_nat 8))%Z); [|reflexivity].
  cbn [bind]. unfold FormatField_build. unfold uint in Hc.
  change (8 * Z.of_nat 4)%Z with 32%Z. now rewrite Hc.
Qed.

(** *** The three outcomes of [generate_sample_data] *)

(** Up to 92681 data records everything is written. *)
Lemma generate_sample_data_ok (clock : nat -> datetime) (n : Z) :
  (0 <= n <= 92681)%Z ->
  exists frames,
    generate_sample_data clock n = (concat frames, Ok tt)
    /\ Forall2 (fun r frame => encode r = Ok frame) (sample_records clock n) frames.
Proof.
  intros Hn. unfold generate_sample_data.
  destruct (data_loop_spec clock (Z.to_nat n) 0 [] 0 ltac:(lia)
              ltac:(rewrite Z2Nat.id; lia)) as (fds & -> & HF).
  change (create_header_record (clock (Z.to_nat n)) (lit "sample_data.bin")
            (1 + n + 1) (lit "1.0"))
    with (HeaderRecord_build (sample_header clock n)).
  destruct (valid_encode _ (sample_header_valid clock n ltac:(lia))) as [fh Hh].
  cbn [encode] in Hh. rewrite Hh.
  rewrite (checksum_formula n) by lia.
  replace (0 + 500 * Z.of_nat (Z.to_nat n) * (2 * 0 + Z.of_nat (Z.to_nat n) + 1))%Z
    with (500 * n * (n + 1))%Z by (rewrite Z2Nat.id; lia).
  change (create_trailer_record n (500 * n * (n + 1)) (n * (n + 1) / 2))
    with (TrailerRecord_build (sample_trailer n)).
  destruct (valid_encode _ (sample_trailer_valid n Hn)) as [ft Ht].
  cbn [encode] in Ht. rewrite Ht.
  exists (fh :: fds ++ [ft]). split.
  - cbn [app concat]. rewrite concat_app. cbn [concat].
    now rewrite app_nil_r, <- app_assoc.
  - unfold sample_records, range. rewrite Z.sub_0_r.
    constructor; [exact Hh|].
    apply Forall2_app; [exact HF|]. constructor; [exact Ht|constructor].
Qed.

(** From 92682 data records on, it raises. *)
Lemma generate_sample_data_raises (clock : nat -> datetime) (n : Z) :
  (92682 <= n)%Z -> exists e, snd (generate_sample_data clock n) = Raise e.
Proof.
  intros Hn. unfold generate_sample_data.
  destruct (data_loop clock 0 (Z.to_nat n) [] 0) as [[rs tvs]|e]; [|now exists e].
  destruct (create_header_record _ _ _ _) as [header|e]; [|now exists e].
  rewrite create_trailer_record_fails; [now exists FormatFieldError|].
  rewrite (checksum_formula n) by lia. now apply checksum_overflows.
Qed.

(** Between 92682 and 4294966 data records, the header and the data
    records are written before the trailer fails. *)
Lemma generate_sample_data_partial (clock : nat -> datetime) (n : Z) :
  (92682 <= n <= 4294966)%Z ->
  exists frames,
    generate_sample_data clock n = (concat frames, Raise FormatFieldError)
    /\ Forall2 (fun r frame => encode r = Ok frame)
         (Parsed_Header (sample_header clock n)
          :: map (fun i => Parsed_Data (sample_data clock i)) (range 0 n))
         frames.
Proof.
  intros Hn. unfold generate_sample_data.
  destruct (data_loop_spec clock (Z.to_nat n) 0 [] 0 ltac:(lia)
              ltac:(rewrite Z2Nat.id; lia)) as (fds & -> & HF).
  change (create_header_record (clock (Z.to_nat n)) (lit "sample_data.bin")
            (1 + n + 1) (lit "1.0"))
    with (HeaderRecord_build (sample_header clock n)).
  destruct (valid_encode _ (sample_header_valid clock n ltac:(lia))) as [fh Hh].
  cbn [encode] in Hh. rewrite Hh.
  rewrite create_trailer_record_fails.
  - exists (fh :: fds). split; [reflexivity|].
    unfold range. rewrite Z.sub_0_r. constructor; [exact Hh|exact HF].
  - rewrite (checksum_formula n) by lia. apply checksum_overflows. lia.
Qed.

End RunFacts.

(** ** Failures of the reader, and the counts of the summary *)

Module ReaderFacts.

Import Spec PyFacts CodecFacts ShiftJISFacts ConstructFacts ParserFacts BuildFacts.
Import FrameFacts StreamFacts Records Parser Wire.

(** What the loop has done, when it raises. *)
Lemma parse_stream_loop_raises (stream : bytes) :
  forall (results : list record_info) (record_num : Z)
         (err : list stderr_line) (e : exn),
    parse_stream_loop stream results record_num = (err, Raise e) ->
    exists k,
      120 * (k + 1) <= List.length stream
      /\ err = [Error_record (record_num + Z.of_nat k) e]
      /\ parse_record (slice (120 * k) 120 stream) = Raise e
      /\ (forall j, j < k ->
            exists r, parse_record (slice (120 * j) 120 stream) = Ok r).
Proof.
  induction stream as [stream IH] using (induction_ltof1 _ (@List.length byte)).
  unfold ltof in IH. intros results num err e H.
  destruct (Nat.eq_dec (List.length stream) 0) as [H0|H0].
  { destruct stream; [|discriminate].
    rewrite parse_stream_loop_done in H. discriminate. }
  destruct (Nat.lt_ge_cases (List.length stream) 120) as [Hs|Hs].
  { rewrite parse_stream_loop_short in H by (unfold RECORD_SIZE; lia).
    discriminate. }
  destruct (split_frame stream Hs) as (frame & rest & -> & Hf & Hr).
  destruct (parse_record frame) as [[p ty]|e'] eqn:Hp.
  - rewrite (parse_stream_loop_frame frame rest results num p ty Hf Hp) in H.
    destruct (IH rest ltac:(rewrite length_app; lia) _ _ _ _ H)
      as (k & Hk & -> & Hbad & Hok).
    exists (S k). rewrite length_app, Hf.
    split; [lia|]. split; [do 2 f_equal; lia|].
    split; [now rewrite slice_frame_tail by exact Hf|].
    intros j Hj. destruct j as [|j].
    + rewrite Nat.mul_0_r, slice_frame_head by exact Hf. now exists (p, ty).
    + rewrite slice_frame_tail by exact Hf. apply Hok. lia.
  - rewrite (parse_stream_loop_failed frame rest results num e' Hf Hp) in H.
    injection H as <- <-. exists 0. rewrite length_app, Hf.
    split; [lia|]. split; [do 2 f_equal; lia|].
    split; [now rewrite slice_frame_head|]. intros j Hj. lia.
Qed.

(** Every entry is of one of the three types. *)
Lemma count_types (results : list record_info) :
  Forall (fun r => record_type r = kind_name (kind_of (data r))) results ->
  count_type "HEADER" results + count_type "DATA" results
  + count_type "TRAILER" results = List.length results.
Proof.
  unfold count_type. induction 1 as [|r results Hr _ IH]; [reflexivity|].
  cbn [filter List.length]. rewrite Hr.
  destruct (kind_of (data r)); cbn [kind_name String.eqb Ascii.eqb Bool.eqb andb];
    cbn; lia.
Qed.

End ReaderFacts.

(** ** The generator's output as the parser's input *)

Module PipeFacts.

Import Spec PyFacts CodecFacts ShiftJISFacts ConstructFacts ParserFacts BuildFacts.
Import GeneratorFacts RunFacts.
Import Records Parser Generator Samples.

Lemma count_type_tagged (t : string) (rs : list parsed) :
  forall record_num,
    count_type t (tagged record_num rs)
    = List.length (filter (fun r => String.eqb (kind_name (kind_of r)) t) rs).
Proof.
  unfold count_type. induction rs as [|r rs IH]; intros k; [reflexivity|].
  cbn [tagged filter record_type].
  destruct (String.eqb (kind_name (kind_of r)) t); cbn [List.length];
    now rewrite IH.
Qed.

Lemma filter_data (t : string) (f : Z -> Data) (l : list Z) :
  List.length (filter (fun r => String.eqb (kind_name (kind_of r)) t)
                 (map (fun i => Parsed_Data (f i)) l))
  = if String.eqb "DATA" t then List.length l else 0.
Proof.
  induction l as [|i l IH]; [now destruct (String.eqb "DATA" t)|].
  cbn [map filter kind_of kind_name].
  destruct (String.eqb "DATA" t); cbn [List.length]; now rewrite IH.
Qed.

Lemma range_from_length (start : Z) (count : nat) :
  List.length (range_from start count) = count.
Proof.
  revert start. induction count as [|k IH]; intros s; simpl; auto.
Qed.

Lemma range_length (n : Z) : List.length (range 0 n) = Z.to_nat n.
Proof. unfold range. now rewrite Z.sub_0_r, range_from_length. Qed.

Lemma sample_records_length (clock : nat -> datetime) (n : Z) :
  List.length (sample_records clock n) = Z.to_nat n + 2.
Proof.
  unfold sample_records. cbn [List.length].
  rewrite length_app, length_map, range_length. cbn [List.length]. lia.
Qed.

Lemma sample_records_counts (clock : nat -> datetime) (n : Z) (record_num : Z) :
  count_type "HEADER" (tagged record_num (sample_records clock n)) = 1
  /\ count_type "DATA" (tagged record_num (sample_records clock n)) = Z.to_nat n
  /\ count_type "TRAILER" (tagged record_num (sample_records clock n)) = 1.
Proof.
  rewrite !count_type_tagged. unfold sample_records.
  cbn [filter kind_of kind_name]. rewrite !filter_app.
  cbn [filter kind_of kind_name String.eqb Ascii.eqb Bool.eqb].
  cbn [List.length]. rewrite !length_app, !filter_data, range_length.
  cbn. split; [|split]; lia.
Qed.

(** The parser on the frames of records that are read back unchanged. *)
Lemma parse_stream_frames (rs : list parsed) (frames : list bytes) :
  Forall2 (fun r frame => encode r = Ok frame) rs frames ->
  map back rs = rs ->
  parse_stream (concat frames) = ([], Ok (tagged 1 rs)).
Proof.
  intros F B. unfold parse_stream.
  rewrite <- (app_nil_r (concat frames)).
  rewrite (parse_stream_loop_frames rs frames F), B.
  apply parse_stream_loop_done.
Qed.

Lemma map_back_prefix (l1 l2 : list parsed) :
  map back (l1 ++ l2) = l1 ++ l2 -> map back l1 = l1.
Proof.
  intros H. apply (f_equal (firstn (List.length l1))) in H.
  rewrite map_app, !firstn_app, length_map, Nat.sub_diag in H.
  cbn [firstn] in H. rewrite !app_nil_r in H.
  rewrite !firstn_all2 in H by (rewrite ?length_map; lia).
  exact H.
Qed.

Lemma sample_prefix_clean (clock : nat -> datetime) (n : Z) :
  map back (Parsed_Header (sample_header clock n)
            :: map (fun i => Parsed_Data (sample_data clock i)) (range 0 n))
  = Parsed_Header (sample_header clock n)
    :: map (fun i => Parsed_Data (sample_data clock i)) (range 0 n).
Proof.
  apply (map_back_prefix _ [Parsed_Trailer (sample_trailer n)]).
  exact (sample_records_clean clock n).
Qed.

End PipeFacts.

(** ** The details of a format string *)

Module DetailsFacts.

Import StructSize FormatDetails Listing.

Lemma isdecimal_isdigit (c : ascii) : isdecimal c = true -> isdigit c = true.
Proof.
  unfold isdecimal, isdigit. cbv zeta. intros ->. reflexivity.
Qed.

Lemma fold_decimal_nonneg (count : list ascii) :
  forall acc : Z,
    (0 <= acc)%Z ->
    (0 <= fold_left (fun acc c => 10 * acc + Z.of_N (N_of_ascii c - 48))
            count acc)%Z.
Proof.
  induction count as [|c count IH]; intros acc H; cbn [fold_left]; [exact H|].
  apply IH. lia.
Qed.

Lemma int_nonneg (max_str_digits : nat) (count : list ascii) (n : Z) :
  int max_str_digits count = Some n -> (0 <= n)%Z.
Proof.
  unfold int. destruct (forallb isdecimal count); [|discriminate].
  destruct (_ && _); [discriminate|]. intros [= <-].
  apply fold_decimal_nonneg. lia.
Qed.

(** [int] fails on a superscript and on a count longer than the limit,
    and on nothing else. *)
Lemma int_None (max_str_digits : nat) (count : list ascii) :
  int max_str_digits count = None <->
  forallb isdecimal count = false
  \/ 0 < max_str_digits < List.length count.
Proof.
  unfold int. destruct (forallb isdecimal count).
  - destruct (Nat.ltb_spec 0 max_str_digits);
      destruct (Nat.ltb_spec max_str_digits (List.length count)); cbn [andb];
      split; try discriminate; auto; intros [H'|H']; try discriminate; lia.
  - split; auto.
Qed.

Section Loop.

Variable max_str_digits : nat.

Lemma composition_described (format_body : list ascii) :
  forall count, Forall described (fst (composition max_str_digits format_body count)).
Proof.
  induction format_body as [|c rest IH]; intros count; cbn [composition].
  - constructor.
  - destruct (isdigit c); [apply IH|].
    destruct (match count with [] => Some 1%Z | _ => int max_str_digits count end)
      as [repeat|] eqn:E; [|constructor].
    specialize (IH []).
    destruct (composition max_str_digits rest []) as [out r]. cbn [fst] in *.
    constructor; [|exact IH]. split; [|reflexivity].
    destruct count; [injection E as <-; lia|].
    exact (int_nonneg _ _ _ E).
Qed.

Lemma composition_chars (format_body : list ascii) :
  forall count out,
    composition max_str_digits format_body count = (out, None) ->
    chars_of out = filter plain format_body.
Proof.
  induction format_body as [|c rest IH]; intros count out; cbn [composition filter].
  - now intros [= <-].
  - unfold plain at 1. destruct (isdigit c); cbn [negb]; [apply IH|].
    destruct (match count with [] => Some 1%Z | _ => int max_str_digits count end)
      as [repeat|]; [|discriminate].
    specialize (IH []).
    destruct (composition max_str_digits rest []) as [out' r].
    intros [= <- ->]. cbn [chars_of flat_map app]. f_equal. now apply IH.
Qed.

Lemma composition_trailing (format_body digits : list ascii) :
  forallb isdigit digits = true ->
  forall count,
    composition max_str_digits (format_body ++ digits) count
    = composition max_str_digits format_body count.
Proof.
  intros D. induction format_body as [|c rest IH]; intros count; cbn [app].
  - revert count. induction digits as [|d digits IHd]; intros count; [reflexivity|].
    cbn [forallb] in D. apply andb_prop in D as [D1 D2].
    cbn [composition]. rewrite D1. now apply IHd.
  - cbn [composition]. destruct (isdigit c); [apply IH|].
    destruct (match count with [] => Some 1%Z | _ => int max_str_digits count end);
      [|reflexivity].
    now rewrite IH.
Qed.

Lemma filter_plain_digits (count : list ascii) :
  forallb isdigit count = true -> filter plain count = [].
Proof.
  induction count as [|d count IH]; [reflexivity|].
  cbn [forallb filter]. intros H. apply andb_prop in H as [H1 H2].
  unfold plain at 1. rewrite H1. cbn [negb]. auto.
Qed.

(** Where the loop stops when [int] raises: at a character after a count
    that [int] does not read. *)
Lemma composition_raised (format_body : list ascii) :
  forall count out e,
    forallb isdigit count = true ->
    composition max_str_digits format_body count = (out, Some e) ->
    exists before digits c rest,
      e = Raised_int digits
      /\ count ++ format_body = before ++ digits ++ c :: rest
      /\ digits <> []
      /\ forallb isdigit digits = true
      /\ plain c = true
      /\ int max_str_digits digits = None
      /\ chars_of out = filter plain before.
Proof.
  induction format_body as [|c rest IH]; intros count out e D; cbn [composition].
  - discriminate.
  - destruct (isdigit c) eqn:Ec.
    + intros H. apply IH in H.
      * destruct H as (before & digits & c' & rest' & H).
        exists before, digits, c', rest'. now rewrite <- app_assoc in H.
      * rewrite forallb_app, D. cbn [forallb]. now rewrite Ec.
    + destruct (match count with [] => Some 1%Z | _ => int max_str_digits count end)
        as [repeat|] eqn:E.
      * specialize (IH []).
        destruct (composition max_str_digits rest []) as [out' r].
        intros [= <- ->].
        destruct (IH out' e eq_refl eq_refl)
          as (before & digits & c' & rest' & -> & Hb & Hd & Hf & Hc & Hi & Ho).
        cbn [app] in Hb.
        exists (count ++ c :: before), digits, c', rest'.
        repeat (split; [assumption || reflexivity|]). split.
        { now rewrite Hb, <- app_assoc. }
        repeat (split; [assumption|]).
        rewrite filter_app, (filter_plain_digits count D). cbn [app filter].
        unfold plain at 1. rewrite Ec. cbn [negb chars_of flat_map app].
        f_equal. exact Ho.
      * intros [= <- <-]. destruct count as [|d count]; [discriminate|].
        exists [], (d :: count), c, rest.
        repeat split; auto; try discriminate.
        unfold plain. now rewrite Ec.
Qed.

Lemma composition_modest (format_body : list ascii) :
  forall count,
    forallb (fun c => isdecimal c || plain c) format_body = true ->
    forallb isdecimal count = true ->
    max_str_digits = 0 \/ List.length count + List.length format_body <= max_str_digits ->
    snd (composition max_str_digits format_body count) = None.
Proof.
  induction format_body as [|c rest IH]; intros count F D L; [reflexivity|].
  cbn [composition forallb List.length] in *. apply andb_prop in F as [Fc F].
  destruct (isdigit c) eqn:Ec.
  - apply IH; [exact F| |rewrite length_app; cbn [List.length]; lia].
    rewrite forallb_app, D. cbn [forallb]. unfold plain in Fc. rewrite Ec in Fc.
    cbn [negb] in Fc. rewrite orb_false_r in Fc. now rewrite Fc.
  - assert (E : exists repeat,
               match count with [] => Some 1%Z | _ => int max_str_digits count end
               = Some repeat).
    { destruct count as [|d count]; [now exists 1%Z|].
      destruct (int max_str_digits (d :: count)) as [n|] eqn:E; [now exists n|].
      apply int_None in E. destruct E as [E|E]; [congruence|lia]. }
    destruct E as [repeat ->].
    specialize (IH [] F eq_refl). cbn [List.length] in IH.
    destruct (composition max_str_digits rest []) as [out r]. cbn [snd] in *.
    apply IH. lia.
Qed.

End Loop.

Lemma get_In {A} (m : list (ascii * A)) (k : ascii) (default : A) :
  contains m k = true -> In (k, get m k default) m.
Proof.
  unfold contains, get. induction m as [|[k' v] m IH]; cbn [existsb find fst];
    [discriminate|].
  destruct (Ascii.eqb k' k) eqn:E.
  - apply Ascii.eqb_eq in E. subst k'. intros _. now left.
  - cbn [orb]. intros H. right. now apply IH.
Qed.

End DetailsFacts.

(** ** The parser on frames and streams of any content *)

Import FrameFacts StreamFacts RebuildFacts RecordFacts RunFacts ReaderFacts.
Import Wire Samples.

(** X1.  When [parse_stream] returns, it has returned one entry for each
    whole 120 bytes of the stream, numbered from 1 in order, each being
    what [parse_record] gives on its own 120 bytes; and it has printed
    nothing if the length of the stream is a multiple of 120, and otherwise
    the one warning that names the record after the last whole one and the
    number of bytes left over. *)
Theorem stream_shape (stream : bytes) (err : list stderr_line)
    (results : list record_info) :
  parse_stream stream = (err, Ok results) ->
  List.length results = List.length stream / 120
  /\ map record_number results
     = Generator.range 1 (Z.of_nat (List.length results) + 1)
  /\ (forall k r, nth_error results k = Some r ->
        parse_record (slice (120 * k) 120 stream) = Ok (data r, record_type r))
  /\ err = (if (List.length stream mod 120 =? 0)%nat then []
            else [Warning_short (Z.of_nat (List.length stream / 120) + 1)
                    (List.length stream mod 120)]).
Proof.
  intros H.
  destruct (parse_stream_loop_returns stream [] 1%Z err results H)
    as (more & -> & Hl & Hn & _ & Hk & He).
  cbn [app]. split; [exact Hl|]. split; [|split; [exact Hk|]].
  - rewrite Hn. unfold Generator.range. f_equal. lia.
  - rewrite He, Hl. destruct (List.length stream mod 120 =? 0)%nat; [reflexivity|].
    do 2 f_equal. lia.
Qed.

(** A header frame followed by seven zero bytes. *)
Lemma stream_shape_witness :
  List.length (tagged 1 [Parsed_Header header_sample])
  = List.length (frame_header ++ zeros 7) / 120.
Proof.
  refine (proj1 (stream_shape (frame_header ++ zeros 7) [Warning_short 2 7]
                   (tagged 1 [Parsed_Header header_sample]) _)).
  vm_compute. reflexivity.
Defined.

(** X2.  When [parse_stream] raises, it has printed exactly one line, the
    error of the first frame that [parse_record] refuses, with the number
    of that frame counted from 1, and it raises the exception of that
    frame; every frame before it had parsed, and the entries built from
    them are lost with the exception. *)
Theorem stream_failure (stream : bytes) (err : list stderr_line) (e : exn) :
  parse_stream stream = (err, Raise e) ->
  exists k : nat,
    120 * (k + 1) <= List.length stream
    /\ err = [Error_record (Z.of_nat k + 1) e]
    /\ parse_record (slice (120 * k) 120 stream) = Raise e
    /\ (forall j, j < k ->
          exists r, parse_record (slice (120 * j) 120 stream) = Ok r).
Proof.
  intros H.
  destruct (parse_stream_loop_raises stream [] 1%Z err e H)
    as (k & Hk & -> & Hbad & Hok).
  exists k. split; [exact Hk|]. split; [do 2 f_equal; lia|]. auto.
Qed.

(** A header frame, then a frame that starts with 5, then a data frame. *)
Lemma stream_failure_witness :
  exists k : nat,
    120 * (k + 1) <= List.length (frame_header ++ frame_5 ++ frame_data)
    /\ [Error_record 2 (ValueError (UnknownRecordType 5))]
       = [Error_record (Z.of_nat k + 1) (ValueError (UnknownRecordType 5))]
    /\ parse_record (slice (120 * k) 120 (frame_header ++ frame_5 ++ frame_data))
       = Raise (ValueError (UnknownRecordType 5))
    /\ (forall j, j < k ->
          exists r,
            parse_record (slice (120 * j) 120 (frame_header ++ frame_5 ++ frame_data))
            = Ok r).
Proof.
  apply (stream_failure (frame_header ++ frame_5 ++ frame_data)
           [Error_record 2 (ValueError (UnknownRecordType 5))]
           (ValueError (UnknownRecordType 5))).
  vm_compute. reflexivity.
Defined.

(** X3.  The reader stops at the first frame that does not parse: after
    any frames that parse, a frame that [parse_record] refuses makes
    [parse_stream] print the error with the number of that frame and raise
    its exception, whatever bytes follow it. *)
Theorem fail_fast (frames : list bytes) (bad rest : bytes) (e : exn) :
  Forall (fun f => List.length f = 120 /\ exists r, parse_record f = Ok r) frames ->
  List.length bad = 120 ->
  parse_record bad = Raise e ->
  parse_stream (concat frames ++ bad ++ rest)
  = ([Error_record (Z.of_nat (List.length frames) + 1) e], Raise e).
Proof.
  intros Hf Hl Hb. unfold parse_stream.
  destruct (parse_stream_loop_parsing frames Hf (bad ++ rest) [] 1%Z)
    as (more & _ & ->).
  rewrite (parse_stream_loop_failed bad rest _ _ e Hl Hb).
  do 3 f_equal. lia.
Qed.

Lemma fail_fast_witness :
  parse_stream (concat [frame_header; frame_data] ++ frame_5 ++ frame_trailer)
  = ([Error_record 3 (ValueError (UnknownRecordType 5))],
     Raise (ValueError (UnknownRecordType 5))).
Proof.
  apply (fail_fast [frame_header; frame_data] frame_5 frame_trailer
           (ValueError (UnknownRecordType 5))).
  - repeat constructor; try reflexivity; eexists; vm_compute; reflexivity.
  - reflexivity.
  - reflexivity.
Defined.

(** X4.  [parse_record] fails in three ways only: with the [ValueError] of
    a wrong size when the data are not 120 bytes (the empty data
    included); with the [ValueError] of an unknown type when they are and
    the first byte is none of 1, 2 and 8; and with the error of decoding
    an ASCII field ([UnicodeDecodeError], or the [StringError] that wraps
    it) only for 120 bytes that start with 1 or 2, a header or a data
    record.  The [ConstError] and the [StreamError] of the codecs never
    leave it. *)
Theorem parse_record_errors (data : bytes) (e : exn) :
  parse_record data = Raise e ->
  (List.length data <> 120 /\ e = ValueError (BadRecordSize (List.length data)))
  \/ (List.length data = 120
      /\ exists b,
           hd_error data = Some b
           /\ Byte.to_N b <> 1%N /\ Byte.to_N b <> 2%N /\ Byte.to_N b <> 8%N
           /\ e = ValueError (UnknownRecordType (Byte.to_N b)))
  \/ (List.length data = 120
      /\ (hd_error data = Some x01 \/ hd_error data = Some x02)
      /\ e = UnicodeDecodeError).
Proof.
  unfold parse_record.
  destruct (Nat.eqb_spec (List.length data) RECORD_SIZE) as [Hl|Hl];
    cbn [negb]; unfold RECORD_SIZE in Hl.
  2:{ intros H. injection H as <-. left. auto. }
  destruct data as [|b data']; [discriminate|].
  remember (b :: data') as data eqn:Ed.
  assert (Hh : hd_error data = Some b) by now subst.
  destruct (first_byte data b Hh) as [Hd Hu]. rewrite Hd.
  unfold same_type, RECORD_TYPE_HEADER, RECORD_TYPE_DATA, RECORD_TYPE_TRAILER.
  destruct (Z.eqb_spec (Z.of_N (Byte.to_N b)) 1) as [H1|H1].
  { rewrite (HeaderRecord_parse_slices data Hl), Hu.
    unfold RECORD_TYPE_HEADER. rewrite H1. cbn [Z.eqb Pos.eqb].
    assert (Hb : b = x01).
    { rewrite <- (byte_of_N_to_N b). replace (Byte.to_N b) with 1%N by lia.
      reflexivity. }
    destruct (ShiftJISString_decode_total (slice 1 30 data)) as [s ->]. cbn [bind].
    intros H. right. right. split; [exact Hl|]. split; [left; now rewrite Hh, Hb|].
    repeat match type of H with
           | bind (bind (ascii_decode ?x) _) _ = Raise _ =>
               let E := fresh "E" in
               destruct (ascii_decode x) eqn:E; cbn [bind] in H;
               [|injection H as <-; now apply ascii_decode_raises in E]
           end.
    discriminate. }
  destruct (Z.eqb_spec (Z.of_N (Byte.to_N b)) 2) as [H2|H2].
  { rewrite (DataRecord_parse_slices data Hl), Hu.
    unfold RECORD_TYPE_DATA. rewrite H2. cbn [Z.eqb Pos.eqb].
    assert (Hb : b = x02).
    { rewrite <- (byte_of_N_to_N b). replace (Byte.to_N b) with 2%N by lia.
      reflexivity. }
    destruct (ShiftJISString_decode_total (slice 5 50 data)) as [s ->]. cbn [bind].
    destruct (ShiftJISString_decode_total (slice 74 40 data)) as [s' ->].
    intros H. right. right. split; [exact Hl|]. split; [right; now rewrite Hh, Hb|].
    destruct (ascii_decode (rstrip (slice 60 14 data))) eqn:E; cbn [bind] in H;
      [discriminate|].
    injection H as <-. now apply ascii_decode_raises in E. }
  destruct (Z.eqb_spec (Z.of_N (Byte.to_N b)) 8) as [H8|H8].
  { rewrite (TrailerRecord_parse_slices data Hl), Hu.
    unfold RECORD_TYPE_TRAILER. rewrite H8. cbn [Z.eqb Pos.eqb bind]. discriminate. }
  intros H. injection H as <-. right. left. split; [exact Hl|].
  exists b. repeat split; auto; lia.
Qed.

Lemma parse_record_errors_witness :
  (List.length (zeros 7) <> 120
   /\ ValueError (BadRecordSize 7) = ValueError (BadRecordSize (List.length (zeros 7))))
  \/ (List.length (zeros 7) = 120
      /\ exists b,
           hd_error (zeros 7) = Some b
           /\ Byte.to_N b <> 1%N /\ Byte.to_N b <> 2%N /\ Byte.to_N b <> 8%N
           /\ ValueError (BadRecordSize 7) = ValueError (UnknownRecordType (Byte.to_N b)))
  \/ (List.length (zeros 7) = 120
      /\ (hd_error (zeros 7) = Some x01 \/ hd_error (zeros 7) = Some x02)
      /\ ValueError (BadRecordSize 7) = UnicodeDecodeError).
Proof.
  apply (parse_record_errors (zeros 7) (ValueError (BadRecordSize 7))).
  reflexivity.
Defined.

(** X5.  Every 120 bytes that start with the byte 8 parse as a trailer,
    whatever the other bytes: the count is read from the bytes 1 to 4, the
    sum from the bytes 5 to 12 and the checksum from the bytes 13 to 16,
    all little-endian. *)
Theorem trailer_always_parses (data : bytes) :
  List.length data = 120 ->
  hd_error data = Some x08 ->
  parse_record data
  = Ok (Parsed_Trailer {|
          data_record_count := unpack_le (slice 1 4 data);
          total_value_sum := unpack_le (slice 5 8 data);
          checksum := unpack_le (slice 13 4 data)
        |}, "TRAILER"%string).
Proof.
  intros Hl Hh. destruct (first_byte data x08 Hh) as [Hd Hu].
  unfold parse_record. rewrite Hl, Hd.
  change (negb (120 =? RECORD_SIZE)%nat) with false. cbv iota.
  change (same_type (Some (Byte.to_N x08)) RECORD_TYPE_HEADER) with false.
  change (same_type (Some (Byte.to_N x08)) RECORD_TYPE_DATA) with false.
  change (same_type (Some (Byte.to_N x08)) RECORD_TYPE_TRAILER) with true.
  cbv iota. rewrite (TrailerRecord_parse_slices data Hl), Hu. reflexivity.
Qed.

Lemma trailer_always_parses_witness :
  parse_record (x08 :: repeat xff 119)
  = Ok (Parsed_Trailer {|
          data_record_count := unpack_le (slice 1 4 (x08 :: repeat xff 119));
          total_value_sum := unpack_le (slice 5 8 (x08 :: repeat xff 119));
          checksum := unpack_le (slice 13 4 (x08 :: repeat xff 119))
        |}, "TRAILER"%string).
Proof.
  apply (trailer_always_parses (x08 :: repeat xff 119)); reflexivity.
Defined.

(** X6.  The reserved tail of a frame is never looked at: two frames of 120
    bytes that agree before the tail (on the first 59 bytes of a header,
    114 of a data record, 17 of a trailer) give the same result of
    [parse_record], error or record. *)
Theorem reserved_ignored (data data' : bytes) (b : byte) :
  List.length data = 120 ->
  List.length data' = 120 ->
  hd_error data = Some b ->
  firstn (payload (Byte.to_N b)) data = firstn (payload (Byte.to_N b)) data' ->
  parse_record data = parse_record data'.
Proof.
  intros Hl Hl' Hh E.
  assert (Hh' : hd_error data' = Some b).
  { destruct data as [|x d]; [discriminate|]. destruct data' as [|x' d'];
      [discriminate|]. injection Hh as ->.
    assert (P : payload (Byte.to_N b) = S (pred (payload (Byte.to_N b)))).
    { unfold payload. repeat match goal with |- context [if ?c then _ else _] =>
                               destruct c end; reflexivity. }
    rewrite P in E. cbn [firstn] in E. now injection E as ->. }
  destruct (first_byte data b Hh) as [Hd Hu].
  destruct (first_byte data' b Hh') as [Hd' Hu'].
  unfold parse_record. rewrite Hl, Hl', Hd, Hd'.
  change (negb (120 =? RECORD_SIZE)%nat) with false. cbv iota.
  unfold same_type, RECORD_TYPE_HEADER, RECORD_TYPE_DATA, RECORD_TYPE_TRAILER.
  unfold payload in E.
  destruct (Z.eqb_spec (Z.of_N (Byte.to_N b)) 1) as [H1|H1].
  { replace (Byte.to_N b =? 1)%N with true in E by (symmetry; apply N.eqb_eq; lia).
    rewrite (HeaderRecord_parse_slices data Hl), (HeaderRecord_parse_slices data' Hl').
    rewrite (slices_agree 0 1 59 data data'), (slices_agree 1 30 59 data data'),
      (slices_agree 31 8 59 data data'), (slices_agree 39 6 59 data data'),
      (slices_agree 45 4 59 data data'), (slices_agree 49 10 59 data data')
      by (lia || exact E).
    reflexivity. }
  destruct (Z.eqb_spec (Z.of_N (Byte.to_N b)) 2) as [H2|H2].
  { replace (Byte.to_N b =? 1)%N with false in E by (symmetry; apply N.eqb_neq; lia).
    replace (Byte.to_N b =? 2)%N with true in E by (symmetry; apply N.eqb_eq; lia).
    rewrite (DataRecord_parse_slices data Hl), (DataRecord_parse_slices data' Hl').
    rewrite (slices_agree 0 1 114 data data'), (slices_agree 1 4 114 data data'),
      (slices_agree 5 50 114 data data'), (slices_agree 55 4 114 data data'),
      (slices_agree 59 1 114 data data'), (slices_agree 60 14 114 data data'),
      (slices_agree 74 40 114 data data') by (lia || exact E).
    reflexivity. }
  destruct (Z.eqb_spec (Z.of_N (Byte.to_N b)) 8) as [H8|H8]; [|reflexivity].
  replace (Byte.to_N b =? 1)%N with false in E by (symmetry; apply N.eqb_neq; lia).
  replace (Byte.to_N b =? 2)%N with false in E by (symmetry; apply N.eqb_neq; lia).
  replace (Byte.to_N b =? 8)%N with true in E by (symmetry; apply N.eqb_eq; lia).
  rewrite (TrailerRecord_parse_slices data Hl), (TrailerRecord_parse_slices data' Hl').
  rewrite (slices_agree 0 1 17 data data'), (slices_agree 1 4 17 data data'),
    (slices_agree 5 8 17 data data'), (slices_agree 13 4 17 data data')
    by (lia || exact E).
  reflexivity.
Qed.

(** The frame of the scenario, and the same with its tail set to 0xFF. *)
Lemma reserved_ignored_witness :
  parse_record frame_data = parse_record (firstn 114 frame_data ++ repeat xff 6).
Proof.
  apply (reserved_ignored frame_data (firstn 114 frame_data ++ repeat xff 6) x02);
    vm_compute; reflexivity.
Defined.

(** ** Frames that were written, and records that were read *)

(** X7.  The layout of a written frame.  In the frame of a header the
    file name is at the bytes 1 to 30, the date at 31 to 38, the time at 39
    to 44, the number of records at 45 to 48 and the version at 49 to 58;
    in the frame of a data record the identifier is at the bytes 1 to 4,
    the name at 5 to 54, the value at 55 to 58, the status at 59, the
    timestamp at 60 to 73 and the description at 74 to 113; in the frame
    of a trailer the count is at 1 to 4, the sum at 5 to 12 and the
    checksum at 13 to 16.  Integers are little-endian, and each text is
    what its slice alone decodes to. *)
Theorem written_layout (r : parsed) (frame : bytes) :
  encode r = Ok frame ->
  match r with
  | Parsed_Header v =>
      hd_error frame = Some x01
      /\ ShiftJISString_decode (slice 1 30 frame) = Ok (text_back (file_name v))
      /\ ascii_decode (rstrip (slice 31 8 frame)) = Ok (ascii_back (creation_date v))
      /\ ascii_decode (rstrip (slice 39 6 frame)) = Ok (ascii_back (creation_time v))
      /\ unpack_le (slice 45 4 frame) = total_records v
      /\ ascii_decode (rstrip (slice 49 10 frame)) = Ok (ascii_back (version v))
  | Parsed_Data v =>
      hd_error frame = Some x02
      /\ unpack_le (slice 1 4 frame) = record_id v
      /\ ShiftJISString_decode (slice 5 50 frame) = Ok (text_back (name v))
      /\ unpack_le (slice 55 4 frame) = value v
      /\ unpack_le (slice 59 1 frame) = status v
      /\ ascii_decode (rstrip (slice 60 14 frame)) = Ok (ascii_back (timestamp v))
      /\ ShiftJISString_decode (slice 74 40 frame) = Ok (text_back (description v))
  | Parsed_Trailer v =>
      hd_error frame = Some x08
      /\ unpack_le (slice 1 4 frame) = data_record_count v
      /\ unpack_le (slice 5 8 frame) = total_value_sum v
      /\ unpack_le (slice 13 4 frame) = checksum v
  end.
Proof.
  intros H. destruct r as [v|v|v]; cbn [encode] in H.
  - destruct (HeaderRecord_round_trip v frame [] H) as (Hl & _ & Hh & Hp).
    rewrite app_nil_r in Hp.
    assert (Hd : HeaderRecord_parse frame = Ok (Header_back v)).
    { unfold HeaderRecord_parse, parse. now rewrite Hp. }
    rewrite (HeaderRecord_parse_slices frame Hl) in Hd.
    destruct (unpack_le (slice 0 1 frame) =? RECORD_TYPE_HEADER)%Z; [|discriminate].
    repeat bind_inv Hd. injection Hd as -> -> -> -> ->. repeat split; auto.
  - destruct (DataRecord_round_trip v frame [] H) as (Hl & _ & Hh & Hp).
    rewrite app_nil_r in Hp.
    assert (Hd : DataRecord_parse frame = Ok (Data_back v)).
    { unfold DataRecord_parse, parse. now rewrite Hp. }
    rewrite (DataRecord_parse_slices frame Hl) in Hd.
    destruct (unpack_le (slice 0 1 frame) =? RECORD_TYPE_DATA)%Z; [|discriminate].
    repeat bind_inv Hd. injection Hd as -> -> -> -> -> ->. repeat split; auto.
  - destruct (TrailerRecord_round_trip v frame [] H) as (Hl & _ & Hh & Hp).
    rewrite app_nil_r in Hp.
    assert (Hd : TrailerRecord_parse frame = Ok v).
    { unfold TrailerRecord_parse, parse. now rewrite Hp. }
    rewrite (TrailerRecord_parse_slices frame Hl) in Hd.
    destruct (unpack_le (slice 0 1 frame) =? RECORD_TYPE_TRAILER)%Z; [|discriminate].
    injection Hd as <-. repeat split; auto.
Qed.

Lemma written_layout_witness :
  hd_error frame_data = Some x02
  /\ unpack_le (slice 1 4 frame_data) = record_id data_scenario
  /\ ShiftJISString_decode (slice 5 50 frame_data)
     = Ok (text_back (name data_scenario))
  /\ unpack_le (slice 55 4 frame_data) = value data_scenario
  /\ unpack_le (slice 59 1 frame_data) = status data_scenario
  /\ ascii_decode (rstrip (slice 60 14 frame_data))
     = Ok (ascii_back (timestamp data_scenario))
  /\ ShiftJISString_decode (slice 74 40 frame_data)
     = Ok (text_back (description data_scenario)).
Proof.
  apply (written_layout (Parsed_Data data_scenario) frame_data).
  vm_compute. reflexivity.
Defined.

(** X8.  Writing the record that was read back from a frame gives that
    frame again, byte for byte; so reading back is idempotent. *)
Theorem rewrite_same_frame (r : parsed) (frame : bytes) :
  encode r = Ok frame ->
  encode (back r) = Ok frame /\ back (back r) = back r.
Proof.
  intros H. pose proof (encode_back r frame H) as Hb. split; [exact Hb|].
  destruct (encode_round_trip r frame H) as (_ & _ & _ & Hp).
  destruct (encode_round_trip (back r) frame Hb) as (_ & _ & _ & Hp').
  rewrite Hp in Hp'. now injection Hp'.
Qed.

Lemma rewrite_same_frame_witness :
  encode (back (Parsed_Header header_nul))
  = Ok (written (HeaderRecord_build header_nul))
  /\ back (back (Parsed_Header header_nul)) = back (Parsed_Header header_nul).
Proof.
  apply (rewrite_same_frame (Parsed_Header header_nul)
           (written (HeaderRecord_build header_nul))).
  vm_compute. reflexivity.
Defined.

(** X9.  Every record that [parse_record] returns can be written: its
    texts fit their fields and its integers their widths, whatever frame
    it was read from; and the frame that is written is read as the record
    that is read back from it, with the same type. *)
Theorem read_then_write (data : bytes) (r : parsed) (rec_type : string) :
  parse_record data = Ok (r, rec_type) ->
  exists frame,
    encode r = Ok frame
    /\ List.length frame = 120
    /\ parse_record frame = Ok (back r, rec_type).
Proof.
  intros H. destruct (parsed_encodes data r rec_type H) as [frame Hf].
  exists frame. destruct (encode_round_trip r frame Hf) as (Hl & _ & _ & Hp).
  rewrite (parse_record_type data r rec_type H). auto.
Qed.

(** The 120 bytes 08 ff ... ff. *)
Lemma read_then_write_witness :
  exists frame,
    encode (Parsed_Trailer {|
              data_record_count := unpack_le (slice 1 4 (x08 :: repeat xff 119));
              total_value_sum := unpack_le (slice 5 8 (x08 :: repeat xff 119));
              checksum := unpack_le (slice 13 4 (x08 :: repeat xff 119)) |})
    = Ok frame
    /\ List.length frame = 120
    /\ parse_record frame
       = Ok (back (Parsed_Trailer {|
                     data_record_count := unpack_le (slice 1 4 (x08 :: repeat xff 119));
                     total_value_sum := unpack_le (slice 5 8 (x08 :: repeat xff 119));
                     checksum := unpack_le (slice 13 4 (x08 :: repeat xff 119)) |}),
             "TRAILER"%string).
Proof.
  apply (read_then_write (x08 :: repeat xff 119)). vm_compute. reflexivity.
Defined.

(** X10.  A frame tells its record: two records that are written to the
    same frame are of the same kind and are read back as the same record;
    so two valid records without U+0000 at the end of a text and without
    U+00A5 and U+203E that are written to the same frame are equal. *)
Theorem frames_identify_records (r1 r2 : parsed) (frame : bytes) :
  encode r1 = Ok frame ->
  encode r2 = Ok frame ->
  kind_of r1 = kind_of r2
  /\ back r1 = back r2
  /\ (clean r1 = true -> clean r2 = true -> r1 = r2).
Proof.
  intros H1 H2.
  destruct (encode_round_trip r1 frame H1) as (_ & _ & _ & P1).
  destruct (encode_round_trip r2 frame H2) as (_ & _ & _ & P2).
  rewrite P1 in P2. injection P2 as Hb _.
  split; [|split; [exact Hb|]].
  - now rewrite <- (kind_of_back r1), <- (kind_of_back r2), Hb.
  - intros C1 C2. now rewrite <- (clean_back r1 C1), <- (clean_back r2 C2).
Qed.

(** The header of the samples and the one with "1.0\x00" as its version. *)
Lemma frames_identify_records_witness :
  kind_of (Parsed_Header header_sample) = kind_of (Parsed_Header header_nul)
  /\ back (Parsed_Header header_sample) = back (Parsed_Header header_nul)
  /\ (clean (Parsed_Header header_sample) = true ->
      clean (Parsed_Header header_nul) = true ->
      Parsed_Header header_sample = Parsed_Header header_nul).
Proof.
  apply (frames_identify_records (Parsed_Header header_sample)
           (Parsed_Header header_nul) frame_header); vm_compute; reflexivity.
Defined.

(** X11.  Whatever was read from the standard input, when [parse_stream]
    returns, the three counts of the summary add up to the total: every
    entry is a header, a data record or a trailer. *)
Theorem summary_counts (stream : bytes) (err : list stderr_line)
    (results : list record_info) :
  parse_stream stream = (err, Ok results) ->
  Parser.main {| verbose := false; summary := true |} stream
  = ([Summary (List.length results) (count_type "HEADER" results)
        (count_type "DATA" results) (count_type "TRAILER" results); Newline],
     err, 0%Z)
  /\ count_type "HEADER" results + count_type "DATA" results
     + count_type "TRAILER" results = List.length results
  /\ List.length results = List.length stream / 120.
Proof.
  intros H.
  destruct (parse_stream_loop_returns stream [] 1%Z err results H)
    as (more & -> & Hl & _ & Ht & _).
  cbn [app] in *. split; [|split; [now apply count_types|exact Hl]].
  unfold Parser.main. rewrite H. reflexivity.
Qed.

Lemma summary_counts_witness :
  count_type "HEADER" (tagged 1 [Parsed_Header header_sample])
  + count_type "DATA" (tagged 1 [Parsed_Header header_sample])
  + count_type "TRAILER" (tagged 1 [Parsed_Header header_sample])
  = List.length (tagged 1 [Parsed_Header header_sample]).
Proof.
  refine (proj1 (proj2 (summary_counts (frame_header ++ zeros 7)
                          [Warning_short 2 7]
                          (tagged 1 [Parsed_Header header_sample]) _))).
  vm_compute. reflexivity.
Defined.

(** ** The generator, and the generator with the parser *)

(** X12.  The generator ends with the exit status 0 exactly for the
    numbers of data records from 1 to 92681: below 1 it refuses the
    number, and from 92682 on the checksum, the sum of the identifiers,
    does not fit the four bytes of its field. *)
Theorem generator_limit (clock : nat -> Generator.datetime) (n : Z) :
  snd (Generator.main clock n) = 0%Z <-> (1 <= n <= 92681)%Z.
Proof.
  unfold Generator.main. split.
  - intros H. destruct (Z.ltb_spec n 1) as [L|L]; [discriminate H|].
    destruct (Z_le_gt_dec n 92681) as [U|U]; [lia|].
    destruct (generate_sample_data_raises clock n ltac:(lia)) as [e He].
    destruct (Generator.generate_sample_data clock n) as [output r].
    cbn [snd] in He. subst r. discriminate H.
  - intros H. destruct (Z.ltb_spec n 1) as [L|L]; [lia|].
    destruct (generate_sample_data_ok clock n ltac:(lia)) as (frames & -> & _).
    reflexivity.
Qed.

(** X13.  For 1 to 92681 data records the generator writes 120 * (n + 2)
    bytes, and the parser reads them as n + 2 records without a warning:
    the header, the n data records (the [i]-th with the identifier
    [i + 1], the value [(i + 1) * 1000], the status 0 for each third one
    and the [i]-th name and description in turns) and the trailer with
    the count [n], the sum [500 * n * (n + 1)] and the checksum
    [n * (n + 1) / 2]; the summary counts 1 header, n data records and 1
    trailer. *)
Theorem generator_feeds_parser (clock : nat -> Generator.datetime) (n : Z) :
  (1 <= n <= 92681)%Z ->
  exists output,
    Generator.main clock n
    = (output, if (1000 <? n)%Z then [Generator.Warning_many] else [], 0%Z)
    /\ List.length output = 120 * (Z.to_nat n + 2)
    /\ parse_stream output = ([], Ok (tagged 1 (sample_records clock n)))
    /\ Parser.main {| verbose := false; summary := true |} output
       = ([Summary (Z.to_nat n + 2) 1 (Z.to_nat n) 1; Newline], [], 0%Z).
Proof.
  intros H.
  destruct (generate_sample_data_ok clock n ltac:(lia)) as (frames & G & F).
  exists (concat frames).
  pose proof (PipeFacts.parse_stream_frames _ _ F (sample_records_clean clock n)) as P.
  split; [|split; [|split; [exact P|]]].
  - unfold Generator.main. destruct (Z.ltb_spec n 1) as [L|L]; [lia|].
    now rewrite G.
  - rewrite (length_concat_frames _ _ F), PipeFacts.sample_records_length.
    reflexivity.
  - unfold Parser.main. rewrite P. cbn [summary].
    rewrite tagged_length, PipeFacts.sample_records_length.
    destruct (PipeFacts.sample_records_counts clock n 1) as (-> & -> & ->).
    reflexivity.
Qed.

Lemma generator_feeds_parser_witness :
  exists output,
    Generator.main clock 3
    = (output, if (1000 <? 3)%Z then [Generator.Warning_many] else [], 0%Z)
    /\ List.length output = 120 * (Z.to_nat 3 + 2)
    /\ parse_stream output = ([], Ok (tagged 1 (sample_records clock 3)))
    /\ Parser.main {| verbose := false; summary := true |} output
       = ([Summary (Z.to_nat 3 + 2) 1 (Z.to_nat 3) 1; Newline], [], 0%Z).
Proof. apply (generator_feeds_parser clock 3). lia. Defined.

(** X14.  From 92682 data records on (up to 4294966, where the values
    still fit their field) the generator has written the header and all
    the data records when the trailer fails: 120 * (n + 1) bytes, the
    warning and the error, and the exit status 1.  The parser reads these
    bytes as n + 1 records, says nothing and ends with 0: it checks
    neither the number of records that the header announces nor that a
    trailer ends the stream. *)
Theorem generator_partial_output (clock : nat -> Generator.datetime) (n : Z) :
  (92682 <= n <= 4294966)%Z ->
  exists output,
    Generator.main clock n
    = (output,
       [Generator.Warning_many; Generator.Error_main FormatFieldError], 1%Z)
    /\ List.length output = 120 * (Z.to_nat n + 1)
    /\ parse_stream output
       = ([], Ok (tagged 1
                    (Parsed_Header (sample_header clock n)
                     :: map (fun i => Parsed_Data (sample_data clock i))
                          (Generator.range 0 n))))
    /\ total_records (sample_header clock n) = (n + 2)%Z
    /\ snd (Parser.main {| verbose := false; summary := false |} output) = 0%Z.
Proof.
  intros H.
  destruct (generate_sample_data_partial clock n H) as (frames & G & F).
  exists (concat frames).
  pose proof (PipeFacts.parse_stream_frames _ _ F
                (PipeFacts.sample_prefix_clean clock n)) as P.
  split; [|split; [|split; [exact P|split]]].
  - unfold Generator.main. destruct (Z.ltb_spec n 1) as [L|L]; [lia|].
    destruct (Z.ltb_spec 1000 n) as [M|M]; [|lia]. now rewrite G.
  - rewrite (length_concat_frames _ _ F). cbn [List.length].
    rewrite length_map, PipeFacts.range_length. unfold RECORD_SIZE. lia.
  - unfold sample_header. cbn [total_records]. lia.
  - unfold Parser.main. now rewrite P.
Qed.

Lemma generator_partial_output_witness :
  exists output,
    Generator.main clock 92682
    = (output,
       [Generator.Warning_many; Generator.Error_main FormatFieldError], 1%Z)
    /\ List.length output = 120 * (Z.to_nat 92682 + 1)
    /\ parse_stream output
       = ([], Ok (tagged 1
                    (Parsed_Header (sample_header clock 92682)
                     :: map (fun i => Parsed_Data (sample_data clock i))
                          (Generator.range 0 92682))))
    /\ total_records (sample_header clock 92682) = (92682 + 2)%Z
    /\ snd (Parser.main {| verbose := false; summary := false |} output) = 0%Z.
Proof. apply (generator_partial_output clock 92682). lia. Defined.

(** ** The details of a format string: the listing and the exit status *)

Import StructSize FormatDetails Listing DetailsFacts.

(** X15.  The composition that [print_format_details] prints has lines
    only of the form "{repeat}x {char} - {desc}", each with a repeat
    count that is not negative and with the description that the table
    has for its character, or "不明"; when the loop returns, the lines
    are about the characters of the format body that are no digits, all
    of them and in their order; and digits at the end of the format body
    are passed over without a line and without a call of [int]. *)
Theorem listing_of_format (max_str_digits : nat) (format_body digits : list ascii) :
  Forall described (fst (composition max_str_digits format_body []))
  /\ (snd (composition max_str_digits format_body []) = None ->
      chars_of (fst (composition max_str_digits format_body []))
      = filter plain format_body)
  /\ (forallb isdigit digits = true ->
      composition max_str_digits (format_body ++ digits) []
      = composition max_str_digits format_body []).
Proof.
  split; [apply composition_described|split].
  - destruct (composition max_str_digits format_body []) as [out r] eqn:E.
    cbn [fst snd]. intros ->. exact (composition_chars _ _ _ _ E).
  - intros D. now apply composition_trailing.
Qed.

(** X16.  The loop of [print_format_details] raises only in [int(count)],
    at a character that follows a count which holds a superscript digit
    or more digits than [int] accepts; the lines printed before are about
    the characters before that count. *)
Theorem listing_raises (max_str_digits : nat) (format_body : list ascii)
    (out : list stdout_line) (e : raised) :
  composition max_str_digits format_body [] = (out, Some e) ->
  exists before count c rest,
    e = Raised_int count
    /\ format_body = before ++ count ++ c :: rest
    /\ count <> []
    /\ forallb isdigit count = true
    /\ plain c = true
    /\ (forallb isdecimal count = false
        \/ 0 < max_str_digits < List.length count)
    /\ chars_of out = filter plain before.
Proof.
  intros H.
  destruct (composition_raised max_str_digits format_body [] out e eq_refl H)
    as (before & count & c & rest & He & Hb & Hn & Hd & Hc & Hi & Ho).
  exists before, count, c, rest. apply int_None in Hi. cbn [app] in Hb. auto 10.
Qed.

(** The format of 4301 zeros and an "i", whose size is 0. *)
Lemma listing_raises_witness :
  exists before count c rest,
    Raised_int (repeat "0"%char 4301) = Raised_int count
    /\ repeat "0"%char 4301 ++ ["i"%char] = before ++ count ++ c :: rest
    /\ count <> []
    /\ forallb isdigit count = true
    /\ plain c = true
    /\ (forallb isdecimal count = false \/ 0 < 4300 < List.length count)
    /\ chars_of [] = filter plain before.
Proof.
  apply (listing_raises 4300 (repeat "0"%char 4301 ++ ["i"%char]) []
           (Raised_int (repeat "0"%char 4301))).
  vm_compute. reflexivity.
Defined.

(** X17.  The exit status of [struct_size.py].  With [--simple] it is 0
    when [struct.calcsize] returns and 1 when it raises [struct.error].
    Without [--simple] it is 0 exactly when [struct.calcsize] returns and
    the loop of the composition returns too; so it is the same as with
    [--simple] for every format without superscript digits that is no
    longer than the limit of [int], and it is 1 with a size that
    [--simple] prints with the status 0 when a count is not read.
    [--verbose] changes no status. *)
Theorem details_status (calcsize : string -> option Z) (max_str_digits : nat)
    (verbose : bool) (format : string) :
  snd (FormatDetails.main calcsize max_str_digits true verbose format)
  = StructSize.main_simple calcsize format
  /\ (snd (FormatDetails.main calcsize max_str_digits false verbose format) = 0%Z
      <-> StructSize.main_simple calcsize format = 0%Z
          /\ snd (composition max_str_digits (format_body format) []) = None)
  /\ (modest max_str_digits (format_body format) = true ->
      snd (FormatDetails.main calcsize max_str_digits false verbose format)
      = StructSize.main_simple calcsize format)
  /\ (StructSize.main_simple calcsize format = 0%Z ->
      snd (composition max_str_digits (format_body format) []) <> None ->
      snd (FormatDetails.main calcsize max_str_digits false verbose format) = 1%Z)
  /\ snd (FormatDetails.main calcsize max_str_digits false verbose format)
     = snd (FormatDetails.main calcsize max_str_digits false (negb verbose) format).
Proof.
  assert (M : modest max_str_digits (format_body format) = true ->
              snd (composition max_str_digits (format_body format) []) = None).
  { unfold modest. intros H. apply andb_prop in H as [F L].
    apply composition_modest; [exact F|reflexivity|].
    cbn [List.length]. apply orb_prop in L as [L|L].
    - left. now apply Nat.eqb_eq.
    - right. apply Nat.leb_le in L. lia. }
  unfold FormatDetails.main, print_format_details, StructSize.main_simple,
    calculate_format_size in *.
  destruct (calcsize format) as [size|].
  - destruct (composition max_str_digits (format_body format) [])
      as [out [e|]] eqn:E; cbn [snd] in *.
    + destruct (composition_raised max_str_digits (format_body format) []
                  out e eq_refl E) as (? & count & ? & ? & -> & _).
      cbn [is_ValueError].
      split; [reflexivity|].
      split; [split; [discriminate|intros [_ H]; discriminate H]|].
      split; [intros H; discriminate (M H)|].
      split; reflexivity.
    + repeat split; auto. congruence.
  - cbn [snd is_ValueError Py.is_ValueError]. repeat split; auto; try discriminate.
    intros [H _]. discriminate H.
Qed.

(** X18.  The byte order that [print_format_details] prints is always an
    entry of its table, never the default "ネイティブ" of the lookup; it
    is the entry of the first character of the format when that is one
    of "@", "=", "<", ">" and "!", and then the composition is about the
    rest of the format; otherwise it is the entry of "@" and the
    composition is about the whole format. *)
Theorem byte_order_split (format : string) :
  In (byte_order format, byte_order_name format) byte_order_map
  /\ byte_order_name format <> lit "ネイティブ"
  /\ (list_ascii_of_string format = byte_order format :: format_body format
      \/ (list_ascii_of_string format = format_body format
          /\ byte_order format = "@"%char
          /\ forall c rest, format = String c rest ->
               contains byte_order_map c = false)).
Proof.
  assert (I : In (byte_order format, byte_order_name format) byte_order_map).
  { unfold byte_order_name. apply get_In. unfold byte_order.
    destruct format as [|c rest]; [reflexivity|].
    destruct (contains byte_order_map c) eqn:E; [exact E|reflexivity]. }
  split; [exact I|split].
  - unfold byte_order_map in I. cbn [In] in I.
    destruct I as [I|[I|[I|[I|[I|[]]]]]]; injection I as _ <-;
      vm_compute; discriminate.
  - unfold byte_order, format_body. destruct format as [|c rest].
    + right. repeat split. intros c rest H. discriminate H.
    + destruct (contains byte_order_map c) eqn:E; [now left|].
      right. repeat split. intros c' rest' [= <- _]. exact E.
Qed.

(** ** The legacy decoding against its description *)

Module LegacyFacts.

Import Spec PyFacts CodecFacts ShiftJISFacts RebuildFacts.
Import ShiftJIS Legacy.

Local Open Scope N_scope.

(** What one byte forms, and what two bytes form. *)
Lemma valid_character_one (x : byte) :
  valid_character [x]
  = if Byte.to_N x <? 0x80 then Some (Byte.to_N x)
    else if (0xA1 <=? Byte.to_N x) && (Byte.to_N x <=? 0xDF)
    then Some (0xFEC0 + Byte.to_N x)
    else None.
Proof.
  unfold valid_character. cbn [decode].
  destruct (Byte.to_N x <? 0x80); [reflexivity|].
  destruct ((0xA1 <=? Byte.to_N x) && (Byte.to_N x <=? 0xDF)); [reflexivity|].
  now destruct (is_lead (Byte.to_N x)).
Qed.

Lemma valid_character_two (x y : byte) :
  valid_character [x; y]
  = if Byte.to_N x <? 0x80 then None
    else if (0xA1 <=? Byte.to_N x) && (Byte.to_N x <=? 0xDF) then None
    else if is_lead (Byte.to_N x)
    then decode_pair (Byte.to_N x) (Byte.to_N y)
    else None.
Proof.
  assert (T : forall c, match fmap (cons c) (decode strict [y]) with
                        | Ok [c'] => Some c'
                        | _ => None
                        end = None).
  { intros c. cbn [decode].
    destruct (Byte.to_N y <? 0x80); [reflexivity|].
    destruct ((0xA1 <=? Byte.to_N y) && (Byte.to_N y <=? 0xDF)); [reflexivity|].
    now destruct (is_lead (Byte.to_N y)). }
  unfold valid_character. cbn [decode].
  destruct (Byte.to_N x <? 0x80); [apply T|].
  destruct ((0xA1 <=? Byte.to_N x) && (Byte.to_N x <=? 0xDF)); [apply T|].
  destruct (is_lead (Byte.to_N x)); [|reflexivity].
  now destruct (decode_pair (Byte.to_N x) (Byte.to_N y)).
Qed.

(** The decoder with [errors='ignore'] is the description. *)
Lemma decode_ignore_drop_invalid (n : nat) :
  forall b : bytes,
    (List.length b <= n)%nat -> decode ignore b = Ok (drop_invalid b).
Proof.
  induction n as [|n IH]; intros [|x rest] L; try reflexivity;
    cbn [List.length] in L; [lia|].
  cbn [drop_invalid]. rewrite valid_character_one.
  destruct (Byte.to_N x <? 0x80) eqn:E1.
  { rewrite (decode_single _ _ _ E1), (IH rest) by lia. reflexivity. }
  destruct ((0xA1 <=? Byte.to_N x) && (Byte.to_N x <=? 0xDF)) eqn:E2.
  { rewrite (decode_kana _ _ _ E1 E2), (IH rest) by lia. reflexivity. }
  destruct rest as [|y rest'].
  { cbn [decode]. rewrite E1, E2. now destruct (is_lead (Byte.to_N x)). }
  rewrite valid_character_two, E1, E2.
  destruct (is_lead (Byte.to_N x)) eqn:E3.
  - destruct (decode_pair (Byte.to_N x) (Byte.to_N y)) as [ch|] eqn:E4.
    + rewrite (decode_double _ _ _ _ _ E1 E2 E3 E4), (IH rest').
      * reflexivity.
      * cbn [List.length] in L. lia.
    + rewrite (decode_illegal _ _ _ E1 E2 E3 E4). apply IH. lia.
  - rewrite (decode_stray _ _ E1 E2 E3). apply IH. lia.
Qed.

(** The valid characters are the characters that the encoder writes. *)
Lemma encoded_is_valid (c : N) (e : bytes) :
  encode_char c = Some e -> valid_character e = Some (read_back c).
Proof.
  intros H. unfold valid_character.
  pose proof (encode_char_decode strict c e [] H) as D.
  rewrite app_nil_r in D. now rewrite D.
Qed.

Lemma valid_is_encoded (b : bytes) (c : N) :
  valid_character b = Some c -> encode_char c = Some b.
Proof.
  unfold valid_character. intros H.
  destruct (decode strict b) as [[|c' [|? ?]]|] eqn:D; try discriminate.
  injection H as ->. apply decode_strict_encode in D.
  cbn [encode] in D. destruct (encode_char c) as [e|]; [|discriminate].
  cbn in D. injection D as <-. now rewrite app_nil_r.
Qed.

Lemma valid_character_length (b : bytes) (c : N) :
  valid_character b = Some c ->
  (exists x, b = [x]) \/ (exists x y, b = [x; y] /\ valid_character [x] = None).
Proof.
  intros H. pose proof H as V. unfold valid_character in H.
  destruct b as [|x [|y [|z rest]]].
  - discriminate.
  - left. now exists x.
  - right. exists x, y. split; [reflexivity|].
    rewrite valid_character_two in V. rewrite valid_character_one.
    destruct (Byte.to_N x <? 0x80); [discriminate|].
    now destruct ((0xA1 <=? Byte.to_N x) && (Byte.to_N x <=? 0xDF)).
  - exfalso. apply valid_is_encoded in V.
    apply encode_char_cases in V.
    destruct V as [[V _]|[[V _]|(code & V & _)]]; discriminate V.
Qed.

(** The description keeps each valid character and drops each byte that
    starts none. *)
Lemma drop_invalid_keeps (e rest : bytes) (c : N) :
  valid_character e = Some c ->
  drop_invalid (e ++ rest) = c :: drop_invalid rest.
Proof.
  intros H. destruct (valid_character_length e c H) as [[x ->]|(x & y & -> & N1)].
  - cbn [app drop_invalid]. now rewrite H.
  - cbn [app drop_invalid]. now rewrite N1, H.
Qed.

Lemma drop_invalid_drops (x : byte) (rest : bytes) :
  valid_character [x] = None ->
  (forall y, hd_error rest = Some y -> valid_character [x; y] = None) ->
  drop_invalid (x :: rest) = drop_invalid rest.
Proof.
  intros H1 H2. cbn [drop_invalid]. rewrite H1.
  destruct rest as [|y rest']; [reflexivity|].
  now rewrite (H2 y eq_refl).
Qed.

End LegacyFacts.

(** ** The two statements that rest on the lemmas above *)

(** C8.  Decoding a legacy text field never raises.  Whatever the bytes of
    the field, it strips the zero bytes at the end (and only them: what is
    left does not end with a zero byte), and returns the text of what is
    left without what forms no valid character: [drop_invalid], which
    goes through the bytes, keeps the character of each byte or pair of
    bytes that forms one, and drops, one byte at a time, each byte that
    starts none.  The valid characters are exactly the characters that
    the encoder writes: the bytes written for a character form that
    character (as it is read back), and the bytes that form a character
    are the bytes written for it.  So the bytes 80 93 63 decode to U+7530:
    0x80 is dropped and 93 63 is kept.  The bytes kept are a subsequence
    of the stripped bytes that the strict decoder reads as the same text,
    and when the stripped bytes are all valid, the text is what the strict
    decoder returns.  The parser of the field succeeds on every stream
    that holds the bytes of the field. *)
Theorem decode_never_raises (obj rest : bytes) :
  exists (s : str) (kept : bytes) (k : nat),
    ShiftJISString_decode obj = Ok s
    /\ ShiftJISString_parse (List.length obj) (obj ++ rest) = Ok (s, rest)
    /\ obj = rstrip obj ++ zeros k
    /\ (forall c, rstrip obj <> c ++ [x00])
    /\ subsequence kept (rstrip obj)
    /\ ShiftJIS.decode ShiftJIS.strict kept = Ok s
    /\ (forall s', ShiftJIS.decode ShiftJIS.strict (rstrip obj) = Ok s' -> s' = s)
    /\ s = Legacy.drop_invalid (rstrip obj)
    /\ (forall e c tail,
          Legacy.valid_character e = Some c ->
          Legacy.drop_invalid (e ++ tail) = c :: Legacy.drop_invalid tail)
    /\ (forall x tail,
          Legacy.valid_character [x] = None ->
          (forall y, hd_error tail = Some y ->
                     Legacy.valid_character [x; y] = None) ->
          Legacy.drop_invalid (x :: tail) = Legacy.drop_invalid tail)
    /\ (forall c e,
          ShiftJIS.encode_char c = Some e ->
          Legacy.valid_character e = Some (read_back c))
    /\ (forall e c,
          Legacy.valid_character e = Some c -> ShiftJIS.encode_char c = Some e)
    /\ ShiftJISString_decode [x80; x93; x63; x00] = Ok [0x7530%N].
Proof.
  destruct (decode_ignore_kept (rstrip obj)) as (s & kept & D & S & T).
  destruct (rstrip_zeros_inv obj) as [k Hk].
  exists s, kept, k.
  assert (Hd : ShiftJISString_decode obj = Ok s) by exact D.
  split; [exact Hd|]. split; [|split; [exact Hk|split; [|split; [exact S|split; [exact T|split]]]]].
  - unfold ShiftJISString_parse, Bytes_parse, pbind, plift.
    rewrite stream_read_app by reflexivity. now rewrite Hd.
  - intros c. apply rstrip_last.
  - intros s' H'. apply decode_strict_ignore in H'.
    rewrite D in H'. now injection H'.
  - split.
    { rewrite (LegacyFacts.decode_ignore_drop_invalid _ (rstrip obj) (le_n _)) in D.
      now injection D. }
    split; [intros e c tail; apply LegacyFacts.drop_invalid_keeps|].
    split; [intros x tail; apply LegacyFacts.drop_invalid_drops|].
    split; [intros c e; apply LegacyFacts.encoded_is_valid|].
    split; [intros e c; apply LegacyFacts.valid_is_encoded|].
    vm_compute. reflexivity.
Qed.


